(** * Collaborative whiteboard: room registry, session gateway and client history

    A shallow embedding of [server/server.ts] (the Express + socket.io server)
    and of the history and socket code of [client/src/components/Whiteboard.tsx],
    followed by the properties that the specification states about them.

    Conventions.
    - Time is the millisecond count returned by [Date.now()]; every handler
      receives the value [now] that it would read from the clock.
    - A JavaScript [Map] is an association list in insertion order.
    - Values arriving from the network are dynamically typed: they are [Json]
      values, and a handler that would raise a [TypeError] on them returns
      [None] from the property read so that its [catch] branch can be taken.
    - socket.io's adapter is the list [sids]: every connected socket together
      with the rooms it is in.  [socket.to(r).emit], [socket.broadcast.emit],
      [socket.emit] and [socket.join] are modelled on that list. *)

From Stdlib Require Import ZArith List String Ascii Bool Lia.
Import ListNotations.

Local Open Scope Z_scope.

#[local] Set Warnings "-register-all".

(* ================================================================== *)
(** * Part I: definitions *)
(* ================================================================== *)

(** ** JavaScript [Map<string, V>] *)

Module JsMap.

Definition t (V : Type) : Type := list (string * V).

(** [m.get(k)]; [None] is [undefined]. *)
Fixpoint get {V : Type} (k : string) (m : t V) : option V :=
  match m with
  | [] => None
  | (k', v) :: m' => if String.eqb k k' then Some v else get k m'
  end.

(** [m.has(k)] *)
Definition has {V : Type} (k : string) (m : t V) : bool :=
  match get k m with Some _ => true | None => false end.

(** [m.set(k, v)]: an existing key keeps its place, a new key goes last. *)
Fixpoint set {V : Type} (k : string) (v : V) (m : t V) : t V :=
  match m with
  | [] => [(k, v)]
  | (k', v') :: m' =>
      if String.eqb k k' then (k, v) :: m' else (k', v') :: set k v m'
  end.

(** [m.delete(k)] *)
Definition delete {V : Type} (k : string) (m : t V) : t V :=
  filter (fun kv => negb (String.eqb k (fst kv))) m.

(** [Array.from(m.keys())] *)
Definition keys {V : Type} (m : t V) : list string := map fst m.

(** [m.size] *)
Definition size {V : Type} (m : t V) : Z := Z.of_nat (List.length m).

End JsMap.

(** ** Values on the wire *)

(** What the listeners and the endpoints receive: the scalars and objects
    of a JSON document, and [undefined] for what is absent.  Numbers are
    integers; arrays do not occur in the messages of this protocol and are
    not represented. *)
Inductive Json : Type :=
| JUndefined
| JNull
| JBool (b : bool)
| JNum (n : Z)
| JStr (s : string)
| JObj (fields : list (string * Json)).

(** JavaScript truthiness, as tested by [if (v)] and [v || w]. *)
Definition truthy (v : Json) : bool :=
  match v with
  | JUndefined | JNull => false
  | JBool b => b
  | JNum n => negb (n =? 0)
  | JStr s => negb (String.eqb s "")
  | JObj _ => true
  end.

(** [a || b] *)
Definition js_or (a b : Json) : Json := if truthy a then a else b.

(** Does the object have an own property of this name? *)
Definition has_key (name : string) (fields : list (string * Json)) : bool :=
  existsb (fun kv => String.eqb name (fst kv)) fields.

(** Can [`${v}`] be evaluated?  A template literal applies [ToString] to
    the value.  Every primitive has a string; an object is converted by its
    [toString] method and then by [valueOf].  A value parsed from JSON has
    no callable own property, so an own [toString] key hides
    [Object.prototype.toString], and [valueOf], own or inherited, yields no
    primitive: the conversion throws a [TypeError].  Without that key the
    inherited [toString] answers. *)
Definition printable (v : Json) : bool :=
  match v with
  | JObj fields => negb (has_key "toString" fields)
  | _ => true
  end.

(** The same, said without the function: an object with an own
    [toString] key. *)
Definition unprintable (v : Json) : Prop :=
  exists fields x, v = JObj fields /\ In ("toString"%string, x) fields.

Fixpoint field (name : string) (fields : list (string * Json)) : Json :=
  match fields with
  | [] => JUndefined
  | (k, v) :: rest => if String.eqb name k then v else field name rest
  end.

(** [v.name] (also one component of [const { name } = v]): reading a property
    of [undefined] or [null] throws, a primitive has no such property. *)
Definition prop (v : Json) (name : string) : option Json :=
  match v with
  | JUndefined | JNull => None
  | JObj fields => Some (field name fields)
  | _ => Some JUndefined
  end.

(** [v?.name] *)
Definition optprop (v : Json) (name : string) : Json :=
  match prop v name with Some x => x | None => JUndefined end.

(** [s.slice(-n)] *)
Definition slice_last (n : nat) (s : string) : string :=
  substring (String.length s - n) n s.

(** [toUpperCase] on ASCII strings: the instance used in the worked
    scenarios, where every identifier is alphanumeric. *)
Definition upper_ascii (c : ascii) : ascii :=
  let n := nat_of_ascii c in
  if (97 <=? n)%nat && (n <=? 122)%nat then ascii_of_nat (n - 32) else c.

Fixpoint upper (s : string) : string :=
  match s with
  | EmptyString => EmptyString
  | String c rest => String (upper_ascii c) (upper rest)
  end.

(** ** The server: [server/server.ts] *)

Module Server.

Definition SocketId : Type := string.

Record UserData : Type := mkUser {
  user_id : SocketId;
  user_name : Json;
  joinedAt : Z
}.

Record RoomData : Type := mkRoom {
  room_id : string;
  room_name : Json;
  isPrivate : Json;
  createdAt : Z;
  users : list UserData;
  canvasData : Json;
  lastActivity : option Z
}.

(** Payloads of the events the server emits. *)
Inductive ServerEvent : Type :=
| room_error (message : string) (requestedRoom : option string)
    (availableRooms : option (list string))
| room_joined (roomId : string) (roomName : Json) (members : list UserData)
| load_canvas (data : Json)
| user_joined (user : UserData) (members : list UserData)
| user_left (user : UserData) (members : list UserData)
| drawing (data : Json)
| clear_canvas
| undo
| redo.

(** Bodies of the HTTP responses of [POST /api/rooms]. *)
Inductive HttpBody : Type :=
| room_created (roomId : string) (roomName : Json) (totalRooms : Z)
| create_failed.

Inductive Effect : Type :=
| Emit (target : SocketId) (event : ServerEvent)
| Respond (status : Z) (body : HttpBody).

(** The module-level [rooms] table, socket.io's adapter and the pending
    [setTimeout] callbacks (the [roomId] each closure captured, and the time
    from which it may run). *)
Record State : Type := mkState {
  rooms : JsMap.t RoomData;
  sids : list (SocketId * list string);
  timers : list (string * Z)
}.

Definition initial : State := mkState [] [] [].

Definition with_rooms (st : State) (r : JsMap.t RoomData) : State :=
  mkState r (sids st) (timers st).

(** [room.lastActivity = new Date()] *)
Definition touch (now : Z) (room : RoomData) : RoomData :=
  mkRoom (room_id room) (room_name room) (isPrivate room) (createdAt room)
    (users room) (canvasData room) (Some now).

(** [room.canvasData = v] *)
Definition set_canvasData (v : Json) (room : RoomData) : RoomData :=
  mkRoom (room_id room) (room_name room) (isPrivate room) (createdAt room)
    (users room) v (lastActivity room).

(** [room.users = us] after a [push] or a [splice] *)
Definition set_users (us : list UserData) (room : RoomData) : RoomData :=
  mkRoom (room_id room) (room_name room) (isPrivate room) (createdAt room)
    us (canvasData room) (lastActivity room).

(** *** socket.io primitives *)

Definition inRoom (r : string) (entry : SocketId * list string) : bool :=
  existsb (String.eqb r) (snd entry).

(** The sockets of the broadcast group named [r]. *)
Definition socketsIn (r : string) (st : State) : list SocketId :=
  map fst (filter (inRoom r) (sids st)).

Definition other (sender : SocketId) (c : SocketId) : bool :=
  negb (String.eqb c sender).

(** Targets of [socket.to(r).emit(...)]: the group [r] without the sender. *)
Definition to (sender : SocketId) (r : string) (st : State) : list SocketId :=
  filter (other sender) (socketsIn r st).

(** Targets of [socket.to(v).emit(...)] for a dynamically typed [v]: groups are
    only ever created under string names, so any other value names an empty
    group. *)
Definition to_value (sender : SocketId) (v : Json) (st : State) : list SocketId :=
  match v with
  | JStr r => to sender r st
  | _ => []
  end.

(** Targets of [socket.broadcast.emit(...)]: every connection but the sender. *)
Definition broadcast (sender : SocketId) (st : State) : list SocketId :=
  filter (other sender) (map fst (sids st)).

Definition emit (targets : list SocketId) (ev : ServerEvent) : list Effect :=
  map (fun c => Emit c ev) targets.

(** [socket.join(r)] *)
Definition join (socket : SocketId) (r : string) (st : State) : State :=
  mkState (rooms st)
    (map (fun e => if String.eqb (fst e) socket
                   then (fst e, if inRoom r e then snd e else snd e ++ [r])
                   else e) (sids st))
    (timers st).

(** A new connection: socket.io places the socket in the group named by its
    own id. *)
Definition on_connection (socket : SocketId) (st : State) : State :=
  mkState (rooms st) (sids st ++ [(socket, [socket])]) (timers st).

(** What socket.io does to the adapter before the ['disconnect'] listener
    runs: the socket leaves every group. *)
Definition leave_all (socket : SocketId) (st : State) : State :=
  mkState (rooms st)
    (filter (fun e => negb (String.eqb (fst e) socket)) (sids st))
    (timers st).

(** [const room = rooms.get(v); if (room) { ...update room... }] *)
Definition update_value (v : Json) (f : RoomData -> RoomData)
  (m : JsMap.t RoomData) : JsMap.t RoomData :=
  match v with
  | JStr r =>
      match JsMap.get r m with
      | Some room => JsMap.set r (f room) m
      | None => m
      end
  | _ => m
  end.

(** *** Registry and gateway handlers *)

Section Handlers.

(** [String.prototype.toUpperCase] is left abstract: nothing below depends
    on how it maps characters. *)
Variable toUpperCase : string -> string.

(** [generateRoomId], as a function of the two values it reads from its
    environment: [Date.now().toString(36)] and [Math.random().toString(36)]. *)
Definition generateRoomId (env : string * string) : string :=
  let timestamp := slice_last 3 (fst env) in
  let random := substring 2 3 (snd env) in
  substring 0 6 (toUpperCase (timestamp ++ random)).

(** The loop [while (rooms.has(roomId) && attempts < 10)] of
    [POST /api/rooms].  [budget] is [10 - attempts]; [next] counts the calls
    made to [generateRoomId] so far. *)
Fixpoint retry (m : JsMap.t RoomData) (entropy : nat -> string * string)
  (budget : nat) (next : nat) (roomId : string) : string :=
  match budget with
  | O => roomId
  | S budget' =>
      if JsMap.has roomId m
      then retry m entropy budget' (S next) (generateRoomId (entropy next))
      else roomId
  end.

Definition allocate (m : JsMap.t RoomData) (entropy : nat -> string * string)
  : string :=
  retry m entropy 10 1 (generateRoomId (entropy O)).

(** [app.post('/api/rooms', ...)]; [body] is [req.body].  The log line
    after [rooms.set] interpolates [newRoom.name]; when that throws, the
    room is already registered and the [catch] answers 500. *)
Definition createRoom (now : Z) (body : Json)
  (entropy : nat -> string * string) (st : State) : State * list Effect :=
  let roomId := allocate (rooms st) entropy in
  match prop body "roomName", prop body "isPrivate" with
  | Some roomName, Some private =>
      let newRoom :=
        mkRoom roomId (js_or roomName (JStr ("Room " ++ roomId)))
          (js_or private (JBool false)) now [] JNull (Some now) in
      let rooms' := JsMap.set roomId newRoom (rooms st) in
      (with_rooms st rooms',
       if printable (room_name newRoom)
       then [Respond 200 (room_created roomId (room_name newRoom) (JsMap.size rooms'))]
       else [Respond 500 create_failed])
  | _, _ => (st, [Respond 500 create_failed])
  end.

(** [socket.on('join-room', ...)].  The log line between the lookup and
    [if (!room)] interpolates [userName]; when that throws, the [catch]
    answers as for any other failure and nothing else has happened. *)
Definition on_join_room (now : Z) (socket : SocketId) (data : Json)
  (st : State) : State * list Effect :=
  match prop data "roomId", prop data "userName" with
  | Some (JStr roomId), Some userName =>
      let upperRoomId := toUpperCase roomId in
      if printable userName then
        match JsMap.get upperRoomId (rooms st) with
        | None =>
            (st, [Emit socket (room_error "Room not found" (Some upperRoomId)
                                 (Some (JsMap.keys (rooms st))))])
        | Some room =>
            let st1 := join socket upperRoomId st in
            let user := mkUser socket (js_or userName (JStr "Anonymous")) now in
            let room' := touch now (set_users (users room ++ [user]) room) in
            let st2 := with_rooms st1 (JsMap.set upperRoomId room' (rooms st1)) in
            (st2,
             Emit socket (room_joined upperRoomId (room_name room') (users room'))
             :: (if truthy (canvasData room')
                 then [Emit socket (load_canvas (canvasData room'))] else [])
             ++ emit (to socket upperRoomId st2) (user_joined user (users room')))
        end
      else (st, [Emit socket (room_error "Failed to join room" None None)])
  | _, _ => (st, [Emit socket (room_error "Failed to join room" None None)])
  end.

(** [socket.on('drawing', ...)] *)
Definition on_drawing (now : Z) (socket : SocketId) (data : Json)
  (st : State) : State * list Effect :=
  match prop data "roomId" with
  | None => (st, [])
  | Some roomId =>
      if truthy roomId
      then (with_rooms st (update_value roomId (touch now) (rooms st)),
            emit (to_value socket roomId st) (drawing data))
      else (st, emit (broadcast socket st) (drawing data))
  end.

(** [socket.on('clear-canvas', ...)] *)
Definition on_clear_canvas (now : Z) (socket : SocketId) (data : Json)
  (st : State) : State * list Effect :=
  let roomId := optprop data "roomId" in
  if truthy roomId
  then (with_rooms st
          (update_value roomId (fun room => touch now (set_canvasData JNull room))
             (rooms st)),
        emit (to_value socket roomId st) clear_canvas)
  else (st, emit (broadcast socket st) clear_canvas).

(** [socket.on('undo', ...)] and [socket.on('redo', ...)] *)
Definition on_signal (ev : ServerEvent) (socket : SocketId) (data : Json)
  (st : State) : State * list Effect :=
  let roomId := optprop data "roomId" in
  if truthy roomId
  then (st, emit (to_value socket roomId st) ev)
  else (st, emit (broadcast socket st) ev).

(** [socket.on('save-canvas-state', ...)] *)
Definition on_save_canvas_state (now : Z) (socket : SocketId) (data : Json)
  (st : State) : State * list Effect :=
  match prop data "roomId", prop data "canvasData" with
  | Some roomId, Some state =>
      (with_rooms st
         (update_value roomId (fun room => touch now (set_canvasData state room))
            (rooms st)),
       [])
  | _, _ => (st, [])
  end.

(** [room.users.findIndex(user => user.id === socket.id)] followed by
    [room.users.splice(userIndex, 1)]: the first record of the socket and the
    list without it. *)
Fixpoint splice_user (socket : SocketId) (us : list UserData)
  : option (UserData * list UserData) :=
  match us with
  | [] => None
  | u :: rest =>
      if String.eqb (user_id u) socket then Some (u, rest)
      else match splice_user socket rest with
           | Some (found, rest') => Some (found, u :: rest')
           | None => None
           end
  end.

Definition grace : Z := 3600000.

(** What the ['disconnect'] listener does to one room: the socket's first
    member record is removed and the activity refreshed, if there is one. *)
Definition left_by (now : Z) (socket : SocketId) (room : RoomData) : RoomData :=
  match splice_user socket (users room) with
  | Some (_, remaining) => touch now (set_users remaining room)
  | None => room
  end.

(** The body of [rooms.forEach((room, roomId) => ...)] in the ['disconnect']
    listener, over the entries in insertion order.  [st] is only read, for the
    broadcast groups. *)
Fixpoint leave_rooms (now : Z) (socket : SocketId) (st : State)
  (m : JsMap.t RoomData)
  : JsMap.t RoomData * list Effect * list (string * Z) :=
  match m with
  | [] => ([], [], [])
  | (roomId, room) :: m' =>
      let '(rest, out, tm) := leave_rooms now socket st m' in
      match splice_user socket (users room) with
      | None => ((roomId, room) :: rest, out, tm)
      | Some (user, remaining) =>
          let room' := touch now (set_users remaining room) in
          ((roomId, room') :: rest,
           emit (to socket roomId st) (user_left user remaining) ++ out,
           (if (Z.of_nat (List.length remaining) =? 0)
            then [(roomId, now + grace)] else []) ++ tm)
      end
  end.

(** [socket.on('disconnect', ...)].  The log line in the loop prints the
    name of the member that leaves.  A member record is only ever stored by
    the ['join-room'] listener, after it has printed the same user name
    (the stored name is that user name or ['Anonymous']), so that line has
    no failing path here. *)
Definition on_disconnect (now : Z) (socket : SocketId) (st : State)
  : State * list Effect :=
  let st1 := leave_all socket st in
  let '(rooms', out, tm) := leave_rooms now socket st1 (rooms st1) in
  (mkState rooms' (sids st1) (timers st1 ++ tm), out).

(** [currentRoom.lastActivity?.getTime() || 0] *)
Definition getTime_or_0 (d : option Z) : Z :=
  match d with
  | Some t => if t =? 0 then 0 else t
  | None => 0
  end.

(** The callback handed to [setTimeout] for [roomId], run when the clock
    reads [now]. *)
Definition cleanup (now : Z) (roomId : string) (m : JsMap.t RoomData)
  : JsMap.t RoomData :=
  match JsMap.get roomId m with
  | Some currentRoom =>
      if (Z.of_nat (List.length (users currentRoom)) =? 0)
      then
        let timeSinceActivity := now - getTime_or_0 (lastActivity currentRoom) in
        if timeSinceActivity >? grace then JsMap.delete roomId m else m
      else m
  | None => m
  end.

Fixpoint remove_timer (roomId : string) (due : Z) (tm : list (string * Z))
  : list (string * Z) :=
  match tm with
  | [] => []
  | (r, d) :: rest =>
      if String.eqb r roomId && (d =? due) then rest
      else (r, d) :: remove_timer roomId due rest
  end.

Definition on_timeout (now : Z) (roomId : string) (due : Z) (st : State)
  : State * list Effect :=
  (mkState (cleanup now roomId (rooms st)) (sids st)
     (remove_timer roomId due (timers st)), []).

(** Dispatch of an inbound socket event to the listener registered under its
    name by [io.on('connection', ...)]; an event without a listener is
    dropped. *)
Definition on_message (now : Z) (socket : SocketId) (event : string)
  (data : Json) (st : State) : State * list Effect :=
  if String.eqb event "join-room" then on_join_room now socket data st
  else if String.eqb event "drawing" then on_drawing now socket data st
  else if String.eqb event "clear-canvas" then on_clear_canvas now socket data st
  else if String.eqb event "undo" then on_signal undo socket data st
  else if String.eqb event "redo" then on_signal redo socket data st
  else if String.eqb event "save-canvas-state"
       then on_save_canvas_state now socket data st
  else (st, []).

(** Everything that can happen to the server. *)
Inductive Input : Type :=
| Connection (socket : SocketId)
| Message (socket : SocketId) (event : string) (data : Json)
| Disconnect (socket : SocketId)
| PostRooms (body : Json) (entropy : nat -> string * string)
| Timeout (roomId : string) (due : Z).

Definition step (st : State) (i : Z * Input) : State * list Effect :=
  let now := fst i in
  match snd i with
  | Connection socket => (on_connection socket st, [])
  | Message socket event data => on_message now socket event data st
  | Disconnect socket => on_disconnect now socket st
  | PostRooms body entropy => createRoom now body entropy st
  | Timeout roomId due => on_timeout now roomId due st
  end.

(** A run of the event loop: the final state and everything emitted. *)
Fixpoint run (st : State) (trace : list (Z * Input)) : State * list Effect :=
  match trace with
  | [] => (st, [])
  | i :: rest =>
      let '(st1, out1) := step st i in
      let '(st2, out2) := run st1 rest in
      (st2, out1 ++ out2)
  end.

(** When the event loop can actually deliver an input: messages and
    disconnects come from live connections, a connection id is not in use,
    and a timer callback runs only once it is pending and due. *)
Definition connected (socket : SocketId) (st : State) : bool :=
  existsb (fun e => String.eqb (fst e) socket) (sids st).

Definition enabled (st : State) (i : Z * Input) : bool :=
  match snd i with
  | Connection socket => negb (connected socket st)
  | Message socket _ _ => connected socket st
  | Disconnect socket => connected socket st
  | PostRooms _ _ => true
  | Timeout roomId due =>
      existsb (fun t => String.eqb (fst t) roomId && (snd t =? due)) (timers st)
      && (due <=? fst i)
  end.

Fixpoint feasible (st : State) (trace : list (Z * Input)) : bool :=
  match trace with
  | [] => true
  | i :: rest => enabled st i && feasible (fst (step st i)) rest
  end.

(** A connection is a member of the room [r] for the relay when it is in the
    broadcast group that [join-room] registers it into. *)
Definition member (c : SocketId) (r : string) (st : State) : Prop :=
  In c (socketsIn r st).

(** Inputs that rewrite the stored surface of the room registered under
    [k]: a clear or a save naming [k], and a creation request that is given
    the identifier [k]. *)
Definition names (k : string) (v : Json) : bool :=
  match v with
  | JStr r => String.eqb r k
  | _ => false
  end.

Definition rewrites_surface (k : string) (st : State) (i : Z * Input) : bool :=
  match snd i with
  | Message _ event data =>
      (String.eqb event "clear-canvas" && names k (optprop data "roomId"))
      || (String.eqb event "save-canvas-state"
          && match prop data "roomId" with
             | Some v => names k v
             | None => false
             end)
  | PostRooms _ entropy => String.eqb (allocate (rooms st) entropy) k
  | _ => false
  end.

(** Every member record of every registered room has a name that a
    template literal can print. *)
Definition names_printable (m : JsMap.t RoomData) : Prop :=
  forall k room u,
    JsMap.get k m = Some room -> In u (users room) ->
    printable (user_name u) = true.

(** The room registered under [k], if there is one, stores [state]. *)
Definition stores (k : string) (state : Json) (m : JsMap.t RoomData) : Prop :=
  forall room, JsMap.get k m = Some room -> canvasData room = state.

(** No input of the trace rewrites the surface of [k]. *)
Fixpoint quiet (k : string) (st : State) (trace : list (Z * Input)) : bool :=
  match trace with
  | [] => true
  | i :: rest =>
      negb (rewrites_surface k st i) && quiet k (fst (step st i)) rest
  end.

End Handlers.

(** *** Worked scenarios

    The environment of one [generateRoomId] call that yields ["ABC123"], a
    join payload, and the opening of a session: the room is created, [A]
    and [B] join it, [X] connects without joining anything. *)
Definition abc123 : nat -> string * string :=
  fun _ => ("lq1k2abc"%string, "0.123xyz"%string).

Definition join_payload (roomId userName : string) : Json :=
  JObj [("roomId"%string, JStr roomId); ("userName"%string, JStr userName)].

Definition stroke (roomId : string) : Json :=
  JObj [("roomId"%string, JStr roomId); ("tool"%string, JStr "pen");
        ("x"%string, JNum 10); ("y"%string, JNum 20)].

Definition opening : list (Z * Input) :=
  [ (0, PostRooms (JObj []) abc123);
    (1, Connection "A"%string);
    (2, Message "A"%string "join-room" (join_payload "abc123" "alice"));
    (3, Connection "B"%string);
    (4, Message "B"%string "join-room" (join_payload "ABC123" "bob"));
    (5, Connection "X"%string) ].

Definition session : State := fst (run upper initial opening).

(** A save for ABC123 and what may follow it without rewriting that
    surface: drawing, a save for another room, a member leaving. *)
Definition snapshot : Json := JStr "data:image/png;base64,iVBORw0KGgo=".

Definition save_payload (roomId : string) (state : Json) : list (string * Json) :=
  [("roomId"%string, JStr roomId); ("canvasData"%string, state)].

Definition afterwards : list (Z * Input) :=
  [ (11, Message "B"%string "drawing" (stroke "ABC123"));
    (12, Message "B"%string "save-canvas-state"
           (JObj (save_payload "DEF456" (JStr "other"))));
    (13, Message "B"%string "undo" (JObj [("roomId"%string, JStr "ABC123")]));
    (14, Disconnect "B"%string) ].

(** Both members leave (the room is empty from time 1001 on and its timer is
    set for 1001 + grace), [X] draws into the room two milliseconds later,
    and the timer callback runs three milliseconds after it was due. *)
Definition late_timer : list (Z * Input) :=
  opening ++
  [ (1000, Disconnect "A"%string);
    (1001, Disconnect "B"%string);
    (1003, Message "X"%string "drawing" (stroke "ABC123"));
    (3601004, Timeout "ABC123"%string 3601001) ].

End Server.

(** ** The client: [client/src/components/Whiteboard.tsx] *)

Module Whiteboard.

(** What the component hands to [socket.emit]: event name and argument. *)
Definition Wire : Type := (string * Json)%type.

(** The props the history and socket code reads: [socket] (is it non-null),
    [room?.id], and [canEdit = user?.role !== 'viewer']. *)
Record Props : Type := mkProps {
  socket : bool;
  room : option string;
  canEdit : bool
}.

Section Component.

(** The raster surface and the drawing primitives are external
    collaborators: [Surface] is a rendered canvas (an [ImageData]), [blank]
    the canvas after [fillRect] with white, [drawOnCanvas] the effect of one
    drawing record, [drawImage] that of loading a data URL and drawing it,
    [toDataURL] the serialisation. *)
Variable Surface : Type.
Variable blank : Surface.
Variable drawOnCanvas : Json -> Surface -> Surface.
Variable drawImage : Json -> Surface -> Surface.
Variable toDataURL : Surface -> string.

(** [canvas] is [canvasRef.current] with its 2d context ([None] while the ref
    is not attached); [history] and [historyIndex] are the two [useState]
    cells. *)
Record State : Type := mkState {
  canvas : option Surface;
  history : list Surface;
  historyIndex : Z
}.

(** The state of the first render: [useState([])], [useState(-1)]. *)
Definition mounted (c : Surface) : State := mkState (Some c) [] (-1).

(** The values of [history] and [historyIndex] that a function closure sees:
    those of the render that created it. *)
Definition View : Type := (list Surface * Z)%type.

Definition view_of (st : State) : View := (history st, historyIndex st).

Definition len {A : Type} (l : list A) : Z := Z.of_nat (List.length l).

(** [l.slice(0, e)] *)
Definition slice0 {A : Type} (e : Z) (l : list A) : list A :=
  if e <? 0 then firstn (Z.to_nat (Z.max (len l + e) 0)) l
  else firstn (Z.to_nat e) l.

(** [saveToHistory], run from a closure that sees [v]. *)
Definition saveToHistory_in (v : View) (st : State) : State :=
  match canvas st with
  | Some imageData =>
      let pushed := slice0 (snd v + 1) (fst v) ++ [imageData] in
      let newHistory := if len pushed >? 50 then tl pushed else pushed in
      mkState (canvas st) newHistory (len newHistory - 1)
  | None => st
  end.

(** [saveToHistory] called from the current render. *)
Definition saveToHistory (st : State) : State :=
  saveToHistory_in (view_of st) st.

(** [history[i]]; [None] is [undefined]. *)
Definition at_index {A : Type} (i : Z) (l : list A) : option A :=
  if i <? 0 then None else nth_error l (Z.to_nat i).

(** [socket.emit('canvas-state', { roomId: room.id, imageData })] under
    [if (socket && room)]. *)
Definition emit_canvas_state (p : Props) (shown : Surface) : list Wire :=
  match socket p, room p with
  | true, Some roomId =>
      [("canvas-state"%string,
        JObj [("roomId"%string, JStr roomId);
              ("imageData"%string, JStr (toDataURL shown))])]
  | _, _ => []
  end.

(** The common body of [undo] and [redo] once the guard has passed and the
    canvas is there: move the cursor to [target], paint [history[target]],
    transmit the surface.  [putImageData(undefined)] throws after the cursor
    update has been queued. *)
Definition move_to (p : Props) (target : Z) (st : State) : State * list Wire :=
  match canvas st with
  | Some _ =>
      match at_index target (history st) with
      | Some snapshot =>
          (mkState (Some snapshot) (history st) target,
           emit_canvas_state p snapshot)
      | None => (mkState (canvas st) (history st) target, [])
      end
  | None => (st, [])
  end.

Definition undo (p : Props) (st : State) : State * list Wire :=
  if (historyIndex st >? 0) && canEdit p
  then move_to p (historyIndex st - 1) st
  else (st, []).

Definition redo (p : Props) (st : State) : State * list Wire :=
  if (historyIndex st <? len (history st) - 1) && canEdit p
  then move_to p (historyIndex st + 1) st
  else (st, []).

(** [clearCanvas(emit)], run from a closure that sees [v]. *)
Definition clearCanvas_in (v : View) (p : Props) (emit : bool) (st : State)
  : State * list Wire :=
  if negb (canEdit p) && emit then (st, [])
  else
    match canvas st with
    | Some _ =>
        let st1 := mkState (Some blank) (history st) (historyIndex st) in
        (saveToHistory_in v st1,
         match emit, socket p, room p with
         | true, true, Some roomId => [("clear-canvas"%string, JStr roomId)]
         | _, _, _ => []
         end)
    | None => (st, [])
    end.

(** The Clear button: [clearCanvas()] from the current render. *)
Definition clearCanvas (p : Props) (st : State) : State * list Wire :=
  clearCanvas_in (view_of st) p true st.

Definition paint (f : Surface -> Surface) (st : State) : State :=
  mkState (option_map f (canvas st)) (history st) (historyIndex st).

(** The three listeners installed by [useEffect(..., [socket])].  They are
    closures of the render in which the effect ran and keep seeing its
    [history] and [historyIndex], here [v]; the canvas is reached through the
    ref and is the live one.  Any other event has no listener here. *)
Definition on_event (v : View) (p : Props) (event : string) (payload : Json)
  (st : State) : State :=
  if String.eqb event "drawing" then paint (drawOnCanvas payload) st
  else if String.eqb event "clear-canvas" then fst (clearCanvas_in v p false st)
  else if String.eqb event "canvas-state" then paint (drawImage payload) st
  else st.

(** The local operations on the history. *)
Inductive Op : Type :=
| Commit (snapshot : Surface)
| Undo
| Redo.

(** [Commit s] is [saveToHistory()] at a moment when the canvas shows [s]. *)
Definition apply (p : Props) (st : State) (op : Op) : State :=
  match op with
  | Commit s => saveToHistory (mkState (Some s) (history st) (historyIndex st))
  | Undo => fst (undo p st)
  | Redo => fst (redo p st)
  end.

Definition apply_all (p : Props) (st : State) (ops : list Op) : State :=
  fold_left (apply p) ops st.

(** The history invariant of the specification. *)
Definition bounded (st : State) : Prop :=
  len (history st) <= 50 /\
  (history st = [] /\ historyIndex st = -1 \/
   0 <= historyIndex st < len (history st)).

End Component.

Arguments mkState {Surface} canvas history historyIndex.
Arguments canvas {Surface} s.
Arguments history {Surface} s.
Arguments historyIndex {Surface} s.
Arguments mounted {Surface} c.
Arguments view_of {Surface} st.
Arguments saveToHistory_in {Surface} v st.
Arguments saveToHistory {Surface} st.
Arguments emit_canvas_state {Surface} toDataURL p shown.
Arguments move_to {Surface} toDataURL p target st.
Arguments undo {Surface} toDataURL p st.
Arguments redo {Surface} toDataURL p st.
Arguments clearCanvas_in {Surface} blank v p emit st.
Arguments clearCanvas {Surface} blank p st.
Arguments paint {Surface} f st.
Arguments on_event {Surface} blank drawOnCanvas drawImage v p event payload st.
Arguments Commit {Surface} snapshot.
Arguments Undo {Surface}.
Arguments Redo {Surface}.
Arguments apply {Surface} toDataURL p st op.
Arguments apply_all {Surface} toDataURL p st ops.
Arguments bounded {Surface} st.

End Whiteboard.

(** ** Client and server together *)

Module EndToEnd.

(** socket.io hands every [(event, argument)] pair that the client of
    connection [sender] emits to the server-side listener of that name. *)
Definition deliver (toUpperCase : string -> string) (now : Z)
  (sender : Server.SocketId) (msgs : list Whiteboard.Wire) (st : Server.State)
  : Server.State * list Server.Effect :=
  Server.run toUpperCase st
    (map (fun m => (now, Server.Message sender (fst m) (snd m))) msgs).

(** A second room DEF456 with one member [C], and a surface saved for
    ABC123. *)
Definition def456 : nat -> string * string :=
  fun _ => ("lq1k2def"%string, "0.456xyz"%string).

Definition two_rooms : Server.State :=
  fst (Server.run upper Server.session
         [ (6, Server.PostRooms (JObj [("roomName"%string, JStr "Second")]) def456);
           (7, Server.Connection "C"%string);
           (8, Server.Message "C"%string "join-room"
                 (Server.join_payload "DEF456" "carol"));
           (9, Server.Message "A"%string "save-canvas-state"
                 (JObj (Server.save_payload "ABC123" Server.snapshot))) ]).

(** The whiteboard of [A]: an editor in room ABC123 with a live socket.
    Surfaces are numbered; 0 is the white one. *)
Definition editor : Whiteboard.Props :=
  Whiteboard.mkProps true (Some "ABC123"%string) true.

Definition dataURL (surface : nat) : string :=
  match surface with
  | O => "data:blank"
  | 1%nat => "data:one"
  | 2%nat => "data:two"
  | _ => "data:more"
  end.

Definition three_commits : Whiteboard.State nat :=
  Whiteboard.apply_all dataURL editor (Whiteboard.mounted 0%nat)
    [Whiteboard.Commit 0%nat; Whiteboard.Commit 1%nat; Whiteboard.Commit 2%nat].

End EndToEnd.

(** ** The lookup endpoint of [server/server.ts] *)

Module Http.

(** Bodies of the answers of [GET /api/rooms/:roomId]: the room itself
    (spread into the body), the miss report, or the error of the [catch]. *)
Inductive Lookup : Type :=
| room_found (room : Server.RoomData)
| room_missing (requestedRoom : string) (availableRooms : list string)
    (totalRooms : Z)
| lookup_failed.

(** [app.get('/api/rooms/:roomId', ...)]; [param] is [req.params.roomId],
    always a string.  The log line of the hit branch interpolates
    [room.name]; when that throws, the [catch] answers 500. *)
Definition getRoom (toUpperCase : string -> string) (param : string)
  (st : Server.State) : Z * Lookup :=
  let roomId := toUpperCase param in
  match JsMap.get roomId (Server.rooms st) with
  | None =>
      (404, room_missing roomId (JsMap.keys (Server.rooms st))
              (JsMap.size (Server.rooms st)))
  | Some room =>
      if printable (Server.room_name room) then (200, room_found room)
      else (500, lookup_failed)
  end.

End Http.

(** ** Vocabulary for the relay properties *)

Module Relay.

(** The events with which the server answers the sender itself; all the
    others are relays. *)
Definition direct_reply (ev : Server.ServerEvent) : bool :=
  match ev with
  | Server.room_error _ _ _ | Server.room_joined _ _ _ | Server.load_canvas _ => true
  | _ => false
  end.

(** Is the input a socket message with this event name? *)
Definition named (event : string) (i : Z * Server.Input) : bool :=
  match snd i with
  | Server.Message _ e _ => String.eqb e event
  | _ => false
  end.

(** No room has a stored surface. *)
Definition nothing_stored (m : JsMap.t Server.RoomData) : Prop :=
  forall k, Server.stores k JNull m.

End Relay.

(** ** The canvas calls of [Whiteboard.tsx] *)

Module Canvas.

(** One call on the 2d context, with the values of the drawing record it is
    given.  Numbers are carried, never computed: [strokeRect x y px py]
    stands for [strokeRect(x, y, px - x, py - y)] and [arc x y px py] for
    [arc(x, y, Math.sqrt((px - x)^2 + (py - y)^2), 0, 2 * Math.PI)];
    [font size] is the assignment of [`${size}px Arial`]. *)
Inductive Call : Type :=
| strokeStyle (v : Json)
| lineWidth (v : Json)
| lineCap_round
| beginPath
| moveTo (x y : Json)
| lineTo (x y : Json)
| stroke
| strokeRect (x y px py : Json)
| arc (x y px py : Json)
| fillStyle (v : Json)
| font (size : Json)
| fillText (text x y : Json).

(** [v !== undefined] *)
Definition defined (v : Json) : bool :=
  match v with
  | JUndefined => false
  | _ => true
  end.

(** [drawText(text, data)] *)
Definition drawText (text : Json) (fields : list (string * Json)) : list Call :=
  [ fillStyle (field "color" fields);
    font (field "brushSize" fields);
    fillText text (field "x" fields) (field "y" fields) ].

(** The [switch (data.tool)] of [drawOnCanvas]. *)
Definition shape (fields : list (string * Json)) : list Call :=
  let x := field "x" fields in
  let y := field "y" fields in
  let prevX := field "prevX" fields in
  let prevY := field "prevY" fields in
  let held := truthy (field "isDrawing" fields) in
  match field "tool" fields with
  | JStr tool =>
      if String.eqb tool "pen" || String.eqb tool "eraser" then
        if defined prevX && defined prevY
        then [beginPath; moveTo prevX prevY; lineTo x y; stroke] else []
      else if String.eqb tool "rectangle" then
        if defined prevX && defined prevY && negb held
        then [strokeRect x y prevX prevY] else []
      else if String.eqb tool "circle" then
        if defined prevX && defined prevY && negb held
        then [beginPath; arc x y prevX prevY; stroke] else []
      else if String.eqb tool "text" then
        if truthy (field "text" fields) && negb held
        then drawText (field "text" fields) fields else []
      else []
  | _ => []
  end.

(** [drawOnCanvas(data)] on a mounted canvas.  [data.color] throws on
    [undefined] and [null], before any call is made; a primitive has none of
    the properties. *)
Definition drawOnCanvas (data : Json) : list Call :=
  match data with
  | JUndefined | JNull => []
  | JObj fields =>
      [ strokeStyle (field "color" fields);
        lineWidth (field "brushSize" fields);
        lineCap_round ] ++ shape fields
  | _ => [strokeStyle JUndefined; lineWidth JUndefined; lineCap_round]
  end.

End Canvas.

(** ** The mouse handlers of [Whiteboard.tsx] *)

Module Pointer.

(** The [useState] cells the mouse handlers read and write.  Coordinates
    and sizes are integers here; the handlers only copy them. *)
Record State : Type := mkState {
  isDrawing : bool;
  tool : string;
  color : string;
  brushSize : Z;
  fontSize : Z;
  startPos : Z * Z
}.

Definition press (pos : Z * Z) (ui : State) : State :=
  mkState true (tool ui) (color ui) (brushSize ui) (fontSize ui) pos.

Definition move (pos : Z * Z) (ui : State) : State :=
  mkState (isDrawing ui) (tool ui) (color ui) (brushSize ui) (fontSize ui) pos.

Definition release (ui : State) : State :=
  mkState false (tool ui) (color ui) (brushSize ui) (fontSize ui) (startPos ui).

Definition freehand (ui : State) : bool :=
  String.eqb (tool ui) "pen" || String.eqb (tool ui) "eraser".

(** [tool === 'eraser' ? '#FFFFFF' : color] *)
Definition ink (ui : State) : string :=
  if String.eqb (tool ui) "eraser" then "#FFFFFF" else color ui.

(** The [DrawingData] literal of [startDrawing]. *)
Definition dot (pos : Z * Z) (ui : State) : list (string * Json) :=
  [ ("x"%string, JNum (fst pos)); ("y"%string, JNum (snd pos));
    ("color"%string, JStr (ink ui)); ("tool"%string, JStr (tool ui));
    ("brushSize"%string, JNum (brushSize ui));
    ("isDrawing"%string, JBool true) ].

(** The [DrawingData] literal of [draw]. *)
Definition segment (pos : Z * Z) (ui : State) : list (string * Json) :=
  [ ("x"%string, JNum (fst pos)); ("y"%string, JNum (snd pos));
    ("prevX"%string, JNum (fst (startPos ui)));
    ("prevY"%string, JNum (snd (startPos ui)));
    ("color"%string, JStr (ink ui)); ("tool"%string, JStr (tool ui));
    ("brushSize"%string, JNum (brushSize ui));
    ("isDrawing"%string, JBool true) ].

(** The [DrawingData] literal of the rectangle and circle branch of
    [stopDrawing]. *)
Definition outline (pos : Z * Z) (ui : State) : list (string * Json) :=
  [ ("x"%string, JNum (fst (startPos ui))); ("y"%string, JNum (snd (startPos ui)));
    ("prevX"%string, JNum (fst pos)); ("prevY"%string, JNum (snd pos));
    ("color"%string, JStr (color ui)); ("tool"%string, JStr (tool ui));
    ("brushSize"%string, JNum (brushSize ui));
    ("isDrawing"%string, JBool false) ].

(** The [DrawingData] literal of the text branch of [stopDrawing]. *)
Definition label (pos : Z * Z) (ui : State) : list (string * Json) :=
  [ ("x"%string, JNum (fst pos)); ("y"%string, JNum (snd pos));
    ("color"%string, JStr (color ui)); ("tool"%string, JStr (tool ui));
    ("brushSize"%string, JNum (fontSize ui));
    ("isDrawing"%string, JBool false) ].

(** [socket.emit('drawing', { roomId: room.id, ...drawingData })] under
    [if (socket && room)]. *)
Definition emit_drawing (p : Whiteboard.Props) (fields : list (string * Json))
  : list Whiteboard.Wire :=
  match Whiteboard.socket p, Whiteboard.room p with
  | true, Some roomId =>
      [("drawing"%string, JObj (("roomId"%string, JStr roomId) :: fields))]
  | _, _ => []
  end.

Section Handlers.

(** [exec] is the effect of one context call on the raster; [trim] is
    [String.prototype.trim]. *)
Variable Surface : Type.
Variable exec : Canvas.Call -> Surface -> Surface.
Variable trim : string -> string.

Definition render (calls : list Canvas.Call) (s : Surface) : Surface :=
  fold_left (fun acc c => exec c acc) calls s.

(** [startDrawing] with [getMousePos(e) = pos]. *)
Definition startDrawing (p : Whiteboard.Props) (pos : Z * Z) (ui : State)
  (st : Whiteboard.State Surface) : State * Whiteboard.State Surface :=
  if negb (Whiteboard.canEdit p) then (ui, st)
  else
    (press pos ui,
     if freehand ui
     then Whiteboard.paint (render (Canvas.drawOnCanvas (JObj (dot pos ui)))) st
     else st).

(** [draw] with [getMousePos(e) = pos]. *)
Definition draw (p : Whiteboard.Props) (pos : Z * Z) (ui : State)
  (st : Whiteboard.State Surface)
  : State * Whiteboard.State Surface * list Whiteboard.Wire :=
  if negb (isDrawing ui) || negb (Whiteboard.canEdit p) then (ui, st, [])
  else if freehand ui then
    (move pos ui,
     Whiteboard.paint (render (Canvas.drawOnCanvas (JObj (segment pos ui)))) st,
     emit_drawing p (segment pos ui))
  else (ui, st, []).

(** The tool branches of [stopDrawing]; [answer] is what [prompt] returns
    ([None] when it is dismissed). *)
Definition finish (p : Whiteboard.Props) (pos : Z * Z) (answer : option string)
  (ui : State) (st : Whiteboard.State Surface)
  : Whiteboard.State Surface * list Whiteboard.Wire :=
  if String.eqb (tool ui) "rectangle" || String.eqb (tool ui) "circle" then
    (Whiteboard.paint (render (Canvas.drawOnCanvas (JObj (outline pos ui)))) st,
     emit_drawing p (outline pos ui))
  else if String.eqb (tool ui) "text" then
    match answer with
    | Some text =>
        if negb (String.eqb text "") && negb (String.eqb (trim text) "")
        then
          (Whiteboard.paint (render (Canvas.drawText (JStr text) (label pos ui))) st,
           emit_drawing p (label pos ui ++ [("text"%string, JStr text)]))
        else (st, [])
    | None => (st, [])
    end
  else (st, []).

(** [stopDrawing] with [getMousePos(e) = pos]. *)
Definition stopDrawing (p : Whiteboard.Props) (pos : Z * Z)
  (answer : option string) (ui : State) (st : Whiteboard.State Surface)
  : State * Whiteboard.State Surface * list Whiteboard.Wire :=
  if negb (isDrawing ui) || negb (Whiteboard.canEdit p) then (ui, st, [])
  else
    let done := finish p pos answer ui st in
    (release ui, Whiteboard.saveToHistory (fst done), snd done).

(** The ['drawing'] listener of a peer: [drawOnCanvas(data)]. *)
Definition receive_drawing (data : Json) (st : Whiteboard.State Surface)
  : Whiteboard.State Surface :=
  Whiteboard.paint (render (Canvas.drawOnCanvas data)) st.

End Handlers.

Arguments render {Surface} exec calls s.
Arguments startDrawing {Surface} exec p pos ui st.
Arguments draw {Surface} exec p pos ui st.
Arguments finish {Surface} exec trim p pos answer ui st.
Arguments stopDrawing {Surface} exec trim p pos answer ui st.
Arguments receive_drawing {Surface} exec data st.

End Pointer.

(** ** [App.tsx]: entering and leaving a room *)

Module App.

(** A [User] object as it is serialised. *)
Definition user (id name role : string) : Json :=
  JObj [("id"%string, JStr id); ("name"%string, JStr name);
        ("role"%string, JStr role)].

(** What [joinRoom(roomId, userData)] emits, under [if (socket)]. *)
Definition joinRoom (socket : bool) (roomId : string) (userData : Json)
  : list Whiteboard.Wire :=
  if socket
  then [("join-room"%string,
         JObj [("roomId"%string, JStr roomId); ("user"%string, userData)])]
  else [].

(** What [leaveRoom()] emits, under [if (socket && room)]. *)
Definition leaveRoom (socket : bool) (room : option string)
  : list Whiteboard.Wire :=
  match socket, room with
  | true, Some roomId => [("leave-room"%string, JStr roomId)]
  | _, _ => []
  end.

End App.

(* ================================================================== *)
(** * Part II: properties *)
(* ================================================================== *)

(** ** Facts about [JsMap] *)

Module JsMapFacts.

Section Facts.

Context {V : Type}.

Lemma get_set_same (k : string) (v : V) (m : JsMap.t V) :
  JsMap.get k (JsMap.set k v m) = Some v.
Proof.
  induction m as [|[k' v'] m IH]; simpl.
  - now rewrite String.eqb_refl.
  - destruct (String.eqb k k') eqn:E; simpl; rewrite ?String.eqb_refl, ?E; auto.
Qed.

Lemma get_set_other (k k' : string) (v : V) (m : JsMap.t V) :
  k' <> k -> JsMap.get k' (JsMap.set k v m) = JsMap.get k' m.
Proof.
  intros Hne. induction m as [|[k0 v0] m IH]; simpl.
  - destruct (String.eqb_spec k' k); [contradiction | reflexivity].
  - destruct (String.eqb_spec k k0) as [->|Hk]; simpl.
    + destruct (String.eqb_spec k' k0); [contradiction | reflexivity].
    + destruct (String.eqb_spec k' k0); auto.
Qed.

Lemma get_delete_same (k : string) (m : JsMap.t V) :
  JsMap.get k (JsMap.delete k m) = None.
Proof.
  unfold JsMap.delete.
  induction m as [|[k' v'] m IH]; simpl; auto.
  destruct (String.eqb k k') eqn:E; simpl; rewrite ?E; auto.
Qed.

Lemma get_delete_other (k k' : string) (m : JsMap.t V) :
  k' <> k -> JsMap.get k' (JsMap.delete k m) = JsMap.get k' m.
Proof.
  intros Hne. unfold JsMap.delete.
  induction m as [|[k0 v0] m IH]; simpl; auto.
  destruct (String.eqb_spec k k0) as [->|Hk]; simpl.
  - destruct (String.eqb_spec k' k0); [contradiction | auto].
  - destruct (String.eqb_spec k' k0); auto.
Qed.

Lemma has_get (k : string) (m : JsMap.t V) :
  JsMap.has k m = true <-> exists v, JsMap.get k m = Some v.
Proof.
  unfold JsMap.has. destruct (JsMap.get k m).
  - split; eauto.
  - split; [discriminate | intros [v Hv]; discriminate].
Qed.

Lemma get_in_keys (k : string) (m : JsMap.t V) (v : V) :
  JsMap.get k m = Some v -> In k (JsMap.keys m).
Proof.
  induction m as [|[k' v'] m IH]; simpl; [discriminate|].
  destruct (String.eqb_spec k k'); auto.
Qed.

Lemma keys_set_present (k : string) (v : V) (m : JsMap.t V) :
  JsMap.has k m = true -> JsMap.keys (JsMap.set k v m) = JsMap.keys m.
Proof.
  unfold JsMap.has.
  induction m as [|[k' v'] m IH]; simpl; [discriminate|].
  destruct (String.eqb_spec k k') as [->|Hk]; simpl; auto.
  intros H. f_equal. apply IH, H.
Qed.

Lemma size_set_present (k : string) (v : V) (m : JsMap.t V) :
  JsMap.has k m = true -> JsMap.size (JsMap.set k v m) = JsMap.size m.
Proof.
  intros H. unfold JsMap.size.
  rewrite <- (length_map fst (JsMap.set k v m)), <- (length_map fst m).
  change (map fst ?x) with (JsMap.keys x).
  now rewrite keys_set_present.
Qed.

Lemma get_delete_some (k r : string) (m : JsMap.t V) (v : V) :
  JsMap.get k (JsMap.delete r m) = Some v -> JsMap.get k m = Some v.
Proof.
  destruct (String.eqb_spec k r) as [->|Hne].
  - rewrite get_delete_same. discriminate.
  - now rewrite get_delete_other.
Qed.

End Facts.

End JsMapFacts.

(** ** The client history *)

Module WhiteboardFacts.

Import Whiteboard.

Section History.

Context {Surface : Type} (toDataURL : Surface -> string).

Lemma len_app {A : Type} (l1 l2 : list A) : len (l1 ++ l2) = len l1 + len l2.
Proof. unfold len. rewrite length_app. lia. Qed.

Lemma len_nonneg {A : Type} (l : list A) : 0 <= len l.
Proof. unfold len. lia. Qed.

Lemma len_tl {A : Type} (l : list A) : 0 < len l -> len (tl l) = len l - 1.
Proof. destruct l; unfold len; cbn [List.length tl]; lia. Qed.

Lemma len_slice0 {A : Type} (e : Z) (l : list A) :
  len (slice0 e l) <= len l.
Proof.
  unfold slice0, len.
  destruct (e <? 0); rewrite length_firstn; lia.
Qed.

Lemma len_slice0_exact {A : Type} (e : Z) (l : list A) :
  0 <= e <= len l -> len (slice0 e l) = e.
Proof.
  unfold slice0, len. intros H.
  destruct (Z.ltb_spec e 0); [lia|].
  rewrite length_firstn. lia.
Qed.

Lemma len_zero_nil {A : Type} (l : list A) : len l = 0 -> l = [].
Proof. destruct l; unfold len; cbn [List.length]; [auto | lia]. Qed.

(** A commit leaves between 1 and 50 snapshots and puts the cursor on the
    last one, whatever the closure saw. *)
Lemma saveToHistory_in_shape (v : View Surface) (st : State Surface) (c : Surface) :
  canvas st = Some c ->
  len (fst v) <= 50 ->
  let st' := saveToHistory_in v st in
  1 <= len (history st') <= 50 /\ historyIndex st' = len (history st') - 1.
Proof.
  intros Hc Hv. unfold saveToHistory_in. rewrite Hc. simpl.
  set (pushed := slice0 (snd v + 1) (fst v) ++ [c]).
  assert (Hp : 1 <= len pushed <= 51).
  { unfold pushed. rewrite len_app.
    pose proof (len_slice0 (snd v + 1) (fst v)).
    pose proof (len_nonneg (slice0 (snd v + 1) (fst v))).
    change (len [c]) with 1. lia. }
  destruct (Z.gtb_spec (len pushed) 50).
  - rewrite len_tl by lia. lia.
  - lia.
Qed.

Lemma bounded_saveToHistory (st : State Surface) :
  bounded st -> bounded (saveToHistory st).
Proof.
  intros [Hlen Hidx]. unfold saveToHistory.
  destruct (canvas st) as [c|] eqn:Hc.
  - destruct (saveToHistory_in_shape (view_of st) st c Hc Hlen) as [H1 H2].
    split; [lia | right; lia].
  - unfold saveToHistory_in. rewrite Hc. split; assumption.
Qed.

Lemma bounded_move_to (p : Props) (target : Z) (st : State Surface) :
  bounded st -> 0 <= target < len (history st) ->
  bounded (fst (move_to toDataURL p target st)).
Proof.
  intros [Hlen Hidx] Ht. unfold move_to.
  destruct (canvas st); [|split; assumption].
  destruct (at_index target (history st)); unfold bounded;
    cbn [fst history historyIndex]; (split; [assumption | right; lia]).
Qed.

Lemma bounded_apply (p : Props) (st : State Surface) (op : Op Surface) :
  bounded st -> bounded (apply toDataURL p st op).
Proof.
  intros Hb. destruct op as [s| |]; simpl.
  - apply bounded_saveToHistory. exact Hb.
  - unfold undo.
    destruct (Z.gtb_spec (historyIndex st) 0); simpl; [|exact Hb].
    destruct (canEdit p); simpl; [|exact Hb].
    apply bounded_move_to; [exact Hb|].
    destruct Hb as [_ [[_ Hi]|Hi]]; lia.
  - unfold redo.
    destruct (Z.ltb_spec (historyIndex st) (len (history st) - 1)); simpl; [|exact Hb].
    destruct (canEdit p); simpl; [|exact Hb].
    apply bounded_move_to; [exact Hb|].
    destruct Hb as [_ [[_ Hi]|Hi]]; lia.
Qed.

Lemma bounded_apply_all (p : Props) (ops : list (Op Surface)) (st : State Surface) :
  bounded st -> bounded (apply_all toDataURL p st ops).
Proof.
  revert st. induction ops as [|op ops IH]; intros st Hb; simpl; [exact Hb|].
  apply IH, bounded_apply, Hb.
Qed.

Lemma bounded_mounted (c : Surface) : bounded (mounted c).
Proof. split; simpl; [unfold len; simpl; lia | left; auto]. Qed.

(** C4. After any sequence of commit, undo and redo operations starting
    from the empty history, the history has at most 50 snapshots and the
    cursor is a valid index into it, or -1 when it is empty; and 60 commits
    in a row leave exactly the last 50 snapshots, in order, with the cursor
    on the last index (49): the 10 oldest were evicted first-in first-out. *)
Theorem history_invariant :
  forall (p : Props) (c : Surface),
    (forall ops : list (Op Surface),
        bounded (apply_all toDataURL p (mounted c) ops)) /\
    (forall snap : nat -> Surface,
        let st := apply_all toDataURL p (mounted c)
                    (map (fun i => Commit (snap i)) (seq 0 60)) in
        history st = map snap (seq 10 50) /\
        historyIndex st = 49 /\
        len (history st) = 50).
Proof.
  intros p c. split.
  - intros ops. apply bounded_apply_all, bounded_mounted.
  - intros snap. cbv. auto.
Qed.

End History.

Section Listeners.

Context {Surface : Type} (blank : Surface)
  (drawOnCanvas drawImage : Json -> Surface -> Surface).

Lemma last_app_single {A : Type} (l : list A) (x d : A) : last (l ++ [x]) d = x.
Proof. induction l as [|a [|b l] IH]; simpl in *; auto. Qed.

Lemma last_tl {A : Type} (l : list A) (d : A) :
  (2 <= List.length l)%nat -> last (tl l) d = last l d.
Proof. destruct l as [|a [|b l]]; simpl; intros; auto; lia. Qed.

(** What a remote clear does: it is [clearCanvas(false)], which paints the
    canvas white and then calls [saveToHistory] like a local clear. *)
Lemma remote_clear_commits (v : View Surface) (p : Props) (payload : Json)
  (st : State Surface) (c : Surface) :
  canvas st = Some c ->
  let st' := on_event blank drawOnCanvas drawImage v p "clear-canvas" payload st in
  canvas st' = Some blank /\
  last (history st') c = blank /\
  historyIndex st' = len (history st') - 1.
Proof.
  intros Hc. unfold on_event. simpl String.eqb. cbv iota.
  unfold clearCanvas_in. rewrite andb_false_r, Hc.
  cbn [fst]. unfold saveToHistory_in. cbn [canvas history historyIndex].
  set (pushed := slice0 (snd v + 1) (fst v) ++ [blank]).
  split; [reflexivity|]. split; [|reflexivity].
  destruct (Z.gtb_spec (len pushed) 50) as [Hgt|Hle].
  - rewrite last_tl by (unfold len in Hgt; lia).
    apply last_app_single.
  - apply last_app_single.
Qed.

(** C9, as the code has it.  Handling a relayed drawing event, a remote
    canvas-state update, or any event other than a clear directive leaves
    the client's history sequence and cursor exactly as they were (so the
    length is unchanged).  The clear directive is the exception: see
    [remote_clear_commits]. *)
Theorem remote_events_keep_history :
  forall (v : View Surface) (p : Props) (event : string) (payload : Json)
         (st : State Surface),
    event <> "clear-canvas"%string ->
    let st' := on_event blank drawOnCanvas drawImage v p event payload st in
    history st' = history st /\
    historyIndex st' = historyIndex st /\
    len (history st') = len (history st).
Proof.
  intros v p event payload st Hne. unfold on_event.
  destruct (String.eqb event "drawing"); [simpl; auto|].
  destruct (String.eqb_spec event "clear-canvas"); [contradiction|].
  destruct (String.eqb event "canvas-state"); simpl; auto.
Qed.

End Listeners.

Lemma remote_events_keep_history_witness :
  let st := Whiteboard.mkState (Some 7%nat) [3%nat; 7%nat] 1 in
  let st' := on_event 0%nat (fun _ s => S s) (fun _ _ => 9%nat) ([], -1)
               (mkProps true (Some "ABC123"%string) true)
               "drawing" (JObj []) st in
  "drawing"%string <> "clear-canvas"%string /\
  history st' = history st /\
  historyIndex st' = historyIndex st /\
  len (history st') = len (history st).
Proof.
  split; [discriminate|].
  apply (remote_events_keep_history 0%nat (fun _ s => S s) (fun _ _ => 9%nat)
           ([], -1) (mkProps true (Some "ABC123"%string) true) "drawing" (JObj [])
           (Whiteboard.mkState (Some 7%nat) [3%nat; 7%nat] 1)).
  discriminate.
Defined.

(** C9 as stated fails for the clear directive.  A client whose canvas shows
    snapshot 2 after two local commits receives a remote clear.  With the
    listener's closure still seeing the first render ([history = []],
    [historyIndex = -1]) the history shrinks from 2 snapshots to the single
    blank one; had the closure seen the current state it would have grown
    to 3.  Either way the length changes. *)
Lemma remote_clear_changes_history_length :
  let p := mkProps true (Some "ABC123"%string) true in
  let st := apply_all (fun _ : nat => ""%string) p (mounted 0%nat)
              [Commit 1%nat; Commit 2%nat] in
  len (history st) = 2 /\
  len (history (on_event 0%nat (fun _ s => s) (fun _ s => s)
                  (view_of (mounted 0%nat)) p "clear-canvas" JUndefined st)) = 1 /\
  len (history (on_event 0%nat (fun _ s => s) (fun _ s => s)
                  (view_of st) p "clear-canvas" JUndefined st)) = 3.
Proof. cbv. auto. Qed.

End WhiteboardFacts.

(** ** The server *)

Module ServerFacts.

Import Server.

(** *** The broadcast primitives *)

Lemma other_true (sender c : SocketId) : other sender c = true <-> c <> sender.
Proof.
  unfold other. destruct (String.eqb_spec c sender); simpl; split;
    congruence || auto.
Qed.

Lemma in_emit (c : SocketId) (ev ev' : ServerEvent) (targets : list SocketId) :
  In (Emit c ev) (emit targets ev') <-> ev = ev' /\ In c targets.
Proof.
  unfold emit. rewrite in_map_iff. split.
  - intros [x [Hx Hin]]. inversion Hx; subst. auto.
  - intros [-> Hin]. eauto.
Qed.

Lemma in_emit_inv (e : Effect) (ev : ServerEvent) (targets : list SocketId) :
  In e (emit targets ev) <-> exists c, e = Emit c ev /\ In c targets.
Proof.
  unfold emit. rewrite in_map_iff. split; intros [c [H1 H2]]; eauto.
Qed.

Lemma in_to (sender c : SocketId) (r : string) (st : State) :
  In c (to sender r st) <-> c <> sender /\ member c r st.
Proof.
  unfold to, member. rewrite filter_In, other_true. tauto.
Qed.

Lemma connected_in (c : SocketId) (st : State) :
  connected c st = true <-> In c (map fst (sids st)).
Proof.
  unfold connected. rewrite existsb_exists, in_map_iff. split.
  - intros [e [Hin He]]. apply String.eqb_eq in He. eauto.
  - intros [e [He Hin]]. exists e. split; [auto | now apply String.eqb_eq].
Qed.

Lemma in_broadcast (sender c : SocketId) (st : State) :
  In c (broadcast sender st) <-> c <> sender /\ connected c st = true.
Proof.
  unfold broadcast. rewrite filter_In, other_true, connected_in. tauto.
Qed.

Lemma member_connected (c : SocketId) (r : string) (st : State) :
  member c r st -> connected c st = true.
Proof.
  unfold member, socketsIn. rewrite connected_in, !in_map_iff.
  intros [e [He Hin]]. apply filter_In in Hin. exists e. tauto.
Qed.

Lemma to_nonmember (sender : SocketId) (r : string) (st : State) :
  ~ member sender r st -> to sender r st = socketsIn r st.
Proof.
  unfold to, member. intros Hn.
  induction (socketsIn r st) as [|c l IH]; simpl; auto.
  simpl in Hn.
  destruct (other sender c) eqn:E.
  - f_equal. apply IH. tauto.
  - exfalso. apply Hn. left.
    unfold other in E. destruct (String.eqb_spec c sender); [auto | discriminate].
Qed.

(** *** Updates of one room *)

Lemma update_value_same (r : string) (f : RoomData -> RoomData)
  (m : JsMap.t RoomData) (room : RoomData) :
  JsMap.get r m = Some room ->
  JsMap.get r (update_value (JStr r) f m) = Some (f room).
Proof.
  intros H. simpl. rewrite H. apply JsMapFacts.get_set_same.
Qed.

Lemma update_value_other (v : Json) (f : RoomData -> RoomData)
  (m : JsMap.t RoomData) (k : string) :
  names k v = false ->
  JsMap.get k (update_value v f m) = JsMap.get k m.
Proof.
  destruct v; simpl; auto.
  intros Hk. destruct (JsMap.get s m) eqn:E; auto.
  apply JsMapFacts.get_set_other.
  intros ->. rewrite String.eqb_refl in Hk. discriminate.
Qed.

Lemma update_value_absent (r : string) (f : RoomData -> RoomData)
  (m : JsMap.t RoomData) :
  JsMap.get r m = None -> update_value (JStr r) f m = m.
Proof. intros H. simpl. now rewrite H. Qed.

Lemma update_value_keys (v : Json) (f : RoomData -> RoomData)
  (m : JsMap.t RoomData) :
  JsMap.keys (update_value v f m) = JsMap.keys m.
Proof.
  destruct v; simpl; auto.
  destruct (JsMap.get s m) eqn:E; auto.
  apply JsMapFacts.keys_set_present. unfold JsMap.has. now rewrite E.
Qed.

Lemma truthy_JStr (r : string) : r <> ""%string -> truthy (JStr r) = true.
Proof.
  intros H. simpl. destruct (String.eqb_spec r ""); [contradiction | reflexivity].
Qed.

(** *** Drawing events *)

Lemma in_socketsIn (c : SocketId) (r : string) (st : State) :
  In c (socketsIn r st) <-> exists rs, In (c, rs) (sids st) /\ In r rs.
Proof.
  unfold socketsIn. rewrite in_map_iff. split.
  - intros [[c' rs] [Hc Hin]]. simpl in Hc. subst c'.
    apply filter_In in Hin. destruct Hin as [Hin Hr].
    unfold inRoom in Hr. cbn [snd] in Hr. apply existsb_exists in Hr.
    destruct Hr as [x [Hx Hrx]]. apply String.eqb_eq in Hrx. subst x. eauto.
  - intros [rs [Hin Hr]]. exists (c, rs). split; [reflexivity|].
    apply filter_In. split; [exact Hin|].
    unfold inRoom. cbn [snd]. apply existsb_exists. exists r.
    split; [exact Hr | apply String.eqb_refl].
Qed.

Lemma in_sids (c : SocketId) (st : State) :
  In c (map fst (sids st)) <-> exists rs, In (c, rs) (sids st).
Proof.
  rewrite in_map_iff. split.
  - intros [[c' rs] [Hc Hin]]. simpl in Hc. subst c'. eauto.
  - intros [rs Hin]. exists (c, rs). auto.
Qed.

Lemma touch_fields (now : Z) (room : RoomData) :
  touch now room
  = mkRoom (room_id room) (room_name room) (isPrivate room) (createdAt room)
      (users room) (canvasData room) (Some now).
Proof. reflexivity. Qed.

Lemma falsy_values (v : Json) :
  In v [JUndefined; JNull; JBool false; JNum 0; JStr ""] -> truthy v = false.
Proof. simpl. intuition (subst; reflexivity). Qed.

(** C1, as the code has it.  A drawing event whose room id is a non-empty
    string goes to exactly the other connections that the adapter holds in
    the group of that very name, never to the sender; a room registered
    under that very name gets the current time as last-activity and keeps
    every other field, and when none is registered the table is unchanged.
    The name is taken as it comes.  A drawing event whose room id is
    missing or falsy goes to every other connection and changes nothing. *)
Theorem drawing_relay :
  forall (now : Z) (sender : SocketId) (fields : list (string * Json))
         (st : State),
    let data := JObj fields in
    let st' := fst (on_drawing now sender data st) in
    let out := snd (on_drawing now sender data st) in
    (forall r : string,
        field "roomId" fields = JStr r -> r <> ""%string ->
        (forall e : Effect,
            In e out <->
            exists c rs, e = Emit c (drawing data) /\ c <> sender /\
                         In (c, rs) (sids st) /\ In r rs) /\
        (forall room : RoomData,
            JsMap.get r (rooms st) = Some room ->
            JsMap.get r (rooms st')
            = Some (mkRoom (room_id room) (room_name room) (isPrivate room)
                      (createdAt room) (users room) (canvasData room) (Some now))) /\
        (JsMap.get r (rooms st) = None -> rooms st' = rooms st)) /\
    (In (field "roomId" fields) [JUndefined; JNull; JBool false; JNum 0; JStr ""] ->
     (forall e : Effect,
         In e out <->
         exists c rs, e = Emit c (drawing data) /\ c <> sender /\
                      In (c, rs) (sids st)) /\
     st' = st).
Proof.
  intros now sender fields st data st' out.
  subst st' out. unfold on_drawing. subst data. cbn [prop]. split.
  - intros r Hr Hne. rewrite Hr, (truthy_JStr r Hne). cbn [fst snd].
    split; [|split].
    + intros e. rewrite in_emit_inv. cbn [to_value]. split.
      * intros [c [He Hc]]. apply in_to in Hc. destruct Hc as [Hc Hm].
        apply in_socketsIn in Hm. destruct Hm as [rs [H1 H2]].
        exists c, rs. auto.
      * intros [c [rs [He [Hc [H1 H2]]]]]. exists c. split; [exact He|].
        apply in_to. split; [exact Hc|]. apply in_socketsIn. eauto.
    + intros room Hroom. cbn [rooms with_rooms]. rewrite <- touch_fields.
      now apply update_value_same.
    + intros Hnone. cbn [rooms with_rooms]. now apply update_value_absent.
  - intros Hf. rewrite (falsy_values _ Hf). cbn [fst snd]. split; [|reflexivity].
    intros e. rewrite in_emit_inv. split.
    + intros [c [He Hc]]. unfold broadcast in Hc. apply filter_In in Hc.
      destruct Hc as [Hin Hc]. apply other_true in Hc. apply in_sids in Hin.
      destruct Hin as [rs Hin]. exists c, rs. auto.
    + intros [c [rs [He [Hc Hin]]]]. exists c. split; [exact He|].
      unfold broadcast. apply filter_In. split.
      * apply in_sids. eauto.
      * now apply other_true.
Qed.

Lemma drawing_relay_witness :
  let in_room := stroke "ABC123" in
  let global := JObj [("tool"%string, JStr "pen")] in
  ((forall e : Effect,
       In e (snd (on_drawing 7 "A"%string in_room session)) <->
       exists c rs, e = Emit c (drawing in_room) /\ c <> "A"%string /\
                    In (c, rs) (sids session) /\ In "ABC123"%string rs) /\
   (forall room : RoomData,
       JsMap.get "ABC123" (rooms session) = Some room ->
       JsMap.get "ABC123" (rooms (fst (on_drawing 7 "A"%string in_room session)))
       = Some (mkRoom (room_id room) (room_name room) (isPrivate room)
                 (createdAt room) (users room) (canvasData room) (Some 7))) /\
   (JsMap.get "ABC123" (rooms session) = None ->
    rooms (fst (on_drawing 7 "A"%string in_room session)) = rooms session)) /\
  ((forall e : Effect,
       In e (snd (on_drawing 7 "A"%string global session)) <->
       exists c rs, e = Emit c (drawing global) /\ c <> "A"%string /\
                    In (c, rs) (sids session)) /\
   fst (on_drawing 7 "A"%string global session) = session).
Proof.
  split.
  - apply (proj1 (drawing_relay 7 "A"%string
                    [("roomId"%string, JStr "ABC123"); ("tool"%string, JStr "pen");
                     ("x"%string, JNum 10); ("y"%string, JNum 20)] session)
             "ABC123"%string); [reflexivity | discriminate].
  - apply (proj2 (drawing_relay 7 "A"%string [("tool"%string, JStr "pen")] session)).
    simpl. now left.
Defined.

(** C1 as stated fails in two ways.  [A] and [B] are the members of the
    room ABC123, which they may join under any letter case.  A drawing
    event of [A] that names the room as abc123 reaches nobody and leaves the
    room's last-activity at 4.  And a drawing event of [A] that names [X],
    the socket id of a connection that has joined nothing and under which
    no room is registered, is delivered to [X]. *)
Lemma relay_goes_by_exact_group_name :
  let lower := stroke "abc123" in
  let direct := stroke "X" in
  upper "abc123" = "ABC123"%string /\
  option_map (fun room => map user_id (users room))
    (JsMap.get "ABC123" (rooms session)) = Some ["A"%string; "B"%string] /\
  snd (on_drawing 7 "A"%string lower session) = [] /\
  option_map lastActivity
    (JsMap.get "ABC123" (rooms (fst (on_drawing 7 "A"%string lower session))))
  = Some (Some 4) /\
  JsMap.get "X" (rooms session) = None /\
  (forall k room, JsMap.get k (rooms session) = Some room ->
                  ~ In "X"%string (map user_id (users room))) /\
  snd (on_drawing 7 "A"%string direct session)
  = [Emit "X"%string (drawing direct)].
Proof.
  repeat split; try reflexivity.
  intros k room Hget.
  destruct (String.eqb_spec k "ABC123") as [->|Hne].
  - vm_compute in Hget. injection Hget as <-. simpl. intuition discriminate.
  - exfalso. revert Hget. unfold session. vm_compute rooms.
    simpl. destruct (String.eqb_spec k "ABC123"); [contradiction | discriminate].
Qed.

(** The scenario of the specification: with [A] and [B] in room ABC123, a
    drawing event of [A] for that room reaches [B] and only [B]. *)
Example two_members_scenario :
  member "A"%string "ABC123" session /\
  member "B"%string "ABC123" session /\
  snd (on_drawing 7 "A"%string (stroke "ABC123") session)
  = [Emit "B"%string (drawing (stroke "ABC123"))].
Proof. unfold member. vm_compute. auto. Qed.

(** C7, as the code has it.  The gateway does not look at who sends a
    drawing event.  Whoever the sender is, member or not, the event goes
    to exactly the other connections in the group named by the event; so
    when the sender is not in that group, every connection in it receives
    the event.  Of the server's state only the last-activity of the room
    registered under that name changes, to the current time: its members,
    stored surface and other fields, every other room, the set of rooms,
    the adapter and the timers are as before. *)
Theorem drawing_ignores_membership :
  forall (now : Z) (sender : SocketId) (fields : list (string * Json))
         (r : string) (st : State),
    field "roomId" fields = JStr r -> r <> ""%string ->
    let data := JObj fields in
    let st' := fst (on_drawing now sender data st) in
    let out := snd (on_drawing now sender data st) in
    (forall e : Effect,
        In e out <->
        exists c rs, e = Emit c (drawing data) /\ c <> sender /\
                     In (c, rs) (sids st) /\ In r rs) /\
    ((forall rs, In (sender, rs) (sids st) -> ~ In r rs) ->
     forall c rs, In (c, rs) (sids st) -> In r rs ->
                  In (Emit c (drawing data)) out) /\
    sids st' = sids st /\ timers st' = timers st /\
    JsMap.keys (rooms st') = JsMap.keys (rooms st) /\
    (forall k, k <> r -> JsMap.get k (rooms st') = JsMap.get k (rooms st)) /\
    (forall room, JsMap.get r (rooms st) = Some room ->
                  JsMap.get r (rooms st')
                  = Some (mkRoom (room_id room) (room_name room) (isPrivate room)
                            (createdAt room) (users room) (canvasData room)
                            (Some now))) /\
    (JsMap.get r (rooms st) = None -> rooms st' = rooms st).
Proof.
  intros now sender fields r st Hr Hne data st' out.
  subst st' out. unfold on_drawing. subst data. cbn [prop].
  rewrite Hr, (truthy_JStr r Hne). cbn [fst snd to_value rooms sids timers with_rooms].
  assert (Hout : forall e,
             In e (emit (to sender r st) (drawing (JObj fields))) <->
             exists c rs, e = Emit c (drawing (JObj fields)) /\ c <> sender /\
                          In (c, rs) (sids st) /\ In r rs).
  { intros e. rewrite in_emit_inv. split.
    - intros [c [He Hc]]. apply in_to in Hc. destruct Hc as [Hc Hm].
      apply in_socketsIn in Hm. destruct Hm as [rs [H1 H2]]. exists c, rs. auto.
    - intros [c [rs [He [Hc [H1 H2]]]]]. exists c. split; [exact He|].
      apply in_to. split; [exact Hc|]. apply in_socketsIn. eauto. }
  split; [exact Hout|]. split; [|split; [|split; [|split; [|split; [|split]]]]].
  - intros Hnot c rs Hin Hrs. apply Hout. exists c, rs.
    repeat split; auto. intros ->. exact (Hnot rs Hin Hrs).
  - reflexivity.
  - reflexivity.
  - apply update_value_keys.
  - intros k Hk. apply update_value_other. simpl.
    destruct (String.eqb_spec r k); congruence.
  - intros room Hroom. rewrite <- touch_fields. now apply update_value_same.
  - apply update_value_absent.
Qed.

Lemma drawing_ignores_membership_witness :
  let data := stroke "ABC123" in
  let st' := fst (on_drawing 6 "X"%string data session) in
  let out := snd (on_drawing 6 "X"%string data session) in
  (forall e : Effect,
      In e out <->
      exists c rs, e = Emit c (drawing data) /\ c <> "X"%string /\
                   In (c, rs) (sids session) /\ In "ABC123"%string rs) /\
  ((forall rs, In ("X"%string, rs) (sids session) -> ~ In "ABC123"%string rs) ->
   forall c rs, In (c, rs) (sids session) -> In "ABC123"%string rs ->
                In (Emit c (drawing data)) out) /\
  sids st' = sids session /\ timers st' = timers session /\
  JsMap.keys (rooms st') = JsMap.keys (rooms session) /\
  (forall k, k <> "ABC123"%string ->
             JsMap.get k (rooms st') = JsMap.get k (rooms session)) /\
  (forall room, JsMap.get "ABC123" (rooms session) = Some room ->
                JsMap.get "ABC123" (rooms st')
                = Some (mkRoom (room_id room) (room_name room) (isPrivate room)
                          (createdAt room) (users room) (canvasData room)
                          (Some 6))) /\
  (JsMap.get "ABC123" (rooms session) = None -> rooms st' = rooms session).
Proof.
  apply (drawing_ignores_membership 6 "X"%string
           [("roomId"%string, JStr "ABC123"); ("tool"%string, JStr "pen");
            ("x"%string, JNum 10); ("y"%string, JNum 20)]
           "ABC123"%string session);
    [reflexivity | discriminate].
Defined.

(** C7 as stated fails.  [X] is connected but has joined nothing: it is
    neither in the broadcast group of ABC123 nor in the room's member list.
    Its drawing event for ABC123 is nevertheless delivered to [A] and [B],
    and the room's last-activity moves from 4 to 6. *)
Lemma nonmember_drawing_is_relayed :
  let data := stroke "ABC123" in
  let res := on_drawing 6 "X"%string data session in
  ~ member "X"%string "ABC123" session /\
  option_map (fun room => map user_id (users room))
    (JsMap.get "ABC123" (rooms session)) = Some ["A"%string; "B"%string] /\
  snd res = [Emit "A"%string (drawing data); Emit "B"%string (drawing data)] /\
  option_map lastActivity (JsMap.get "ABC123" (rooms session)) = Some (Some 4) /\
  option_map lastActivity (JsMap.get "ABC123" (rooms (fst res))) = Some (Some 6).
Proof.
  split.
  - unfold member. vm_compute. intuition discriminate.
  - vm_compute. auto.
Qed.

(** *** Joining *)

Section Join.

Variable toUpperCase : string -> string.

Lemma keys_registered (m : JsMap.t RoomData) (k : string) :
  In k (JsMap.keys m) <-> JsMap.has k m = true.
Proof.
  unfold JsMap.keys, JsMap.has.
  induction m as [|[k' v'] m IH]; simpl.
  - split; [tauto | discriminate].
  - destruct (String.eqb_spec k k') as [->|Hk]; [tauto|].
    rewrite IH. split; [intros [H|H]; congruence | auto].
Qed.

Lemma has_false_get (m : JsMap.t RoomData) (k : string) :
  JsMap.has k m = false <-> JsMap.get k m = None.
Proof.
  unfold JsMap.has. destruct (JsMap.get k m); split; congruence.
Qed.

Lemma has_key_in (name : string) (fields : list (string * Json)) :
  has_key name fields = true <-> exists x, In (name, x) fields.
Proof.
  unfold has_key. rewrite existsb_exists. split.
  - intros [[k x] [Hin Hk]]. simpl in Hk. apply String.eqb_eq in Hk. subst k. eauto.
  - intros [x Hin]. exists (name, x). split; [exact Hin | apply String.eqb_refl].
Qed.

Lemma printable_false (v : Json) : printable v = false <-> unprintable v.
Proof.
  unfold unprintable. destruct v; simpl;
    try (split; [discriminate | intros [fs [x [H _]]]; discriminate]).
  rewrite negb_false_iff, has_key_in. split.
  - intros [x Hin]. eauto.
  - intros [fs [x [H Hin]]]. injection H as <-. eauto.
Qed.

Lemma printable_true (v : Json) : printable v = true <-> ~ unprintable v.
Proof.
  rewrite <- printable_false. destruct (printable v); split; congruence.
Qed.

(** C10, as the code has it.  A join request that names an unregistered
    room causes exactly one emission, a room-error to the caller, and
    nothing else: the server state is unchanged (no member added, no room
    created or modified) and no other connection is sent anything.  When
    the request's user name can be converted to a string, the room-error
    says 'Room not found' and carries the normalised id that was asked for
    and the list of the registered room identifiers; when it cannot (an
    object with an own [toString] key), the log line throws before the
    miss is reported and the room-error says 'Failed to join room' and
    carries neither. *)
Theorem join_unknown_room :
  forall (now : Z) (socket : SocketId) (fields : list (string * Json))
         (roomId : string) (st : State),
    field "roomId" fields = JStr roomId ->
    JsMap.has (toUpperCase roomId) (rooms st) = false ->
    let res := on_join_room toUpperCase now socket (JObj fields) st in
    (exists message requested available,
        res = (st, [Emit socket (room_error message requested available)])) /\
    (~ unprintable (field "userName" fields) ->
     res = (st, [Emit socket (room_error "Room not found" (Some (toUpperCase roomId))
                                (Some (JsMap.keys (rooms st))))])) /\
    (unprintable (field "userName" fields) ->
     res = (st, [Emit socket (room_error "Failed to join room" None None)])) /\
    (forall k, In k (JsMap.keys (rooms st)) <-> JsMap.has k (rooms st) = true).
Proof.
  intros now socket fields roomId st Hr Hmiss res. subst res.
  apply has_false_get in Hmiss.
  unfold on_join_room. cbn [prop]. rewrite Hr, Hmiss.
  destruct (printable (field "userName" fields)) eqn:Hp.
  - apply printable_true in Hp.
    split; [eauto|]. split; [reflexivity|]. split; [contradiction|].
    intros k. apply keys_registered.
  - apply printable_false in Hp.
    split; [eauto|]. split; [contradiction|]. split; [reflexivity|].
    intros k. apply keys_registered.
Qed.

(** A successful join, step by step. *)
Lemma join_known_room (now : Z) (socket : SocketId)
  (fields : list (string * Json)) (roomId : string) (st : State)
  (room : RoomData) :
  field "roomId" fields = JStr roomId ->
  printable (field "userName" fields) = true ->
  JsMap.get (toUpperCase roomId) (rooms st) = Some room ->
  let k := toUpperCase roomId in
  let user := mkUser socket (js_or (field "userName" fields) (JStr "Anonymous")) now in
  let room' := touch now (set_users (users room ++ [user]) room) in
  let st' := with_rooms (join socket k st) (JsMap.set k room' (rooms st)) in
  on_join_room toUpperCase now socket (JObj fields) st
  = (st',
     Emit socket (room_joined k (room_name room) (users room ++ [user]))
     :: (if truthy (canvasData room)
         then [Emit socket (load_canvas (canvasData room))] else [])
     ++ emit (to socket k st') (user_joined user (users room ++ [user]))).
Proof.
  intros Hr Hp Hroom. unfold on_join_room. cbn [prop]. rewrite Hr, Hp, Hroom.
  reflexivity.
Qed.

(** A join whose user name cannot be printed. *)
Lemma join_unprintable (now : Z) (socket : SocketId)
  (fields : list (string * Json)) (roomId : string) (st : State) :
  field "roomId" fields = JStr roomId ->
  printable (field "userName" fields) = false ->
  on_join_room toUpperCase now socket (JObj fields) st
  = (st, [Emit socket (room_error "Failed to join room" None None)]).
Proof.
  intros Hr Hp. unfold on_join_room. cbn [prop]. now rewrite Hr, Hp.
Qed.

Lemma join_registers_member (socket : SocketId) (r : string) (st : State) :
  connected socket st = true -> member socket r (join socket r st).
Proof.
  unfold connected, member, socketsIn, join. cbn [sids].
  induction (sids st) as [|e l IH]; [discriminate|].
  simpl. unfold SocketId in *.
  destruct (String.eqb (fst e) socket) eqn:He; cbn [orb].
  - intros _. apply String.eqb_eq in He.
    assert (Hin : inRoom r (fst e, if inRoom r e then snd e else snd e ++ [r]) = true).
    { unfold inRoom at 1. cbn [snd]. destruct (inRoom r e) eqn:E; [exact E|].
      rewrite existsb_app. simpl. rewrite String.eqb_refl.
      now rewrite orb_true_r. }
    rewrite Hin. left. exact He.
  - intros H. specialize (IH H).
    destruct (inRoom r e); [right|]; exact IH.
Qed.

(** A connection that joins a registered room is in that room's broadcast
    group from then on. *)
Lemma joined_is_member (now : Z) (socket : SocketId)
  (fields : list (string * Json)) (roomId : string) (st : State)
  (room : RoomData) :
  connected socket st = true ->
  field "roomId" fields = JStr roomId ->
  printable (field "userName" fields) = true ->
  JsMap.get (toUpperCase roomId) (rooms st) = Some room ->
  member socket (toUpperCase roomId)
    (fst (on_join_room toUpperCase now socket (JObj fields) st)).
Proof.
  intros Hc Hr Hp Hroom.
  rewrite (join_known_room now socket fields roomId st room Hr Hp Hroom).
  cbn [fst]. apply (join_registers_member socket (toUpperCase roomId) st Hc).
Qed.

End Join.

Lemma join_unknown_room_witness :
  let plain := join_payload "zzzzzz" "xena" in
  let odd := JObj [("roomId"%string, JStr "zzzzzz");
                   ("userName"%string, JObj [("toString"%string, JNum 0)])] in
  JsMap.has (upper "zzzzzz") (rooms session) = false /\
  on_join_room upper 9 "X"%string plain session
  = (session, [Emit "X"%string (room_error "Room not found" (Some "ZZZZZZ"%string)
                                  (Some ["ABC123"%string]))]) /\
  on_join_room upper 9 "X"%string odd session
  = (session, [Emit "X"%string (room_error "Failed to join room" None None)]).
Proof.
  split; [reflexivity|]. split.
  - apply (proj1 (proj2 (join_unknown_room upper 9 "X"%string
                    [("roomId"%string, JStr "zzzzzz"); ("userName"%string, JStr "xena")]
                    "zzzzzz"%string session eq_refl eq_refl))).
    intros [fs [x [H _]]]. discriminate.
  - apply (proj1 (proj2 (proj2 (join_unknown_room upper 9 "X"%string
                    [("roomId"%string, JStr "zzzzzz");
                     ("userName"%string, JObj [("toString"%string, JNum 0)])]
                    "zzzzzz"%string session eq_refl eq_refl)))).
    exists [("toString"%string, JNum 0)], (JNum 0). split; [reflexivity | now left].
Defined.

(** C10 as stated fails for a user name that cannot be printed.  The join
    names the unregistered room ZZZZZZ and carries the user name
    [{"toString": 0}]: the room-error sent back has the message 'Failed to
    join room' and neither the requested id nor the list of rooms. *)
Lemma unprintable_name_hides_the_miss :
  let odd := JObj [("roomId"%string, JStr "zzzzzz");
                   ("userName"%string, JObj [("toString"%string, JNum 0)])] in
  JsMap.has (upper "zzzzzz") (rooms session) = false /\
  on_join_room upper 9 "X"%string odd session
  = (session, [Emit "X"%string (room_error "Failed to join room" None None)]).
Proof. split; reflexivity. Qed.

(** The scenario of the specification: the room ABC123 is created, a join
    for ZZZZZZ is refused with [requestedRoom = "ZZZZZZ"], a join for
    ABC123 is confirmed with the member list. *)
Example create_then_join_scenario :
  snd (run upper initial
         [ (0, PostRooms (JObj []) abc123);
           (1, Connection "A"%string);
           (2, Message "A"%string "join-room" (join_payload "ZZZZZZ" "alice"));
           (3, Message "A"%string "join-room" (join_payload "ABC123" "alice")) ])
  = [ Respond 200 (room_created "ABC123" (JStr "Room ABC123") 1);
      Emit "A"%string (room_error "Room not found" (Some "ZZZZZZ"%string)
                         (Some ["ABC123"%string]));
      Emit "A"%string (room_joined "ABC123" (JStr "Room ABC123")
                         [mkUser "A"%string (JStr "alice") 3]) ].
Proof. vm_compute. reflexivity. Qed.

(** *** Idle cleanup *)

Lemma getTime_or_0_Some (t : Z) : getTime_or_0 (Some t) = t.
Proof. simpl. destruct (Z.eqb_spec t 0); auto. Qed.

Lemma cleanup_cases (now : Z) (roomId : string) (m : JsMap.t RoomData) :
  cleanup now roomId m = m \/ cleanup now roomId m = JsMap.delete roomId m.
Proof.
  unfold cleanup. destruct (JsMap.get roomId m); auto.
  destruct (_ =? 0); auto. destruct (_ >? grace); auto.
Qed.

Lemma length_zero_nil {A : Type} (l : list A) :
  (Z.of_nat (List.length l) =? 0) = true <-> l = [].
Proof.
  destruct l; simpl; split; auto; try discriminate.
Qed.

(** C3, as the code has it.  When the cleanup timer of a registered room
    fires at time [now], the room is deleted exactly when it has no member
    and its last-activity lies more than the grace duration before [now].
    So a room that has a member again is kept, and a room whose
    last-activity was refreshed is kept provided the refresh is no older
    than the grace duration at the moment the timer runs; this is the case
    for every refresh made after the timer was scheduled when the timer
    runs exactly at the end of the grace period.  No other room is
    affected. *)
Theorem cleanup_decision :
  forall (now : Z) (roomId : string) (m : JsMap.t RoomData) (room : RoomData),
    JsMap.get roomId m = Some room ->
    let m' := cleanup now roomId m in
    (JsMap.get roomId m' = None <->
     users room = [] /\ now - getTime_or_0 (lastActivity room) > grace) /\
    (JsMap.get roomId m' <> None -> m' = m) /\
    (users room <> [] -> m' = m) /\
    (forall t, lastActivity room = Some t -> now - t <= grace -> m' = m) /\
    (forall scheduled t,
        lastActivity room = Some t -> scheduled <= t ->
        now = scheduled + grace -> m' = m) /\
    (forall k, k <> roomId -> JsMap.get k m' = JsMap.get k m).
Proof.
  intros now roomId m room Hroom m'.
  assert (Hkeep : forall t, lastActivity room = Some t -> now - t <= grace -> m' = m).
  { intros t Ht Hle. subst m'. unfold cleanup. rewrite Hroom.
    destruct (_ =? 0); auto. rewrite Ht, getTime_or_0_Some.
    destruct (Z.gtb_spec (now - t) grace); [lia | reflexivity]. }
  split; [split|].
  - intros Hgone. subst m'. unfold cleanup in Hgone. rewrite Hroom in Hgone.
    destruct (Z.of_nat (List.length (users room)) =? 0) eqn:E;
      [|congruence].
    split; [now apply length_zero_nil in E|].
    destruct (Z.gtb_spec (now - getTime_or_0 (lastActivity room)) grace);
      [lia | congruence].
  - intros [Hu Hold]. subst m'. unfold cleanup. rewrite Hroom, Hu. simpl.
    destruct (Z.gtb_spec (now - getTime_or_0 (lastActivity room)) grace);
      [apply JsMapFacts.get_delete_same | lia].
  - split; [|split; [|split; [|split]]].
    + intros Hstill. subst m'.
      destruct (cleanup_cases now roomId m) as [H|H]; [exact H|].
      rewrite H, JsMapFacts.get_delete_same in Hstill. congruence.
    + intros Hu. subst m'. unfold cleanup. rewrite Hroom.
      destruct (Z.of_nat (List.length (users room)) =? 0) eqn:E; auto.
      apply length_zero_nil in E. contradiction.
    + exact Hkeep.
    + intros scheduled t Ht Hle Hnow. apply (Hkeep t Ht). lia.
    + intros k Hk. subst m'.
      destruct (cleanup_cases now roomId m) as [H|H]; rewrite H; auto.
      now apply JsMapFacts.get_delete_other.
Qed.

Lemma cleanup_decision_witness :
  let room := mkRoom "ABC123" (JStr "Room ABC123") (JBool false) 0 [] JNull (Some 1003) in
  let m := [("ABC123"%string, room)] in
  let m' := cleanup 3601001 "ABC123" m in
  (JsMap.get "ABC123" m' = None <->
   users room = [] /\ 3601001 - getTime_or_0 (lastActivity room) > grace) /\
  (JsMap.get "ABC123" m' <> None -> m' = m) /\
  (users room <> [] -> m' = m) /\
  (forall t, lastActivity room = Some t -> 3601001 - t <= grace -> m' = m) /\
  (forall scheduled t,
      lastActivity room = Some t -> scheduled <= t ->
      3601001 = scheduled + grace -> m' = m) /\
  (forall k, k <> "ABC123"%string -> JsMap.get k m' = JsMap.get k m).
Proof.
  apply (cleanup_decision 3601001 "ABC123"
           [("ABC123"%string,
             mkRoom "ABC123" (JStr "Room ABC123") (JBool false) 0 [] JNull (Some 1003))]
           (mkRoom "ABC123" (JStr "Room ABC123") (JBool false) 0 [] JNull (Some 1003))).
  reflexivity.
Defined.

(** C3 as stated fails when the timer runs late.  The room empties at 1001
    and its cleanup is scheduled for 1001 + grace.  A drawing event
    refreshes its last-activity at 1003, well inside the grace period.  The
    timer callback runs at 3601004, three milliseconds after it was due:
    the room is still empty and its last-activity is 3600001 ms old, so it
    is deleted. *)
Lemma refreshed_room_deleted_by_late_timer :
  let before := fst (run upper initial (removelast late_timer)) in
  let after := fst (run upper initial late_timer) in
  feasible upper initial late_timer = true /\
  timers before = [("ABC123"%string, 1001 + grace)] /\
  option_map users (JsMap.get "ABC123" (rooms before)) = Some [] /\
  option_map lastActivity (JsMap.get "ABC123" (rooms before)) = Some (Some 1003) /\
  1001 <= 1003 < 1001 + grace /\
  JsMap.get "ABC123" (rooms after) = None.
Proof. vm_compute. intuition congruence. Qed.

(** *** Room creation *)

Section Create.

Variable toUpperCase : string -> string.

Lemma retry_registered (m : JsMap.t RoomData) (entropy : nat -> string * string)
  (budget next : nat) (roomId : string) :
  JsMap.has roomId m = true ->
  (forall i, (next <= i < next + budget)%nat ->
             JsMap.has (generateRoomId toUpperCase (entropy i)) m = true) ->
  JsMap.has (retry toUpperCase m entropy budget next roomId) m = true.
Proof.
  revert next roomId. induction budget as [|b IH]; intros next roomId H0 Hall; simpl.
  - exact H0.
  - rewrite H0. apply IH.
    + apply Hall. lia.
    + intros i Hi. apply Hall. lia.
Qed.



(** When all eleven candidates collide, the loop gives up and the request
    goes on with a registered identifier: the room that was registered
    under it is replaced by a new, empty one, and the answer is a success
    (unless the room name cannot be printed, which makes it a 500). *)
Lemma createRoom_exhausted (now : Z) (fields : list (string * Json))
  (entropy : nat -> string * string) (st : State) :
  (forall i, (i <= 10)%nat ->
             JsMap.has (generateRoomId toUpperCase (entropy i)) (rooms st) = true) ->
  exists roomId roomName,
    JsMap.has roomId (rooms st) = true /\
    snd (createRoom toUpperCase now (JObj fields) entropy st)
    = (if printable roomName
       then [Respond 200 (room_created roomId roomName (JsMap.size (rooms st)))]
       else [Respond 500 create_failed]) /\
    option_map users
      (JsMap.get roomId (rooms (fst (createRoom toUpperCase now (JObj fields) entropy st))))
    = Some [].
Proof.
  intros Hall.
  assert (Hreg : JsMap.has (allocate toUpperCase (rooms st) entropy) (rooms st) = true).
  { unfold allocate. apply retry_registered.
    - apply Hall. lia.
    - intros i Hi. apply Hall. lia. }
  unfold createRoom. cbn [prop].
  eexists. eexists. split; [exact Hreg|]. cbn [fst snd rooms with_rooms]. split.
  - now rewrite JsMapFacts.size_set_present.
  - now rewrite JsMapFacts.get_set_same.
Qed.

End Create.

(** C2 at the failing input.  ABC123 is registered, with members [A] and
    [B].  A creation request whose eleven calls of [generateRoomId] all
    yield ABC123 (same millisecond, same leading random digits) is answered
    with status 200 and [roomId = "ABC123"], the identifier the first
    request returned, and the registered room is overwritten by an empty
    one. *)
Theorem exhausted_retries_reuse_identifier :
  let first := createRoom upper 0 (JObj []) abc123 initial in
  let second := createRoom upper 10 (JObj []) abc123 session in
  snd first = [Respond 200 (room_created "ABC123" (JStr "Room ABC123") 1)] /\
  snd second = [Respond 200 (room_created "ABC123" (JStr "Room ABC123") 1)] /\
  JsMap.has "ABC123" (rooms session) = true /\
  map (fun i => generateRoomId upper (abc123 i)) (seq 0 11)
  = repeat "ABC123"%string 11 /\
  option_map (fun room => map user_id (users room))
    (JsMap.get "ABC123" (rooms session)) = Some ["A"%string; "B"%string] /\
  option_map (fun room => map user_id (users room))
    (JsMap.get "ABC123" (rooms (fst second))) = Some [].
Proof. vm_compute. intuition congruence. Qed.

(** *** The stored surface along a run *)

Section Surface.

Variable toUpperCase : string -> string.

Variables (k : string) (state : Json).

Lemma stores_update_keep (v : Json) (f : RoomData -> RoomData)
  (m : JsMap.t RoomData) :
  (forall room, canvasData (f room) = canvasData room) ->
  stores k state m -> stores k state (update_value v f m).
Proof.
  intros Hf Hm. destruct v; simpl; auto.
  destruct (JsMap.get s m) as [room|] eqn:E; auto.
  intros room'. destruct (String.eqb_spec k s) as [->|Hne].
  - rewrite JsMapFacts.get_set_same. intros [= <-]. rewrite Hf. now apply Hm.
  - rewrite JsMapFacts.get_set_other by exact Hne. apply Hm.
Qed.

Lemma stores_update_other (v : Json) (f : RoomData -> RoomData)
  (m : JsMap.t RoomData) :
  names k v = false ->
  stores k state m -> stores k state (update_value v f m).
Proof.
  intros Hv Hm room. rewrite update_value_other by exact Hv. apply Hm.
Qed.

Lemma stores_set_other (r : string) (room : RoomData) (m : JsMap.t RoomData) :
  k <> r -> stores k state m -> stores k state (JsMap.set r room m).
Proof.
  intros Hne Hm room'. rewrite JsMapFacts.get_set_other by exact Hne. apply Hm.
Qed.

Lemma get_leave_rooms (now : Z) (socket : SocketId) (st : State)
  (m : JsMap.t RoomData) (key : string) :
  JsMap.get key (fst (fst (leave_rooms now socket st m)))
  = option_map (left_by now socket) (JsMap.get key m).
Proof.
  induction m as [|[roomId room] m IH]; simpl; auto.
  destruct (leave_rooms now socket st m) as [[rest out] tm]. simpl in IH.
  destruct (splice_user socket (users room)) as [[user remaining]|] eqn:E;
    simpl; destruct (String.eqb key roomId); auto;
    simpl; unfold left_by; now rewrite E.
Qed.

Lemma stores_leave_rooms (now : Z) (socket : SocketId) (st : State)
  (m : JsMap.t RoomData) :
  stores k state m ->
  stores k state (fst (fst (leave_rooms now socket st m))).
Proof.
  intros Hm room. rewrite get_leave_rooms.
  destruct (JsMap.get k m) as [room0|] eqn:E; simpl; [|discriminate].
  intros [= <-]. specialize (Hm room0 E). unfold left_by.
  destruct (splice_user socket (users room0)) as [[u rest]|]; auto.
Qed.

Lemma stores_cleanup (now : Z) (r : string) (m : JsMap.t RoomData) :
  stores k state m -> stores k state (cleanup now r m).
Proof.
  intros Hm. destruct (cleanup_cases now r m) as [H|H]; rewrite H; auto.
  intros room Hroom. apply Hm. eapply JsMapFacts.get_delete_some, Hroom.
Qed.

Lemma stores_join (now : Z) (socket : SocketId) (data : Json) (st : State) :
  stores k state (rooms st) ->
  stores k state (rooms (fst (on_join_room toUpperCase now socket data st))).
Proof.
  intros Hm. unfold on_join_room.
  destruct (prop data "roomId") as [[| | | |roomId|]|]; auto;
    destruct (prop data "userName") as [userName|]; auto.
  destruct (printable userName); auto.
  destruct (JsMap.get (toUpperCase roomId) (rooms st)) as [room|] eqn:E; auto.
  cbn [fst rooms with_rooms join]. intros room'.
  destruct (String.eqb_spec k (toUpperCase roomId)) as [->|Hne].
  - rewrite JsMapFacts.get_set_same. intros [= <-]. simpl. now apply Hm.
  - rewrite JsMapFacts.get_set_other by exact Hne. apply Hm.
Qed.

Lemma stores_step (st : State) (i : Z * Input) :
  rewrites_surface toUpperCase k st i = false ->
  stores k state (rooms st) ->
  stores k state (rooms (fst (step toUpperCase st i))).
Proof.
  destruct i as [now [socket|socket event data|socket|body entropy|roomId due]];
    unfold rewrites_surface, step; cbn [fst snd]; intros Hq Hm.
  - exact Hm.
  - unfold on_message.
    destruct (String.eqb event "join-room"); [now apply stores_join|].
    destruct (String.eqb event "drawing").
    { unfold on_drawing. destruct (prop data "roomId") as [roomId|]; auto.
      destruct (truthy roomId); auto.
      cbn [fst rooms with_rooms]. now apply stores_update_keep. }
    destruct (String.eqb event "clear-canvas").
    { unfold on_clear_canvas.
      destruct (truthy (optprop data "roomId")); auto.
      cbn [fst rooms with_rooms]. apply stores_update_other; auto.
      apply orb_false_elim in Hq. destruct Hq as [Hq _]. exact Hq. }
    destruct (String.eqb event "undo").
    { unfold on_signal. destruct (truthy (optprop data "roomId")); auto. }
    destruct (String.eqb event "redo").
    { unfold on_signal. destruct (truthy (optprop data "roomId")); auto. }
    destruct (String.eqb event "save-canvas-state"); auto.
    unfold on_save_canvas_state.
    destruct (prop data "roomId") as [roomId|]; auto.
    destruct (prop data "canvasData"); auto.
    cbn [fst rooms with_rooms]. apply stores_update_other; [|exact Hm].
    exact Hq.
  - unfold on_disconnect.
    pose proof (stores_leave_rooms now socket (leave_all socket st)
                  (rooms (leave_all socket st)) Hm) as H.
    destruct (leave_rooms now socket (leave_all socket st)
                (rooms (leave_all socket st))) as [[rooms' out] tm].
    exact H.
  - unfold createRoom.
    destruct (prop body "roomName"); auto.
    destruct (prop body "isPrivate"); auto.
    cbn [fst rooms with_rooms]. apply stores_set_other; auto.
    intros ->. rewrite String.eqb_refl in Hq. discriminate.
  - cbn [on_timeout fst rooms]. now apply stores_cleanup.
Qed.

Lemma run_cons (st : State) (i : Z * Input) (trace : list (Z * Input)) :
  fst (run toUpperCase st (i :: trace))
  = fst (run toUpperCase (fst (step toUpperCase st i)) trace).
Proof.
  simpl. destruct (step toUpperCase st i) as [st1 out1]. simpl.
  now destruct (run toUpperCase st1 trace).
Qed.

Lemma stores_run (trace : list (Z * Input)) (st : State) :
  quiet toUpperCase k st trace = true ->
  stores k state (rooms st) ->
  stores k state (rooms (fst (run toUpperCase st trace))).
Proof.
  revert st. induction trace as [|i trace IH]; intros st Hq Hm; [exact Hm|].
  rewrite run_cons. simpl in Hq. apply andb_prop in Hq. destruct Hq as [Hi Hq].
  apply IH; [exact Hq|]. apply stores_step; [|exact Hm].
  now destruct (rewrites_surface toUpperCase k st i).
Qed.

Lemma stores_after_save (now : Z) (socket : SocketId)
  (saved : list (string * Json)) (st : State) :
  JsMap.has k (rooms st) = true ->
  field "roomId" saved = JStr k -> field "canvasData" saved = state ->
  stores k state
    (rooms (fst (on_save_canvas_state now socket (JObj saved) st))).
Proof.
  intros Hreg Hk Hs. unfold on_save_canvas_state. cbn [prop].
  rewrite Hk, Hs. cbn [fst rooms with_rooms].
  apply JsMapFacts.has_get in Hreg. destruct Hreg as [room Hroom].
  intros room'. rewrite (update_value_same k _ _ room Hroom).
  now intros [= <-].
Qed.

Lemma truthy_false_iff (v : Json) :
  truthy v = false <-> In v [JUndefined; JNull; JBool false; JNum 0; JStr ""].
Proof.
  split; [|apply falsy_values].
  destruct v as [| |b|n|s|fs]; simpl; intros H; auto.
  - destruct b; [discriminate | auto].
  - destruct (Z.eqb_spec n 0) as [E|E]; [subst n; auto 10 | discriminate].
  - destruct (String.eqb_spec s "") as [E|E]; [subst s; auto 10 | discriminate].
  - discriminate.
Qed.

(** C5, as the code has it.  A surface state is saved for a registered
    room: the room stores it, whatever it is.  Whatever the server handles
    next, as long as it is neither a clear nor a save naming that room nor
    a creation request that is given its identifier, a join that succeeds
    (the room is found and the user name can be printed) appends the new
    member, confirms with room-joined (id, name, member list including the
    joiner) and leaves the stored state in place.  If the state is one
    that JavaScript treats as true, the join also emits a load-canvas
    event carrying exactly that state, to the joiner and to nobody else;
    if it is falsy ([undefined], [null], [false], 0 or the empty string),
    no load-canvas event is emitted at all. *)
Theorem save_then_join :
  forall (now0 : Z) (saver : SocketId) (saved : list (string * Json))
         (st0 : State) (trace : list (Z * Input))
         (now : Z) (joiner : SocketId) (fields : list (string * Json))
         (roomId : string) (room : RoomData),
    JsMap.has k (rooms st0) = true ->
    field "roomId" saved = JStr k -> field "canvasData" saved = state ->
    let st1 := fst (on_save_canvas_state now0 saver (JObj saved) st0) in
    quiet toUpperCase k st1 trace = true ->
    let st2 := fst (run toUpperCase st1 trace) in
    field "roomId" fields = JStr roomId -> toUpperCase roomId = k ->
    ~ unprintable (field "userName" fields) ->
    JsMap.get k (rooms st2) = Some room ->
    let user := mkUser joiner (js_or (field "userName" fields) (JStr "Anonymous")) now in
    let st3 := fst (on_join_room toUpperCase now joiner (JObj fields) st2) in
    let out := snd (on_join_room toUpperCase now joiner (JObj fields) st2) in
    option_map canvasData (JsMap.get k (rooms st1)) = Some state /\
    canvasData room = state /\
    In (Emit joiner (room_joined k (room_name room) (users room ++ [user]))) out /\
    option_map users (JsMap.get k (rooms st3)) = Some (users room ++ [user]) /\
    option_map canvasData (JsMap.get k (rooms st3)) = Some state /\
    (~ In state [JUndefined; JNull; JBool false; JNum 0; JStr ""] ->
     In (Emit joiner (load_canvas state)) out /\
     forall c d, In (Emit c (load_canvas d)) out -> c = joiner /\ d = state) /\
    (In state [JUndefined; JNull; JBool false; JNum 0; JStr ""] ->
     forall c d, ~ In (Emit c (load_canvas d)) out).
Proof.
  intros now0 saver saved st0 trace now joiner fields roomId room
         Hreg Hk Hs st1 Hquiet st2 Hr Hup Hname Hroom user st3 out.
  assert (Hst1 : stores k state (rooms st1)) by now apply stores_after_save.
  assert (Hst : canvasData room = state).
  { apply (stores_run trace st1 Hquiet Hst1). exact Hroom. }
  assert (Hsaved : option_map canvasData (JsMap.get k (rooms st1)) = Some state).
  { apply JsMapFacts.has_get in Hreg. destruct Hreg as [room0 Hroom0].
    subst st1. unfold on_save_canvas_state. cbn [prop]. rewrite Hk, Hs.
    cbn [fst rooms with_rooms].
    now rewrite (update_value_same k _ _ room0 Hroom0). }
  split; [exact Hsaved|]. split; [exact Hst|].
  apply printable_true in Hname.
  subst st3 out. rewrite <- Hup in Hroom.
  rewrite (join_known_room toUpperCase now joiner fields roomId st2 room Hr Hname Hroom).
  rewrite Hup, Hst. cbn [fst snd rooms with_rooms]. fold user.
  split; [now left|]. split; [now rewrite JsMapFacts.get_set_same|].
  split; [rewrite JsMapFacts.get_set_same; cbn [option_map canvasData touch set_users];
          now rewrite Hst|].
  split.
  - intros Htrue. rewrite <- truthy_false_iff in Htrue.
    destruct (truthy state); [|congruence]. split.
    + right. now left.
    + intros c d [H|[H|H]]; [discriminate | now inversion H |].
      apply in_emit in H. destruct H as [H _]. discriminate.
  - intros Hfalse. rewrite (falsy_values _ Hfalse). cbn [app].
    intros c d [H|H]; [discriminate|].
    apply in_emit in H. destruct H as [H _]. discriminate.
Qed.

End Surface.

Lemma save_then_join_witness :
  let a := mkUser "A"%string (JStr "alice") 2 in
  let x := mkUser "X"%string (JStr "xena") 20 in
  let kept := fst (on_save_canvas_state 10 "A"%string
                     (JObj (save_payload "ABC123" snapshot)) session) in
  let nulled := fst (on_save_canvas_state 10 "A"%string
                       (JObj (save_payload "ABC123" JNull)) session) in
  let replay := on_join_room upper 20 "X"%string (join_payload "abc123" "xena")
                  (fst (run upper kept afterwards)) in
  let silent := on_join_room upper 20 "X"%string (join_payload "abc123" "xena")
                  (fst (run upper nulled afterwards)) in
  quiet upper "ABC123" kept afterwards = true /\
  quiet upper "ABC123" nulled afterwards = true /\
  (In (Emit "X"%string (room_joined "ABC123" (JStr "Room ABC123") [a; x])) (snd replay) /\
   In (Emit "X"%string (load_canvas snapshot)) (snd replay) /\
   (forall c d, In (Emit c (load_canvas d)) (snd replay) -> c = "X"%string /\ d = snapshot)) /\
  (In (Emit "X"%string (room_joined "ABC123" (JStr "Room ABC123") [a; x])) (snd silent) /\
   option_map canvasData (JsMap.get "ABC123" (rooms (fst silent))) = Some JNull /\
   (forall c d, ~ In (Emit c (load_canvas d)) (snd silent))).
Proof.
  assert (Hname : ~ unprintable (field "userName"
                     [("roomId"%string, JStr "abc123"); ("userName"%string, JStr "xena")])).
  { intros [fs [y [H _]]]. discriminate. }
  split; [reflexivity|]. split; [reflexivity|]. split.
  - destruct (save_then_join upper "ABC123" snapshot 10 "A"%string
                (save_payload "ABC123" snapshot) session afterwards 20 "X"%string
                [("roomId"%string, JStr "abc123"); ("userName"%string, JStr "xena")]
                "abc123"%string
                (mkRoom "ABC123" (JStr "Room ABC123") (JBool false) 0
                   [mkUser "A"%string (JStr "alice") 2] snapshot (Some 14))
                eq_refl eq_refl eq_refl eq_refl eq_refl eq_refl Hname eq_refl)
      as [_ [_ [Hjoined [_ [_ [Htruthy _]]]]]].
    split; [exact Hjoined|]. apply Htruthy.
    unfold snapshot. simpl. intuition discriminate.
  - destruct (save_then_join upper "ABC123" JNull 10 "A"%string
                (save_payload "ABC123" JNull) session afterwards 20 "X"%string
                [("roomId"%string, JStr "abc123"); ("userName"%string, JStr "xena")]
                "abc123"%string
                (mkRoom "ABC123" (JStr "Room ABC123") (JBool false) 0
                   [mkUser "A"%string (JStr "alice") 2] JNull (Some 14))
                eq_refl eq_refl eq_refl eq_refl eq_refl eq_refl Hname eq_refl)
      as [_ [_ [Hjoined [_ [Hkept [_ Hfalsy]]]]]].
    split; [exact Hjoined|]. split; [exact Hkept|]. apply Hfalsy.
    simpl. auto.
Defined.

(** C5 as stated fails for a state that JavaScript treats as false.  The
    empty string is saved for ABC123 and stored; the next join to ABC123 is
    confirmed and announced, but no load-canvas event is emitted. *)
Lemma empty_state_is_not_replayed :
  let st1 := fst (on_save_canvas_state 10 "A"%string
                    (JObj (save_payload "ABC123" (JStr ""))) session) in
  let res := on_join_room upper 20 "X"%string (join_payload "ABC123" "xena") st1 in
  let members := [mkUser "A"%string (JStr "alice") 2;
                  mkUser "B"%string (JStr "bob") 4;
                  mkUser "X"%string (JStr "xena") 20] in
  option_map canvasData (JsMap.get "ABC123" (rooms st1)) = Some (JStr "") /\
  snd res = [ Emit "X"%string (room_joined "ABC123" (JStr "Room ABC123") members);
              Emit "A"%string (user_joined (mkUser "X"%string (JStr "xena") 20) members);
              Emit "B"%string (user_joined (mkUser "X"%string (JStr "xena") 20) members) ] /\
  (forall d, ~ In (Emit "X"%string (load_canvas d)) (snd res)).
Proof.
  split; [reflexivity|]. split; [reflexivity|].
  intros d H. vm_compute in H. intuition discriminate.
Qed.

End ServerFacts.

(** ** Client and server together *)

Module EndToEndFacts.

Import EndToEnd.

Section Protocol.

Context {Surface : Type} (blank : Surface) (toDataURL : Surface -> string).

Variable toUpperCase : string -> string.

(** The server registers no listener for ['canvas-state']. *)
Lemma canvas_state_has_no_listener (now : Z) (sender : Server.SocketId)
  (data : Json) (st : Server.State) :
  Server.on_message toUpperCase now sender "canvas-state" data st = (st, []).
Proof. reflexivity. Qed.

(** The client half of an undo: with the cursor above 0 the cursor moves
    down by one, the snapshot now under it is painted, and with a socket
    and a room the painted surface is emitted as ['canvas-state']. *)
Lemma undo_emits_canvas_state (roomId : string) (st : Whiteboard.State Surface)
  (c snapshot : Surface) :
  Whiteboard.historyIndex st > 0 ->
  Whiteboard.canvas st = Some c ->
  Whiteboard.at_index (Whiteboard.historyIndex st - 1) (Whiteboard.history st)
  = Some snapshot ->
  Whiteboard.undo toDataURL (Whiteboard.mkProps true (Some roomId) true) st
  = (Whiteboard.mkState (Some snapshot) (Whiteboard.history st)
       (Whiteboard.historyIndex st - 1),
     [("canvas-state"%string,
       JObj [("roomId"%string, JStr roomId);
             ("imageData"%string, JStr (toDataURL snapshot))])]).
Proof.
  intros Hi Hc Hs. unfold Whiteboard.undo. cbn [Whiteboard.canEdit].
  destruct (Z.gtb_spec (Whiteboard.historyIndex st) 0); [|lia].
  cbn [andb]. unfold Whiteboard.move_to. now rewrite Hc, Hs.
Qed.

(** Whatever an undo or a redo emits, the server drops it: its state is
    unchanged and nothing is sent to anybody. *)
Lemma history_moves_are_dropped (p : Whiteboard.Props)
  (st : Whiteboard.State Surface) (now : Z) (sender : Server.SocketId)
  (server : Server.State) :
  deliver toUpperCase now sender (snd (Whiteboard.undo toDataURL p st)) server
  = (server, []) /\
  deliver toUpperCase now sender (snd (Whiteboard.redo toDataURL p st)) server
  = (server, []).
Proof.
  assert (H : forall target,
             deliver toUpperCase now sender
               (snd (Whiteboard.move_to toDataURL p target st)) server
             = (server, [])).
  { intros target. unfold Whiteboard.move_to.
    destruct (Whiteboard.canvas st); [|reflexivity].
    destruct (Whiteboard.at_index target (Whiteboard.history st)); [|reflexivity].
    unfold Whiteboard.emit_canvas_state. cbn [snd].
    destruct (Whiteboard.socket p); [|reflexivity].
    destruct (Whiteboard.room p); reflexivity. }
  unfold Whiteboard.undo, Whiteboard.redo. split.
  - destruct (_ && _); [apply H | reflexivity].
  - destruct (_ && _); [apply H | reflexivity].
Qed.

(** The server half of a clear whose argument is a string: a string has no
    [roomId] property, so the listener takes its no-room branch. *)
Lemma clear_with_string_argument (now : Z) (sender : Server.SocketId)
  (roomId : string) (st : Server.State) :
  Server.on_message toUpperCase now sender "clear-canvas" (JStr roomId) st
  = (st, Server.emit (Server.broadcast sender st) Server.clear_canvas).
Proof. reflexivity. Qed.

(** The server half of a clear whose argument is the object the listener
    is written for: the other members of the room get the directive, the
    stored surface becomes [null] and the activity is refreshed. *)
Lemma clear_with_room_id (now : Z) (sender : Server.SocketId)
  (fields : list (string * Json)) (r : string) (st : Server.State)
  (room : Server.RoomData) :
  field "roomId" fields = JStr r -> r <> ""%string ->
  JsMap.get r (Server.rooms st) = Some room ->
  let res := Server.on_message toUpperCase now sender "clear-canvas" (JObj fields) st in
  snd res = Server.emit (Server.to sender r st) Server.clear_canvas /\
  JsMap.get r (Server.rooms (fst res))
  = Some (Server.touch now (Server.set_canvasData JNull room)).
Proof.
  intros Hr Hne Hroom.
  change (Server.on_message toUpperCase now sender "clear-canvas" (JObj fields) st)
    with (Server.on_clear_canvas now sender (JObj fields) st).
  unfold Server.on_clear_canvas, optprop. cbn [prop].
  rewrite Hr, (ServerFacts.truthy_JStr r Hne). cbn [fst snd Server.to_value].
  split; [reflexivity|].
  cbn [Server.rooms Server.with_rooms].
  apply (ServerFacts.update_value_same r
           (fun room => Server.touch now (Server.set_canvasData JNull room))
           (Server.rooms st) room Hroom).
Qed.

(** What the Clear button emits. *)
Lemma clearCanvas_emits_string (roomId : string) (st : Whiteboard.State Surface)
  (c : Surface) :
  Whiteboard.canvas st = Some c ->
  snd (Whiteboard.clearCanvas blank (Whiteboard.mkProps true (Some roomId) true) st)
  = [("clear-canvas"%string, JStr roomId)].
Proof.
  intros Hc. unfold Whiteboard.clearCanvas, Whiteboard.clearCanvas_in.
  cbn [Whiteboard.canEdit Whiteboard.socket Whiteboard.room negb andb].
  now rewrite Hc.
Qed.

End Protocol.

(** C6 at the failing input.  [A], an editor in ABC123 with three snapshots
    and the cursor on the last, undoes.  The client moves the cursor to 1,
    paints snapshot 1 and emits ['canvas-state'] with the painted surface.
    The server has no listener for that event (for any sender, argument and
    state): its state is unchanged and it emits nothing, so [B] is never
    sent the update. *)
Theorem undo_update_is_dropped :
  let moved := Whiteboard.undo dataURL editor three_commits in
  Whiteboard.historyIndex three_commits = 2 /\
  Whiteboard.historyIndex (fst moved) = 1 /\
  Whiteboard.canvas (fst moved) = Some 1%nat /\
  snd moved = [("canvas-state"%string,
                JObj [("roomId"%string, JStr "ABC123");
                      ("imageData"%string, JStr "data:one")])] /\
  Server.member "B"%string "ABC123" Server.session /\
  deliver upper 30 "A"%string (snd moved) Server.session = (Server.session, []) /\
  (forall toUpperCase now sender data st,
      Server.on_message toUpperCase now sender "canvas-state" data st = (st, [])).
Proof.
  repeat split; try reflexivity.
  unfold Server.member. vm_compute. auto.
Qed.

(** C8 at the failing input.  [A], an editor in ABC123, presses Clear.  The
    client emits ['clear-canvas'] with the room id itself as argument.  The
    server reads [roomId] off that string, finds none, and broadcasts the
    directive to every other connection: [B], but also [X] (in no room) and
    [C] (in DEF456).  The surface stored for ABC123 and its last-activity
    stay as they were.  Had the argument been [{ roomId: "ABC123" }], only
    [B] would have been sent the directive, the stored surface would be
    [null] and the last-activity 30. *)
Theorem local_clear_is_not_scoped_to_room :
  let emitted := snd (Whiteboard.clearCanvas 0%nat editor three_commits) in
  let res := deliver upper 30 "A"%string emitted two_rooms in
  let expected := Server.on_message upper 30 "A"%string "clear-canvas"
                    (JObj [("roomId"%string, JStr "ABC123")]) two_rooms in
  let stored st := option_map Server.canvasData
                     (JsMap.get "ABC123" (Server.rooms st)) in
  let active st := option_map Server.lastActivity
                     (JsMap.get "ABC123" (Server.rooms st)) in
  emitted = [("clear-canvas"%string, JStr "ABC123")] /\
  snd res = [ Server.Emit "B"%string Server.clear_canvas;
              Server.Emit "X"%string Server.clear_canvas;
              Server.Emit "C"%string Server.clear_canvas ] /\
  fst res = two_rooms /\
  stored two_rooms = Some Server.snapshot /\
  stored (fst res) = Some Server.snapshot /\
  active (fst res) = Some (Some 9) /\
  snd expected = [ Server.Emit "B"%string Server.clear_canvas ] /\
  stored (fst expected) = Some JNull /\
  active (fst expected) = Some (Some 30).
Proof. vm_compute. intuition reflexivity. Qed.

End EndToEndFacts.

(** ** More about the registry: identifiers, creation, lookup *)

Module RegistryFacts.

Import Server.

(** *** Strings *)

Lemma length_substring (n m : nat) (s : string) :
  String.length (substring n m s) = Nat.min m (String.length s - n).
Proof.
  revert n m. induction s as [|c s IH]; intros n m.
  - destruct n, m; reflexivity.
  - destruct n as [|n].
    + destruct m as [|m]; simpl; [reflexivity|]. now rewrite IH, Nat.sub_0_r.
    + simpl. apply IH.
Qed.

Lemma length_append (s1 s2 : string) :
  String.length (s1 ++ s2) = (String.length s1 + String.length s2)%nat.
Proof. induction s1 as [|c s1 IH]; simpl; auto. Qed.

Lemma length_upper (s : string) : String.length (upper s) = String.length s.
Proof. induction s as [|c s IH]; simpl; auto. Qed.

Lemma upper_ascii_idempotent (c : ascii) :
  upper_ascii (upper_ascii c) = upper_ascii c.
Proof. destruct c as [[] [] [] [] [] [] [] []]; reflexivity. Qed.

Lemma upper_idempotent (s : string) : upper (upper s) = upper s.
Proof.
  induction s as [|c s IH]; simpl; [reflexivity|].
  now rewrite upper_ascii_idempotent, IH.
Qed.

Lemma upper_substring (n m : nat) (s : string) :
  upper (substring n m s) = substring n m (upper s).
Proof.
  revert n m. induction s as [|c s IH]; intros n m.
  - destruct n, m; reflexivity.
  - destruct n as [|n].
    + destruct m as [|m]; simpl; [reflexivity|]. now rewrite IH.
    + simpl. apply IH.
Qed.

Lemma upper_generateRoomId (env : string * string) :
  upper (generateRoomId upper env) = generateRoomId upper env.
Proof.
  unfold generateRoomId. now rewrite upper_substring, upper_idempotent.
Qed.

(** X1. A room identifier never has more than 6 characters, whatever
    [toUpperCase] does.  With the ASCII [toUpperCase] its length is exactly
    what the two sources supply, capped at 6: up to 3 characters from the
    end of the timestamp plus up to 3 characters of the random string after
    its first two; so it is shorter than 6 whenever
    [Math.random().toString(36)] has fewer than 5 characters. *)
Theorem room_id_length :
  forall ts rnd : string,
    (forall toUpperCase : string -> string,
        (String.length (generateRoomId toUpperCase (ts, rnd)) <= 6)%nat) /\
    String.length (generateRoomId upper (ts, rnd))
    = Nat.min 6 (Nat.min 3 (String.length ts)
                 + Nat.min 3 (String.length rnd - 2))%nat.
Proof.
  intros ts rnd. split.
  - intros toUpperCase. unfold generateRoomId. rewrite length_substring. lia.
  - unfold generateRoomId, slice_last. cbn [fst snd].
    rewrite length_substring, length_upper, length_append, !length_substring.
    lia.
Qed.

(** *** Allocation *)

Section Allocation.

Variable toUpperCase : string -> string.

Lemma retry_candidate (m : JsMap.t RoomData) (entropy : nat -> string * string)
  (budget next : nat) (roomId : string) :
  retry toUpperCase m entropy budget next roomId = roomId \/
  exists i, (next <= i < next + budget)%nat /\
            retry toUpperCase m entropy budget next roomId
            = generateRoomId toUpperCase (entropy i).
Proof.
  revert next roomId. induction budget as [|b IH]; intros next roomId; simpl.
  - now left.
  - destruct (JsMap.has roomId m); [|now left].
    right. destruct (IH (S next) (generateRoomId toUpperCase (entropy next)))
      as [H|[i [Hi H]]].
    + exists next. split; [lia | exact H].
    + exists i. split; [lia | exact H].
Qed.

Lemma allocate_candidate (m : JsMap.t RoomData) (entropy : nat -> string * string) :
  exists i, (i <= 10)%nat /\
            allocate toUpperCase m entropy = generateRoomId toUpperCase (entropy i).
Proof.
  unfold allocate.
  destruct (retry_candidate m entropy 10%nat 1%nat (generateRoomId toUpperCase (entropy O)))
    as [H|[i [Hi H]]].
  - exists 0%nat. split; [lia | exact H].
  - exists i. split; [lia | exact H].
Qed.



(** X3. The lookup endpoint and the join listener, on the same state and
    identifier, for a join whose user name can be printed.
    [GET /api/rooms/:roomId] answers 404 exactly when [join-room] answers
    the room-error 'Room not found', both reporting the same normalised
    identifier and the same list of registered rooms.  When the lookup
    answers 200 with a room, the join is confirmed with room-joined for
    that room, the joiner appended to its members.  The two differ for a
    room whose name cannot be printed: the lookup answers 500, the join is
    confirmed all the same. *)
Theorem lookup_agrees_with_join :
  forall (param : string) (now : Z) (socket : SocketId)
         (fields : list (string * Json)) (st : State),
    field "roomId" fields = JStr param ->
    ~ unprintable (field "userName" fields) ->
    let joined := on_join_room toUpperCase now socket (JObj fields) st in
    let user := mkUser socket (js_or (field "userName" fields) (JStr "Anonymous")) now in
    match Http.getRoom toUpperCase param st with
    | (status, Http.room_found room) =>
        status = 200 /\
        JsMap.get (toUpperCase param) (rooms st) = Some room /\
        ~ unprintable (room_name room) /\
        exists rest,
          snd joined
          = Emit socket (room_joined (toUpperCase param) (room_name room)
                           (users room ++ [user])) :: rest
    | (status, Http.room_missing requested available total) =>
        status = 404 /\ total = JsMap.size (rooms st) /\
        JsMap.get (toUpperCase param) (rooms st) = None /\
        joined = (st, [Emit socket (room_error "Room not found" (Some requested)
                                      (Some available))])
    | (status, Http.lookup_failed) =>
        status = 500 /\
        exists room,
          JsMap.get (toUpperCase param) (rooms st) = Some room /\
          unprintable (room_name room) /\
          exists rest,
            snd joined
            = Emit socket (room_joined (toUpperCase param) (room_name room)
                             (users room ++ [user])) :: rest
    end.
Proof.
  intros param now socket fields st Hr Hname joined user. subst joined.
  apply ServerFacts.printable_true in Hname.
  unfold Http.getRoom.
  destruct (JsMap.get (toUpperCase param) (rooms st)) as [room|] eqn:E.
  - pose proof (ServerFacts.join_known_room toUpperCase now socket fields param st
                  room Hr Hname E) as Hjoin.
    cbv zeta in Hjoin.
    destruct (printable (room_name room)) eqn:Hp.
    + split; [reflexivity|]. split; [reflexivity|].
      split; [now apply ServerFacts.printable_true|].
      rewrite Hjoin. cbn [snd]. eexists. reflexivity.
    + split; [reflexivity|]. exists room. split; [reflexivity|].
      split; [now apply ServerFacts.printable_false|].
      rewrite Hjoin. cbn [snd]. eexists. reflexivity.
  - split; [reflexivity|]. split; [reflexivity|]. split; [reflexivity|].
    unfold on_join_room. cbn [prop]. now rewrite Hr, Hname, E.
Qed.

End Allocation.

Lemma printable_js_or (a : Json) (s : string) :
  ~ unprintable a -> printable (js_or a (JStr s)) = true.
Proof.
  intros H. unfold js_or. destruct (truthy a); [|reflexivity].
  now apply ServerFacts.printable_true.
Qed.


Lemma lookup_agrees_with_join_witness :
  let joined := on_join_room upper 9 "X"%string (join_payload "abc123" "xena") session in
  let user := mkUser "X"%string (JStr "xena") 9 in
  let members := [mkUser "A"%string (JStr "alice") 2; mkUser "B"%string (JStr "bob") 4] in
  match Http.getRoom upper "abc123" session with
  | (status, Http.room_found room) =>
      status = 200 /\
      JsMap.get (upper "abc123") (rooms session) = Some room /\
      ~ unprintable (room_name room) /\
      exists rest,
        snd joined
        = Emit "X"%string (room_joined (upper "abc123") (room_name room)
                             (users room ++ [user])) :: rest
  | (status, Http.room_missing requested available total) =>
      status = 404 /\ total = JsMap.size (rooms session) /\
      JsMap.get (upper "abc123") (rooms session) = None /\
      joined = (session, [Emit "X"%string (room_error "Room not found" (Some requested)
                                             (Some available))])
  | (status, Http.lookup_failed) =>
      status = 500 /\
      exists room,
        JsMap.get (upper "abc123") (rooms session) = Some room /\
        unprintable (room_name room) /\
        exists rest,
          snd joined
          = Emit "X"%string (room_joined (upper "abc123") (room_name room)
                               (users room ++ [user])) :: rest
  end /\
  Http.getRoom upper "abc123" session
  = (200, Http.room_found (mkRoom "ABC123" (JStr "Room ABC123") (JBool false) 0
                             members JNull (Some 4))) /\
  snd joined
  = [ Emit "X"%string (room_joined "ABC123" (JStr "Room ABC123") (members ++ [user]));
      Emit "A"%string (user_joined user (members ++ [user]));
      Emit "B"%string (user_joined user (members ++ [user])) ].
Proof.
  split; [|split; reflexivity].
  apply (lookup_agrees_with_join upper "abc123" 9 "X"%string
           [("roomId"%string, JStr "abc123"); ("userName"%string, JStr "xena")]
           session).
  - reflexivity.
  - intros [fs [x [H _]]]. discriminate.
Defined.

(** X4. Create, then join.  Whatever the state and the environment, when
    the room name of a creation request can be printed, the request is
    answered 200 and the identifier it answers can be joined at once, in
    any letter case, by a join whose user name can be printed: the join is
    confirmed with the room name of the answer, the joiner is the only
    member of the room, and no surface is replayed to anybody. *)
Theorem created_room_can_be_joined :
  forall (now : Z) (fields : list (string * Json))
         (entropy : nat -> string * string) (st : State),
    ~ unprintable (field "roomName" fields) ->
    let res := createRoom upper now (JObj fields) entropy st in
    exists roomId roomName total,
      snd res = [Respond 200 (room_created roomId roomName total)] /\
      forall (now' : Z) (socket : SocketId) (jfields : list (string * Json))
             (typed : string),
        field "roomId" jfields = JStr typed -> upper typed = upper roomId ->
        ~ unprintable (field "userName" jfields) ->
        let joined := on_join_room upper now' socket (JObj jfields) (fst res) in
        let user := mkUser socket (js_or (field "userName" jfields) (JStr "Anonymous")) now' in
        In (Emit socket (room_joined roomId roomName [user])) (snd joined) /\
        (forall c d, ~ In (Emit c (load_canvas d)) (snd joined)) /\
        option_map users (JsMap.get roomId (rooms (fst joined))) = Some [user].
Proof.
  intros now fields entropy st Hprint res. subst res.
  unfold createRoom. cbn [prop fst snd room_name].
  set (roomId := allocate upper (rooms st) entropy).
  rewrite (printable_js_or _ ("Room " ++ roomId) Hprint).
  assert (Hup : upper roomId = roomId).
  { destruct (allocate_candidate upper (rooms st) entropy) as [i [_ Hi]].
    unfold roomId. rewrite Hi. apply upper_generateRoomId. }
  eexists. eexists. eexists. split; [reflexivity|].
  intros now' socket jfields typed Hr Htyped Hname.
  apply ServerFacts.printable_true in Hname.
  rewrite Hup in Htyped.
  set (room := mkRoom roomId (js_or (field "roomName" fields) (JStr ("Room " ++ roomId)))
                 (js_or (field "isPrivate" fields) (JBool false)) now [] JNull (Some now)).
  assert (Hget : JsMap.get (upper typed)
                   (rooms (with_rooms st (JsMap.set roomId room (rooms st)))) = Some room).
  { rewrite Htyped. cbn [rooms with_rooms]. apply JsMapFacts.get_set_same. }
  rewrite (ServerFacts.join_known_room upper now' socket jfields typed _ room Hr Hname Hget).
  rewrite Htyped. cbn [fst snd rooms with_rooms users canvasData room_name room truthy app].
  split; [|split].
  - left. reflexivity.
  - intros c d [H|H]; [discriminate|].
    apply ServerFacts.in_emit in H. destruct H as [H _]. discriminate.
  - now rewrite JsMapFacts.get_set_same.
Qed.

Lemma created_room_can_be_joined_witness :
  let res := createRoom upper 0 (JObj []) abc123 initial in
  let joined := on_join_room upper 2 "A"%string (join_payload "abc123" "alice") (fst res) in
  snd res = [Respond 200 (room_created "ABC123" (JStr "Room ABC123") 1)] /\
  upper "abc123" = upper "ABC123" /\
  In (Emit "A"%string (room_joined "ABC123" (JStr "Room ABC123")
                         [mkUser "A"%string (JStr "alice") 2])) (snd joined) /\
  (forall c d, ~ In (Emit c (load_canvas d)) (snd joined)) /\
  option_map users (JsMap.get "ABC123" (rooms (fst joined)))
  = Some [mkUser "A"%string (JStr "alice") 2].
Proof.
  split; [reflexivity|]. split; [reflexivity|].
  assert (Hbody : ~ unprintable (field "roomName" [])).
  { intros [fs [x [H _]]]. discriminate. }
  destruct (created_room_can_be_joined 0 [] abc123 initial Hbody)
    as [roomId [roomName [total [Hres Hjoin]]]].
  vm_compute in Hres. injection Hres as <- <- _.
  apply (Hjoin 2 "A"%string
           [("roomId"%string, JStr "abc123"); ("userName"%string, JStr "alice")]
           "abc123"%string eq_refl eq_refl).
  intros [fs [x [H _]]]. discriminate.
Defined.

(** A room whose name cannot be printed.  The creation request is answered
    500, yet the room is registered: the lookup endpoint answers 500 for it,
    and a join to it is confirmed. *)
Example unprintable_room_name_scenario :
  let odd := JObj [("toString"%string, JNum 0)] in
  let res := run upper initial
               [ (0, PostRooms (JObj [("roomName"%string, odd)]) abc123);
                 (1, Connection "A"%string);
                 (2, Message "A"%string "join-room" (join_payload "abc123" "alice")) ] in
  snd res = [ Respond 500 create_failed;
              Emit "A"%string (room_joined "ABC123" odd
                                 [mkUser "A"%string (JStr "alice") 2]) ] /\
  JsMap.keys (rooms (fst res)) = ["ABC123"%string] /\
  Http.getRoom upper "abc123" (fst res) = (500, Http.lookup_failed).
Proof. vm_compute. auto. Qed.

End RegistryFacts.

(** ** More about the gateway: what a step can and cannot do *)

Module GatewayFacts.

Import Server.

(** *** The pieces of a disconnect *)

Lemma on_disconnect_rooms (now : Z) (s : SocketId) (st : State) :
  rooms (fst (on_disconnect now s st))
  = fst (fst (leave_rooms now s (leave_all s st) (rooms st))).
Proof.
  unfold on_disconnect. cbn [rooms leave_all].
  now destruct (leave_rooms now s (leave_all s st) (rooms st)) as [[a b] c].
Qed.

Lemma on_disconnect_out (now : Z) (s : SocketId) (st : State) :
  snd (on_disconnect now s st)
  = snd (fst (leave_rooms now s (leave_all s st) (rooms st))).
Proof.
  unfold on_disconnect. cbn [rooms leave_all].
  now destruct (leave_rooms now s (leave_all s st) (rooms st)) as [[a b] c].
Qed.

Lemma on_disconnect_timers (now : Z) (s : SocketId) (st : State) :
  timers (fst (on_disconnect now s st))
  = timers st ++ snd (leave_rooms now s (leave_all s st) (rooms st)).
Proof.
  unfold on_disconnect. cbn [rooms leave_all timers].
  now destruct (leave_rooms now s (leave_all s st) (rooms st)) as [[a b] c].
Qed.

Lemma on_disconnect_sids (now : Z) (s : SocketId) (st : State) :
  sids (fst (on_disconnect now s st)) = sids (leave_all s st).
Proof.
  unfold on_disconnect. cbn [rooms leave_all].
  now destruct (leave_rooms now s (leave_all s st) (rooms st)) as [[a b] c].
Qed.

Lemma keys_leave_rooms (now : Z) (s : SocketId) (st : State)
  (m : JsMap.t RoomData) :
  JsMap.keys (fst (fst (leave_rooms now s st m))) = JsMap.keys m.
Proof.
  induction m as [|[roomId room] m IH]; simpl; auto.
  destruct (leave_rooms now s st m) as [[rest out] tm]. simpl in IH.
  destruct (splice_user s (users room)) as [[u remaining]|]; simpl;
    now rewrite IH.
Qed.

Lemma out_leave_rooms (now : Z) (s : SocketId) (st : State)
  (m : JsMap.t RoomData) (c : SocketId) (ev : ServerEvent) :
  In (Emit c ev) (snd (fst (leave_rooms now s st m))) ->
  exists r u remaining, ev = user_left u remaining /\ In c (to s r st).
Proof.
  induction m as [|[roomId room] m IH]; simpl; [tauto|].
  destruct (leave_rooms now s st m) as [[rest out] tm]. simpl in IH.
  destruct (splice_user s (users room)) as [[u remaining]|]; simpl; auto.
  rewrite in_app_iff. intros [H|H]; auto.
  apply ServerFacts.in_emit in H. destruct H as [-> H]. eauto.
Qed.

Lemma timer_of_emptied (now : Z) (s : SocketId) (st : State)
  (m : JsMap.t RoomData) (k : string) (room : RoomData) (u : UserData) :
  JsMap.get k m = Some room ->
  splice_user s (users room) = Some (u, []) ->
  In (k, now + grace) (snd (leave_rooms now s st m)).
Proof.
  intros Hget Hs. induction m as [|[roomId room0] m IH]; simpl in *; [discriminate|].
  destruct (leave_rooms now s st m) as [[rest out] tm]. simpl in IH.
  destruct (String.eqb_spec k roomId) as [->|Hne].
  - injection Hget as ->. rewrite Hs. simpl. now left.
  - specialize (IH Hget).
    destruct (splice_user s (users room0)) as [[u0 remaining]|]; simpl; auto.
    apply in_or_app. now right.
Qed.

Lemma splice_user_spec (s : SocketId) (us : list UserData) :
  match splice_user s us with
  | Some (u, rest) =>
      exists pre post,
        us = pre ++ u :: post /\ rest = pre ++ post /\ user_id u = s /\
        ~ In s (map user_id pre)
  | None => ~ In s (map user_id us)
  end.
Proof.
  induction us as [|u0 us IH]; simpl; [tauto|].
  destruct (String.eqb_spec (user_id u0) s) as [He|Hne].
  - exists [], us. simpl. tauto.
  - destruct (splice_user s us) as [[u rest]|].
    + destruct IH as [pre [post [H1 [H2 [H3 H4]]]]].
      exists (u0 :: pre), post. simpl. subst. repeat split; auto.
      intros [H|H]; [congruence | contradiction].
    + intros [H|H]; [congruence | contradiction].
Qed.

Lemma splice_user_last (s : SocketId) (us : list UserData) (u : UserData) :
  ~ In s (map user_id us) -> user_id u = s ->
  splice_user s (us ++ [u]) = Some (u, us).
Proof.
  intros Hn Hu. induction us as [|u0 us IH]; simpl.
  - rewrite Hu, String.eqb_refl. reflexivity.
  - simpl in Hn. destruct (String.eqb_spec (user_id u0) s) as [He|Hne]; [tauto|].
    rewrite IH by tauto. reflexivity.
Qed.

Lemma connected_join (c s : SocketId) (r : string) (st : State) :
  connected c (join s r st) = connected c st.
Proof.
  unfold connected, join. cbn [sids].
  induction (sids st) as [|e l IH]; simpl; [reflexivity|].
  unfold SocketId in *. rewrite IH.
  destruct (String.eqb (fst e) s); reflexivity.
Qed.

Lemma connected_leave_all (c s : SocketId) (st : State) :
  connected c (leave_all s st) = connected c st && negb (String.eqb c s).
Proof.
  unfold connected, leave_all. cbn [sids].
  induction (sids st) as [|e l IH]; simpl; [reflexivity|].
  unfold SocketId in *.
  destruct (String.eqb_spec (fst e) s) as [He|Hne]; simpl; rewrite IH.
  - destruct (String.eqb_spec c s) as [Hc|Hc]; simpl.
    + now rewrite !andb_false_r.
    + destruct (String.eqb_spec (fst e) c); [congruence | reflexivity].
  - destruct (String.eqb_spec (fst e) c) as [Hc|Hc]; simpl; [|reflexivity].
    destruct (String.eqb_spec c s); [congruence | reflexivity].
Qed.

Section Steps.

Variable toUpperCase : string -> string.

Lemma keys_set_absent (k : string) (v : RoomData) (m : JsMap.t RoomData) :
  JsMap.has k m = false -> JsMap.keys (JsMap.set k v m) = JsMap.keys m ++ [k].
Proof.
  unfold JsMap.has, JsMap.keys.
  induction m as [|[k' v'] m IH]; simpl; intros H; [reflexivity|].
  destruct (String.eqb k k'); [discriminate|]. simpl. now rewrite IH.
Qed.

Lemma keys_delete (r k : string) (m : JsMap.t RoomData) :
  In k (JsMap.keys (JsMap.delete r m)) <-> In k (JsMap.keys m) /\ k <> r.
Proof.
  unfold JsMap.keys, JsMap.delete.
  induction m as [|[k' v'] m IH]; simpl; [tauto|].
  destruct (String.eqb_spec r k') as [->|Hne]; simpl; rewrite IH.
  - split; [tauto|]. intros [[H|H] Hk]; [congruence | tauto].
  - split; [|tauto]. intros [H|H]; [|tauto]. subst. split; auto.
Qed.

Lemma keys_on_message (now : Z) (s : SocketId) (event : string) (data : Json)
  (st : State) :
  JsMap.keys (rooms (fst (on_message toUpperCase now s event data st)))
  = JsMap.keys (rooms st).
Proof.
  unfold on_message.
  destruct (String.eqb event "join-room").
  { unfold on_join_room.
    destruct (prop data "roomId") as [[| | | |roomId|]|]; auto;
      destruct (prop data "userName") as [userName|]; auto.
    destruct (printable userName); auto.
    destruct (JsMap.get (toUpperCase roomId) (rooms st)) as [room|] eqn:E; auto.
    cbn [fst rooms with_rooms join].
    apply JsMapFacts.keys_set_present. unfold JsMap.has. now rewrite E. }
  destruct (String.eqb event "drawing").
  { unfold on_drawing. destruct (prop data "roomId") as [roomId|]; auto.
    destruct (truthy roomId); auto. apply ServerFacts.update_value_keys. }
  destruct (String.eqb event "clear-canvas").
  { unfold on_clear_canvas. destruct (truthy (optprop data "roomId")); auto.
    apply ServerFacts.update_value_keys. }
  destruct (String.eqb event "undo").
  { unfold on_signal. now destruct (truthy (optprop data "roomId")). }
  destruct (String.eqb event "redo").
  { unfold on_signal. now destruct (truthy (optprop data "roomId")). }
  destruct (String.eqb event "save-canvas-state"); auto.
  unfold on_save_canvas_state.
  destruct (prop data "roomId") as [roomId|]; auto.
  destruct (prop data "canvasData"); auto.
  apply ServerFacts.update_value_keys.
Qed.

(** X5. Rooms come and go in two places only.  No socket message, no new
    connection and no disconnect ever changes which identifiers are
    registered, nor their order; a creation request never removes an
    identifier; and a cleanup timer removes at most the room it was set
    for. *)
Theorem room_ids_change_only_by_create_and_timer :
  forall (st : State) (i : Z * Input),
    let before := JsMap.keys (rooms st) in
    let after := JsMap.keys (rooms (fst (step toUpperCase st i))) in
    match snd i with
    | PostRooms _ _ => forall k, In k before -> In k after
    | Timeout roomId _ =>
        (forall k, In k after -> In k before) /\
        (forall k, k <> roomId -> In k before -> In k after)
    | _ => after = before
    end.
Proof.
  intros st [now [s|s event data|s|body entropy|roomId due]]; cbn [snd fst step].
  - reflexivity.
  - apply keys_on_message.
  - rewrite on_disconnect_rooms. apply keys_leave_rooms.
  - intros k Hk. unfold createRoom.
    destruct (prop body "roomName"); auto. destruct (prop body "isPrivate"); auto.
    cbn [fst rooms with_rooms].
    destruct (JsMap.has (allocate toUpperCase (rooms st) entropy) (rooms st)) eqn:E.
    + now rewrite JsMapFacts.keys_set_present.
    + rewrite keys_set_absent by exact E. apply in_or_app. now left.
  - cbn [on_timeout rooms fst].
    destruct (ServerFacts.cleanup_cases now roomId (rooms st)) as [H|H]; rewrite H.
    + tauto.
    + split; intros k; rewrite keys_delete; tauto.
Qed.

Lemma out_on_message (now : Z) (s : SocketId) (event : string) (data : Json)
  (st : State) (c : SocketId) (ev : ServerEvent) :
  In (Emit c ev) (snd (on_message toUpperCase now s event data st)) ->
  (c = s /\ Relay.direct_reply ev = true) \/
  (c <> s /\ connected c st = true /\ Relay.direct_reply ev = false).
Proof.
  assert (Hto : forall v ev', In (Emit c ev) (emit (to_value s v st) ev') ->
                              Relay.direct_reply ev' = false ->
                              c <> s /\ connected c st = true /\
                              Relay.direct_reply ev = false).
  { intros v ev' H Hev. apply ServerFacts.in_emit in H. destruct H as [-> H].
    destruct v; simpl in H; try contradiction.
    apply ServerFacts.in_to in H. destruct H as [H1 H2].
    repeat split; auto. eapply ServerFacts.member_connected, H2. }
  assert (Hall : forall ev', In (Emit c ev) (emit (broadcast s st) ev') ->
                             Relay.direct_reply ev' = false ->
                             c <> s /\ connected c st = true /\
                             Relay.direct_reply ev = false).
  { intros ev' H Hev. apply ServerFacts.in_emit in H. destruct H as [-> H].
    apply ServerFacts.in_broadcast in H. tauto. }
  unfold on_message.
  destruct (String.eqb event "join-room").
  { unfold on_join_room.
    destruct (prop data "roomId") as [[| | | |roomId|]|];
      try (intros [H|[]]; inversion H; subst; left; split; reflexivity);
      destruct (prop data "userName") as [userName|];
      try (intros [H|[]]; inversion H; subst; left; split; reflexivity).
    destruct (printable userName);
      [|intros [H|[]]; inversion H; subst; left; split; reflexivity].
    destruct (JsMap.get (toUpperCase roomId) (rooms st)) as [room|] eqn:E;
      [|intros [H|[]]; inversion H; subst; left; split; reflexivity].
    cbn [snd]. intros [H|H]; [inversion H; subst; left; split; reflexivity|].
    apply in_app_or in H. destruct H as [H|H].
    - destruct (truthy _); [|contradiction].
      destruct H as [H|[]]. inversion H; subst. left; split; reflexivity.
    - right. apply ServerFacts.in_emit in H. destruct H as [-> H].
      apply ServerFacts.in_to in H. destruct H as [H1 H2].
      repeat split; auto.
      apply ServerFacts.member_connected in H2.
      unfold connected in H2 |- *. cbn [sids with_rooms] in H2.
      fold (connected c (join s (toUpperCase roomId) st)) in H2.
      rewrite connected_join in H2. exact H2. }
  destruct (String.eqb event "drawing").
  { unfold on_drawing. destruct (prop data "roomId") as [roomId|]; [|intros []].
    destruct (truthy roomId); cbn [snd]; intros H; right;
      [eapply Hto | eapply Hall]; eauto. }
  destruct (String.eqb event "clear-canvas").
  { unfold on_clear_canvas. destruct (truthy (optprop data "roomId")); cbn [snd];
      intros H; right; [eapply Hto | eapply Hall]; eauto. }
  destruct (String.eqb event "undo").
  { unfold on_signal. destruct (truthy (optprop data "roomId")); cbn [snd];
      intros H; right; [eapply Hto | eapply Hall]; eauto. }
  destruct (String.eqb event "redo").
  { unfold on_signal. destruct (truthy (optprop data "roomId")); cbn [snd];
      intros H; right; [eapply Hto | eapply Hall]; eauto. }
  destruct (String.eqb event "save-canvas-state"); [|intros []].
  unfold on_save_canvas_state.
  destruct (prop data "roomId"); [|intros []].
  destruct (prop data "canvasData"); intros [].
Qed.

(** X6. Relays never echo and never reach a closed connection.  Of
    everything the server emits while handling a message of socket [s],
    the only events addressed to [s] itself are the direct replies
    (room-error, room-joined, load-canvas); every other event goes to a
    connection other than [s] that is connected.  A disconnect of [s] emits
    only to connected sockets other than [s].  Connections, creation
    requests and timers emit nothing to any socket. *)
Theorem relays_never_echo :
  forall (st : State) (i : Z * Input) (c : SocketId) (ev : ServerEvent),
    In (Emit c ev) (snd (step toUpperCase st i)) ->
    match snd i with
    | Message s _ _ =>
        (c = s /\ Relay.direct_reply ev = true) \/
        (c <> s /\ connected c st = true /\ Relay.direct_reply ev = false)
    | Disconnect s =>
        c <> s /\ connected c st = true /\ Relay.direct_reply ev = false
    | _ => False
    end.
Proof.
  intros st [now [s|s event data|s|body entropy|roomId due]] c ev;
    cbn [snd fst step].
  - intros [].
  - apply out_on_message.
  - rewrite on_disconnect_out. intros H.
    apply out_leave_rooms in H. destruct H as [r [u [remaining [-> H]]]].
    apply ServerFacts.in_to in H. destruct H as [H1 H2].
    apply ServerFacts.member_connected in H2.
    rewrite connected_leave_all in H2. apply andb_prop in H2.
    repeat split; tauto.
  - unfold createRoom.
    destruct (prop body "roomName"); [|intros [H|[]]; discriminate].
    destruct (prop body "isPrivate"); [|intros [H|[]]; discriminate].
    cbn [snd]. destruct (printable _); intros [H|[]]; discriminate.
  - intros [].
Qed.

(** X7. Join, then disconnect.  A connection that is not yet recorded in a
    registered room joins it, with a user name that can be printed, and
    later disconnects: the room has its former member list again, with
    every other field but the last-activity (now the time of the
    disconnect) as before, the connection is gone from the adapter, and if
    the room had no member before, a cleanup timer is pending for it at
    disconnect time + grace. *)
Theorem join_then_disconnect :
  forall (now1 now2 : Z) (s : SocketId) (fields : list (string * Json))
         (roomId : string) (st : State) (room : RoomData),
    field "roomId" fields = JStr roomId ->
    ~ unprintable (field "userName" fields) ->
    JsMap.get (toUpperCase roomId) (rooms st) = Some room ->
    ~ In s (map user_id (users room)) ->
    let st1 := fst (on_join_room toUpperCase now1 s (JObj fields) st) in
    let st2 := fst (on_disconnect now2 s st1) in
    JsMap.get (toUpperCase roomId) (rooms st2)
    = Some (mkRoom (room_id room) (room_name room) (isPrivate room)
              (createdAt room) (users room) (canvasData room) (Some now2)) /\
    (forall rs, ~ In (s, rs) (sids st2)) /\
    (users room = [] -> In (toUpperCase roomId, now2 + grace) (timers st2)).
Proof.
  intros now1 now2 s fields roomId st room Hr Hname Hroom Hnew st1 st2.
  subst st2 st1.
  apply ServerFacts.printable_true in Hname.
  rewrite (ServerFacts.join_known_room toUpperCase now1 s fields roomId st room
             Hr Hname Hroom).
  cbn [fst].
  set (k := toUpperCase roomId).
  set (u := mkUser s (js_or (field "userName" fields) (JStr "Anonymous")) now1).
  set (room1 := touch now1 (set_users (users room ++ [u]) room)).
  set (st1 := with_rooms (join s k st) (JsMap.set k room1 (rooms st))).
  assert (Hget : JsMap.get k (rooms st1) = Some room1).
  { subst st1. cbn [rooms with_rooms]. apply JsMapFacts.get_set_same. }
  assert (Hsp : splice_user s (users room1) = Some (u, users room)).
  { subst room1. cbn [users touch set_users]. now apply splice_user_last. }
  split; [|split].
  - rewrite on_disconnect_rooms, ServerFacts.get_leave_rooms, Hget.
    cbn [option_map]. unfold left_by. rewrite Hsp.
    destruct room. reflexivity.
  - intros rs Hin. rewrite on_disconnect_sids in Hin.
    unfold leave_all in Hin. cbn [sids] in Hin.
    apply filter_In in Hin. destruct Hin as [_ Hin]. cbn [fst] in Hin.
    now rewrite String.eqb_refl in Hin.
  - intros Hempty. rewrite on_disconnect_timers. apply in_or_app. right.
    apply (timer_of_emptied now2 s (leave_all s st1) (rooms st1) k room1 u Hget).
    now rewrite Hsp, Hempty.
Qed.

(** *** Stored member names *)

Lemma names_printable_set (k : string) (v : RoomData) (m : JsMap.t RoomData) :
  (forall u, In u (users v) -> printable (user_name u) = true) ->
  names_printable m -> names_printable (JsMap.set k v m).
Proof.
  intros Hv Hm k' room u Hget Hin.
  destruct (String.eqb_spec k' k) as [->|Hne].
  - rewrite JsMapFacts.get_set_same in Hget. injection Hget as <-. now apply Hv.
  - rewrite JsMapFacts.get_set_other in Hget by exact Hne. exact (Hm k' room u Hget Hin).
Qed.

Lemma names_printable_update (v : Json) (f : RoomData -> RoomData)
  (m : JsMap.t RoomData) :
  (forall room, users (f room) = users room) ->
  names_printable m -> names_printable (update_value v f m).
Proof.
  intros Hf Hm. destruct v; simpl; auto.
  destruct (JsMap.get s m) as [room|] eqn:E; [|exact Hm].
  apply names_printable_set; [|exact Hm].
  intros u Hin. rewrite Hf in Hin. exact (Hm s room u E Hin).
Qed.

Lemma names_printable_leave (now : Z) (s : SocketId) (st : State)
  (m : JsMap.t RoomData) :
  names_printable m ->
  names_printable (fst (fst (leave_rooms now s st m))).
Proof.
  intros Hm k room u Hget Hin.
  rewrite ServerFacts.get_leave_rooms in Hget.
  destruct (JsMap.get k m) as [room0|] eqn:E; [|discriminate].
  cbn [option_map] in Hget. injection Hget as <-.
  apply (Hm k room0 u E). revert Hin. unfold left_by.
  pose proof (splice_user_spec s (users room0)) as Hsp.
  destruct (splice_user s (users room0)) as [[u0 rest]|]; [|auto].
  destruct Hsp as [pre [post [H1 [H2 _]]]].
  cbn [users touch set_users]. rewrite H1, H2, !in_app_iff. simpl. tauto.
Qed.

Lemma names_printable_step (st : State) (i : Z * Input) :
  names_printable (rooms st) ->
  names_printable (rooms (fst (step toUpperCase st i))).
Proof.
  intros Hm.
  destruct i as [now [s|s event data|s|body entropy|roomId due]];
    unfold step; cbn [fst snd].
  - exact Hm.
  - unfold on_message.
    destruct (String.eqb event "join-room").
    { unfold on_join_room.
      destruct (prop data "roomId") as [[| | | |roomId|]|]; auto;
        destruct (prop data "userName") as [userName|]; auto.
      destruct (printable userName) eqn:Hp; auto.
      destruct (JsMap.get (toUpperCase roomId) (rooms st)) as [room|] eqn:E; auto.
      cbn [fst rooms with_rooms join]. apply names_printable_set; [|exact Hm].
      cbn [users touch set_users]. intros u Hin.
      apply in_app_or in Hin. destruct Hin as [Hin|[<-|[]]].
      - exact (Hm _ room u E Hin).
      - cbn [user_name]. unfold js_or. now destruct (truthy userName). }
    destruct (String.eqb event "drawing").
    { unfold on_drawing. destruct (prop data "roomId") as [r|]; auto.
      destruct (truthy r); auto. now apply names_printable_update. }
    destruct (String.eqb event "clear-canvas").
    { unfold on_clear_canvas. destruct (truthy (optprop data "roomId")); auto.
      now apply names_printable_update. }
    destruct (String.eqb event "undo").
    { unfold on_signal. now destruct (truthy (optprop data "roomId")). }
    destruct (String.eqb event "redo").
    { unfold on_signal. now destruct (truthy (optprop data "roomId")). }
    destruct (String.eqb event "save-canvas-state"); auto.
    unfold on_save_canvas_state.
    destruct (prop data "roomId") as [r|]; auto.
    destruct (prop data "canvasData"); auto.
    now apply names_printable_update.
  - rewrite on_disconnect_rooms. now apply names_printable_leave.
  - unfold createRoom.
    destruct (prop body "roomName"); auto. destruct (prop body "isPrivate"); auto.
    cbn [fst rooms with_rooms]. apply names_printable_set; [|exact Hm].
    intros u [].
  - cbn [on_timeout rooms fst].
    destruct (ServerFacts.cleanup_cases now roomId (rooms st)) as [H|H]; rewrite H;
      [exact Hm|].
    intros k room u Hget. apply JsMapFacts.get_delete_some in Hget.
    exact (Hm k room u Hget).
Qed.

(** In every state the server reaches from its initial state, whatever it
    receives, every stored member name can be printed. *)
Lemma stored_names_are_printable (trace : list (Z * Input)) :
  names_printable (rooms (fst (run toUpperCase initial trace))).
Proof.
  assert (H : forall st, names_printable (rooms st) ->
                         names_printable (rooms (fst (run toUpperCase st trace)))).
  { induction trace as [|i rest IH]; intros st Hm; [exact Hm|].
    cbn [run].
    pose proof (names_printable_step st i Hm) as Hstep.
    destruct (step toUpperCase st i) as [st1 out1]. cbn [fst] in Hstep.
    specialize (IH st1 Hstep).
    destruct (run toUpperCase st1 rest) as [st2 out2]. exact IH. }
  apply H. intros k room u Hget. discriminate.
Qed.

End Steps.

(** X8. A room and its cleanup timer.  When the only member of a room
    disconnects at time [now], a timer for that room is pending at
    [now + grace].  If nothing else touches the room, the callback deletes
    it only when it runs strictly later than that: a callback that runs at
    [now + grace] or earlier leaves the room registered, because the test
    is [timeSinceActivity > 3600000]. *)
Theorem emptied_room_and_its_timer :
  forall (now : Z) (s : SocketId) (st : State) (k : string) (room : RoomData)
         (u : UserData),
    JsMap.get k (rooms st) = Some room ->
    users room = [u] -> user_id u = s ->
    let st' := fst (on_disconnect now s st) in
    In (k, now + grace) (timers st') /\
    forall fire : Z,
      (fire <= now + grace -> cleanup fire k (rooms st') = rooms st') /\
      (now + grace < fire -> JsMap.get k (cleanup fire k (rooms st')) = None).
Proof.
  intros now s st k room u Hget Hu Hs st'.
  assert (Hsp : splice_user s (users room) = Some (u, [])).
  { rewrite Hu. simpl. now rewrite Hs, String.eqb_refl. }
  assert (Hget' : JsMap.get k (rooms st') = Some (touch now (set_users [] room))).
  { subst st'. rewrite on_disconnect_rooms, ServerFacts.get_leave_rooms, Hget.
    cbn [option_map]. unfold left_by. now rewrite Hsp. }
  split.
  - subst st'. rewrite on_disconnect_timers. apply in_or_app. right.
    apply (timer_of_emptied now s (leave_all s st) (rooms st) k room u Hget Hsp).
  - intros fire. unfold cleanup. rewrite Hget'.
    cbn [users touch set_users lastActivity List.length Z.of_nat Z.eqb].
    rewrite ServerFacts.getTime_or_0_Some.
    destruct (Z.gtb_spec (fire - now) grace); split; intros; try lia; auto.
    apply JsMapFacts.get_delete_same.
Qed.

(** X9. A disconnect removes the earliest member record of the socket, and
    only that one.  In every registered room, either the socket has no
    record and the room is left exactly as it was, or its first record is
    taken out, the records before and after it keep their order (a second
    record of the same socket, from a repeated join, stays), and the
    last-activity becomes the time of the disconnect.  The stored surface
    is never touched. *)
Theorem disconnect_removes_first_record :
  forall (now : Z) (s : SocketId) (st : State) (k : string) (room : RoomData),
    JsMap.get k (rooms st) = Some room ->
    exists room',
      JsMap.get k (rooms (fst (on_disconnect now s st))) = Some room' /\
      canvasData room' = canvasData room /\
      ((~ In s (map user_id (users room)) /\ room' = room) \/
       (exists pre u post,
           users room = pre ++ u :: post /\ user_id u = s /\
           ~ In s (map user_id pre) /\
           users room' = pre ++ post /\ lastActivity room' = Some now)).
Proof.
  intros now s st k room Hget.
  rewrite on_disconnect_rooms, ServerFacts.get_leave_rooms, Hget.
  cbn [option_map]. eexists. split; [reflexivity|].
  unfold left_by. pose proof (splice_user_spec s (users room)) as Hsp.
  destruct (splice_user s (users room)) as [[u rest]|].
  - split; [reflexivity|]. right.
    destruct Hsp as [pre [post [H1 [H2 [H3 H4]]]]].
    exists pre, u, post. cbn [users touch set_users lastActivity]. auto.
  - split; [reflexivity|]. left. auto.
Qed.

Lemma relays_never_echo_witness :
  In (Emit "B"%string (drawing (stroke "ABC123")))
     (snd (step upper session (7, Message "A"%string "drawing" (stroke "ABC123")))) /\
  (("B"%string = "A"%string /\ Relay.direct_reply (drawing (stroke "ABC123")) = true) \/
   ("B"%string <> "A"%string /\ connected "B"%string session = true /\
    Relay.direct_reply (drawing (stroke "ABC123")) = false)).
Proof.
  assert (H : In (Emit "B"%string (drawing (stroke "ABC123")))
                (snd (step upper session
                        (7, Message "A"%string "drawing" (stroke "ABC123"))))).
  { vm_compute. now left. }
  split; [exact H|].
  apply (relays_never_echo upper session
           (7, Message "A"%string "drawing" (stroke "ABC123"))
           "B"%string (drawing (stroke "ABC123")) H).
Defined.

Lemma join_then_disconnect_witness :
  let st1 := fst (on_join_room upper 6 "X"%string (join_payload "abc123" "xena") session) in
  let st2 := fst (on_disconnect 8 "X"%string st1) in
  let members := [mkUser "A"%string (JStr "alice") 2; mkUser "B"%string (JStr "bob") 4] in
  JsMap.get (upper "abc123") (rooms session)
  = Some (mkRoom "ABC123" (JStr "Room ABC123") (JBool false) 0 members JNull (Some 4)) /\
  ~ In "X"%string (map user_id members) /\
  JsMap.get (upper "abc123") (rooms st2)
  = Some (mkRoom "ABC123" (JStr "Room ABC123") (JBool false) 0 members JNull (Some 8)) /\
  (forall rs, ~ In ("X"%string, rs) (sids st2)) /\
  (members = [] -> In (upper "abc123", 8 + grace) (timers st2)).
Proof.
  assert (Hn : ~ In "X"%string
                 (map user_id [mkUser "A"%string (JStr "alice") 2;
                               mkUser "B"%string (JStr "bob") 4])).
  { simpl. intuition discriminate. }
  assert (Hp : ~ unprintable (field "userName"
                  [("roomId"%string, JStr "abc123"); ("userName"%string, JStr "xena")])).
  { intros [fs [x [H _]]]. discriminate. }
  split; [reflexivity|]. split; [exact Hn|].
  apply (join_then_disconnect upper 6 8 "X"%string
           [("roomId"%string, JStr "abc123"); ("userName"%string, JStr "xena")]
           "abc123"%string session
           (mkRoom "ABC123" (JStr "Room ABC123") (JBool false) 0
              [mkUser "A"%string (JStr "alice") 2; mkUser "B"%string (JStr "bob") 4]
              JNull (Some 4))
           eq_refl Hp eq_refl Hn).
Defined.

Lemma emptied_room_and_its_timer_witness :
  let st := fst (on_disconnect 1000 "A"%string session) in
  let room := mkRoom "ABC123" (JStr "Room ABC123") (JBool false) 0
                [mkUser "B"%string (JStr "bob") 4] JNull (Some 1000) in
  let st' := fst (on_disconnect 1001 "B"%string st) in
  JsMap.get "ABC123" (rooms st) = Some room /\
  In ("ABC123"%string, 1001 + grace) (timers st') /\
  forall fire : Z,
    (fire <= 1001 + grace -> cleanup fire "ABC123" (rooms st') = rooms st') /\
    (1001 + grace < fire -> JsMap.get "ABC123" (cleanup fire "ABC123" (rooms st')) = None).
Proof.
  split; [reflexivity|].
  apply (emptied_room_and_its_timer 1001 "B"%string
           (fst (on_disconnect 1000 "A"%string session)) "ABC123"%string
           (mkRoom "ABC123" (JStr "Room ABC123") (JBool false) 0
              [mkUser "B"%string (JStr "bob") 4] JNull (Some 1000))
           (mkUser "B"%string (JStr "bob") 4)
           eq_refl eq_refl eq_refl).
Defined.

Lemma disconnect_removes_first_record_witness :
  let room := mkRoom "ABC123" (JStr "Room ABC123") (JBool false) 0
                [mkUser "A"%string (JStr "alice") 2; mkUser "B"%string (JStr "bob") 4]
                JNull (Some 4) in
  exists room',
    JsMap.get "ABC123" (rooms (fst (on_disconnect 1000 "A"%string session))) = Some room' /\
    canvasData room' = canvasData room /\
    ((~ In "A"%string (map user_id (users room)) /\ room' = room) \/
     (exists pre u post,
         users room = pre ++ u :: post /\ user_id u = "A"%string /\
         ~ In "A"%string (map user_id pre) /\
         users room' = pre ++ post /\ lastActivity room' = Some 1000)).
Proof.
  apply (disconnect_removes_first_record 1000 "A"%string session "ABC123"%string
           (mkRoom "ABC123" (JStr "Room ABC123") (JBool false) 0
              [mkUser "A"%string (JStr "alice") 2; mkUser "B"%string (JStr "bob") 4]
              JNull (Some 4))
           eq_refl).
Defined.

End GatewayFacts.

(** ** More about the client: history, mouse handlers, entering a room *)

Module ClientFacts.

Import Whiteboard.

Section HistoryMoves.

Context {Surface : Type} (toDataURL : Surface -> string).

Lemma at_index_some {A : Type} (i : Z) (l : list A) :
  0 <= i < len l -> exists x, at_index i l = Some x.
Proof.
  unfold at_index, len. intros H.
  destruct (Z.ltb_spec i 0); [lia|].
  destruct (nth_error l (Z.to_nat i)) eqn:E; [eauto|].
  apply nth_error_None in E. lia.
Qed.

Lemma slice0_all {A : Type} (l : list A) : slice0 (len l - 1 + 1) l = l.
Proof.
  unfold slice0, len. destruct (Z.ltb_spec (Z.of_nat (List.length l) - 1 + 1) 0); [lia|].
  replace (Z.to_nat (Z.of_nat (List.length l) - 1 + 1)) with (List.length l) by lia.
  apply firstn_all.
Qed.

Lemma tl_skipn_snoc {A : Type} (k : nat) (l : list A) (x : A) :
  (k < List.length l)%nat -> tl (skipn k l ++ [x]) = skipn (S k) (l ++ [x]).
Proof.
  revert k. induction l as [|a l IH]; intros k Hk; simpl in Hk; [lia|].
  destruct k as [|k].
  - reflexivity.
  - change (skipn (S k) (a :: l)) with (skipn k l).
    change (skipn (S (S k)) ((a :: l) ++ [x])) with (skipn (S k) (l ++ [x])).
    apply IH. lia.
Qed.

Lemma apply_all_snoc (p : Props) (st : State Surface) (ops : list (Op Surface))
  (op : Op Surface) :
  apply_all toDataURL p st (ops ++ [op])
  = apply toDataURL p (apply_all toDataURL p st ops) op.
Proof. unfold apply_all. now rewrite fold_left_app. Qed.

(** X10. The history is the last 50 commits.  After committing any list
    of snapshots in a row from the empty history, the history is that list
    without its first [length - 50] elements (all of it when there are at
    most 50), in order, the cursor is on the last snapshot and the canvas
    shows it. *)
Theorem commits_keep_last_50 :
  forall (p : Props) (c : Surface) (l : list Surface),
    apply_all toDataURL p (mounted c) (map Commit l)
    = mkState (Some (last l c)) (skipn (List.length l - 50) l)
        (len (skipn (List.length l - 50) l) - 1).
Proof.
  intros p c l. induction l as [|x l IH] using rev_ind.
  - reflexivity.
  - rewrite map_app. cbn [map]. rewrite apply_all_snoc, IH. cbn [apply].
    unfold saveToHistory, saveToHistory_in, view_of.
    cbn [canvas history historyIndex fst snd].
    rewrite slice0_all, last_last.
    set (h := skipn (List.length l - 50) l).
    assert (Hh : List.length h = Nat.min (List.length l) 50).
    { unfold h. rewrite length_skipn. lia. }
    assert (Hnew : (if len (h ++ [x]) >? 50 then tl (h ++ [x]) else h ++ [x])
                   = skipn (List.length (l ++ [x]) - 50) (l ++ [x])).
    { rewrite length_app. cbn [List.length].
      destruct (Z.gtb_spec (len (h ++ [x])) 50) as [Hgt|Hle];
        unfold len in *; rewrite length_app in *; cbn [List.length] in *.
      - replace (List.length l + 1 - 50)%nat with (S (List.length l - 50)) by lia.
        unfold h. apply tl_skipn_snoc. lia.
      - replace (List.length l + 1 - 50)%nat with 0%nat by lia.
        unfold h. replace (List.length l - 50)%nat with 0%nat by lia.
        reflexivity. }
    now rewrite Hnew.
Qed.

(** X11. Undo, then redo.  For an editor whose cursor is at an interior
    position [i] of the history ([0 < i < length]), an undo shows snapshot
    [i - 1] with the cursor on it, and a redo right after it shows snapshot
    [i] again with the cursor back on [i]; the history itself is not
    touched by either. *)
Theorem undo_then_redo :
  forall (p : Props) (st : State Surface) (c : Surface),
    canEdit p = true -> canvas st = Some c ->
    0 < historyIndex st < len (history st) ->
    exists below shown,
      at_index (historyIndex st - 1) (history st) = Some below /\
      at_index (historyIndex st) (history st) = Some shown /\
      fst (undo toDataURL p st)
      = mkState (Some below) (history st) (historyIndex st - 1) /\
      fst (redo toDataURL p (fst (undo toDataURL p st)))
      = mkState (Some shown) (history st) (historyIndex st).
Proof.
  intros p st c He Hc Hi.
  destruct (at_index_some (historyIndex st - 1) (history st)) as [below Hb]; [lia|].
  destruct (at_index_some (historyIndex st) (history st)) as [shown Hs]; [lia|].
  exists below, shown. split; [exact Hb|]. split; [exact Hs|].
  assert (Hundo : fst (undo toDataURL p st)
                  = mkState (Some below) (history st) (historyIndex st - 1)).
  { unfold undo. rewrite He.
    destruct (Z.gtb_spec (historyIndex st) 0); [|lia]. cbn [andb].
    unfold move_to. now rewrite Hc, Hb. }
  split; [exact Hundo|].
  rewrite Hundo. unfold redo. cbn [history historyIndex]. rewrite He.
  destruct (Z.ltb_spec (historyIndex st - 1) (len (history st) - 1)); [|lia].
  cbn [andb]. unfold move_to. cbn [canvas history].
  replace (historyIndex st - 1 + 1) with (historyIndex st) by lia.
  now rewrite Hs.
Qed.

(** X12. A new edit forfeits redo.  When an editor commits with the cursor
    at position [i] (after some undos, say) and there is room left, the
    snapshots after [i] are dropped, the committed surface becomes
    snapshot [i + 1] and the cursor moves onto it; a redo right after that
    does nothing and emits nothing. *)
Theorem commit_forfeits_redo :
  forall (p : Props) (st : State Surface) (c : Surface),
    canvas st = Some c ->
    -1 <= historyIndex st < len (history st) ->
    historyIndex st + 1 < 50 ->
    let st' := saveToHistory st in
    history st' = firstn (Z.to_nat (historyIndex st + 1)) (history st) ++ [c] /\
    historyIndex st' = historyIndex st + 1 /\
    redo toDataURL p st' = (st', []).
Proof.
  intros p st c Hc Hi Hroom st'.
  assert (Hlen : len (firstn (Z.to_nat (historyIndex st + 1)) (history st))
                 = historyIndex st + 1).
  { unfold len in *. rewrite length_firstn. lia. }
  assert (Hst : st' = mkState (Some c)
                        (firstn (Z.to_nat (historyIndex st + 1)) (history st) ++ [c])
                        (historyIndex st + 1)).
  { subst st'. unfold saveToHistory, saveToHistory_in, view_of. rewrite Hc.
    cbn [fst snd]. unfold slice0.
    destruct (Z.ltb_spec (historyIndex st + 1) 0); [lia|].
    set (kept := firstn (Z.to_nat (historyIndex st + 1)) (history st)) in *.
    assert (Hp : len (kept ++ [c]) = historyIndex st + 2).
    { rewrite WhiteboardFacts.len_app, Hlen. unfold len. simpl. lia. }
    destruct (Z.gtb_spec (len (kept ++ [c])) 50); [lia|].
    f_equal. lia. }
  rewrite Hst. cbn [history historyIndex]. split; [reflexivity|]. split; [reflexivity|].
  unfold redo. cbn [history historyIndex].
  rewrite WhiteboardFacts.len_app, Hlen.
  destruct (Z.ltb_spec (historyIndex st + 1) (historyIndex st + 1 + len [c] - 1));
    [unfold len in *; simpl in *; lia | reflexivity].
Qed.

End HistoryMoves.

Lemma undo_then_redo_witness :
  let st := EndToEnd.three_commits in
  canEdit EndToEnd.editor = true /\
  0 < historyIndex st < len (history st) /\
  exists below shown,
    at_index (historyIndex st - 1) (history st) = Some below /\
    at_index (historyIndex st) (history st) = Some shown /\
    fst (undo EndToEnd.dataURL EndToEnd.editor st)
    = mkState (Some below) (history st) (historyIndex st - 1) /\
    fst (redo EndToEnd.dataURL EndToEnd.editor
           (fst (undo EndToEnd.dataURL EndToEnd.editor st)))
    = mkState (Some shown) (history st) (historyIndex st).
Proof.
  split; [reflexivity|]. split; [vm_compute; split; reflexivity|].
  apply (undo_then_redo EndToEnd.dataURL EndToEnd.editor EndToEnd.three_commits
           2%nat eq_refl eq_refl).
  vm_compute. split; reflexivity.
Defined.

Lemma commit_forfeits_redo_witness :
  let st := mkState (Some 9%nat) [0%nat; 1%nat; 2%nat] 0 in
  let st' := saveToHistory st in
  history st' = firstn (Z.to_nat (historyIndex st + 1)) (history st) ++ [9%nat] /\
  historyIndex st' = historyIndex st + 1 /\
  redo EndToEnd.dataURL EndToEnd.editor st' = (st', []).
Proof.
  apply (commit_forfeits_redo EndToEnd.dataURL EndToEnd.editor
           (mkState (Some 9%nat) [0%nat; 1%nat; 2%nat] 0) 9%nat eq_refl).
  - vm_compute. split; [discriminate | reflexivity].
  - reflexivity.
Defined.

End ClientFacts.

(** ** The mouse handlers and the drawing protocol *)

Module PointerFacts.

Import Whiteboard.

Section Gestures.

Context {Surface : Type} (exec : Canvas.Call -> Surface -> Surface)
  (trim : string -> string) (blank : Surface)
  (drawImage : Json -> Surface -> Surface) (toDataURL : Surface -> string).

Lemma canvas_saveToHistory (st : State Surface) :
  canvas (saveToHistory st) = canvas st.
Proof.
  unfold saveToHistory, saveToHistory_in.
  destruct (canvas st) eqn:E; [reflexivity | exact E].
Qed.

Lemma canvas_paint (f : Surface -> Surface) (st : State Surface) :
  canvas (paint f st) = option_map f (canvas st).
Proof. reflexivity. Qed.

(** The room id that [emit_drawing] puts in front of a record is not read
    by [drawOnCanvas]. *)
Lemma drawOnCanvas_ignores_roomId (r : Json) (fields : list (string * Json)) :
  Canvas.drawOnCanvas (JObj (("roomId"%string, r) :: fields))
  = Canvas.drawOnCanvas (JObj fields).
Proof. reflexivity. Qed.

Lemma in_emit_drawing (p : Props) (fields : list (string * Json)) (m : Wire) :
  In m (Pointer.emit_drawing p fields) ->
  exists roomId,
    room p = Some roomId /\
    m = ("drawing"%string, JObj (("roomId"%string, JStr roomId) :: fields)).
Proof.
  unfold Pointer.emit_drawing.
  destruct (socket p); [|intros []].
  destruct (room p) as [roomId|]; [|intros []].
  intros [<-|[]]. eauto.
Qed.

(** X13. A viewer cannot change anything locally.  With [canEdit] false,
    pressing, moving and releasing the mouse, Undo, Redo and the Clear
    button all leave the pointer state, the canvas, the history and the
    cursor exactly as they are and emit nothing.  Remote events are a
    different matter: how they are handled does not depend on the role. *)
Theorem viewer_is_read_only :
  forall (p : Props) (pos : Z * Z) (answer : option string)
         (ui : Pointer.State) (st : State Surface),
    canEdit p = false ->
    Pointer.startDrawing exec p pos ui st = (ui, st) /\
    Pointer.draw exec p pos ui st = (ui, st, []) /\
    Pointer.stopDrawing exec trim p pos answer ui st = (ui, st, []) /\
    undo toDataURL p st = (st, []) /\
    redo toDataURL p st = (st, []) /\
    clearCanvas blank p st = (st, []) /\
    (forall (v : View Surface) (p' : Props) (event : string) (payload : Json),
        on_event blank (fun d => Pointer.render exec (Canvas.drawOnCanvas d))
          drawImage v p event payload st
        = on_event blank (fun d => Pointer.render exec (Canvas.drawOnCanvas d))
            drawImage v p' event payload st).
Proof.
  intros p pos answer ui st Hv.
  unfold Pointer.startDrawing, Pointer.draw, Pointer.stopDrawing, undo, redo,
    clearCanvas, clearCanvas_in.
  rewrite Hv. cbn [negb andb]. rewrite !orb_true_r, !andb_false_r.
  repeat split.
  intros v p' event payload. unfold on_event, clearCanvas_in.
  rewrite !andb_false_r. destruct (canvas st); reflexivity.
Qed.

(** X14. Peers replay what was painted.  Whatever message a mouse move or
    a mouse release emits, the ['drawing'] listener of a peer executes on
    its canvas the same context calls that the sender executed on its own
    for that gesture.  For the text tool the peer's calls are preceded by
    the three stroke settings that [drawOnCanvas] always makes, and that
    the sender's direct [drawText] call does not make. *)
Theorem peers_replay_the_same_calls :
  forall (p : Props) (pos : Z * Z) (answer : option string)
         (ui : Pointer.State) (st peer : State Surface),
    (forall m, In m (snd (Pointer.draw exec p pos ui st)) ->
       exists calls,
         canvas (snd (fst (Pointer.draw exec p pos ui st)))
         = option_map (Pointer.render exec calls) (canvas st) /\
         Pointer.receive_drawing exec (snd m) peer
         = paint (Pointer.render exec calls) peer) /\
    (forall m, In m (snd (Pointer.stopDrawing exec trim p pos answer ui st)) ->
       exists setup calls,
         (setup = [] \/
          Pointer.tool ui = "text"%string /\
          setup = [ Canvas.strokeStyle (JStr (Pointer.color ui));
                    Canvas.lineWidth (JNum (Pointer.fontSize ui));
                    Canvas.lineCap_round ]) /\
         canvas (snd (fst (Pointer.stopDrawing exec trim p pos answer ui st)))
         = option_map (Pointer.render exec calls) (canvas st) /\
         Pointer.receive_drawing exec (snd m) peer
         = paint (Pointer.render exec (setup ++ calls)) peer).
Proof.
  intros p pos answer ui st peer. split.
  - unfold Pointer.draw.
    destruct (negb (Pointer.isDrawing ui) || negb (canEdit p)); [intros m []|].
    destruct (Pointer.freehand ui); [|intros m []].
    cbn [fst snd]. intros m Hm.
    apply in_emit_drawing in Hm. destruct Hm as [roomId [_ ->]].
    exists (Canvas.drawOnCanvas (JObj (Pointer.segment pos ui))).
    split; reflexivity.
  - unfold Pointer.stopDrawing.
    destruct (negb (Pointer.isDrawing ui) || negb (canEdit p)); [intros m []|].
    cbn [fst snd]. rewrite canvas_saveToHistory. unfold Pointer.finish.
    destruct (String.eqb (Pointer.tool ui) "rectangle"
              || String.eqb (Pointer.tool ui) "circle").
    { cbn [fst snd]. intros m Hm.
      apply in_emit_drawing in Hm. destruct Hm as [roomId [_ ->]].
      exists [], (Canvas.drawOnCanvas (JObj (Pointer.outline pos ui))).
      split; [now left|]. split; reflexivity. }
    destruct (String.eqb_spec (Pointer.tool ui) "text") as [Htool|_]; [|intros m []].
    destruct answer as [text|]; [|intros m []].
    destruct (String.eqb_spec text "") as [|Htext]; [intros m []|].
    cbn [negb andb].
    destruct (negb (String.eqb (trim text) "")); [|intros m []].
    cbn [fst snd]. intros m Hm.
    apply in_emit_drawing in Hm. destruct Hm as [roomId [_ ->]].
    exists [ Canvas.strokeStyle (JStr (Pointer.color ui));
             Canvas.lineWidth (JNum (Pointer.fontSize ui));
             Canvas.lineCap_round ],
           (Canvas.drawText (JStr text) (Pointer.label pos ui)).
    split; [right; split; [exact Htool | reflexivity]|].
    split; [reflexivity|].
    unfold Pointer.receive_drawing. cbn [snd]. f_equal. f_equal.
    unfold Canvas.drawOnCanvas, Canvas.shape, Pointer.label.
    cbn [field String.eqb Ascii.eqb Bool.eqb app]. rewrite Htool.
    cbn [String.eqb Ascii.eqb Bool.eqb orb truthy negb andb].
    destruct (String.eqb_spec text ""); [contradiction|].
    reflexivity.
Qed.

(** X15. One snapshot per gesture.  A mouse move never touches the history.
    A mouse release that ends a gesture of an editor on a mounted canvas
    commits exactly what the canvas then shows, with any tool and also
    when the text prompt is dismissed: the history ends with that surface,
    the cursor is on it, and the pointer is no longer drawing. *)
Theorem one_snapshot_per_gesture :
  forall (p : Props) (pos : Z * Z) (answer : option string)
         (ui : Pointer.State) (st : State Surface) (c : Surface),
    Pointer.isDrawing ui = true -> canEdit p = true -> canvas st = Some c ->
    let moved := snd (fst (Pointer.draw exec p pos ui st)) in
    let released := Pointer.stopDrawing exec trim p pos answer ui st in
    history moved = history st /\ historyIndex moved = historyIndex st /\
    Pointer.isDrawing (fst (fst released)) = false /\
    exists shown,
      canvas (snd (fst released)) = Some shown /\
      last (history (snd (fst released))) c = shown /\
      historyIndex (snd (fst released)) = len (history (snd (fst released))) - 1.
Proof.
  intros p pos answer ui st c Hd He Hc moved released. subst moved released.
  unfold Pointer.draw, Pointer.stopDrawing. rewrite Hd, He. cbn [negb orb fst snd].
  split; [|split; [|split]].
  - now destruct (Pointer.freehand ui).
  - now destruct (Pointer.freehand ui).
  - reflexivity.
  - set (done := fst (Pointer.finish exec trim p pos answer ui st)).
    assert (Hdone : exists shown, canvas done = Some shown).
    { subst done. unfold Pointer.finish.
      destruct (_ || _); [cbn [fst]; rewrite canvas_paint, Hc; simpl; eauto|].
      destruct (String.eqb (Pointer.tool ui) "text"); [|eauto].
      destruct answer as [text|]; [|eauto].
      destruct (_ && _); [cbn [fst]; rewrite canvas_paint, Hc; simpl; eauto | eauto]. }
    destruct Hdone as [shown Hshown]. exists shown.
    rewrite canvas_saveToHistory. split; [exact Hshown|].
    unfold saveToHistory, saveToHistory_in. rewrite Hshown.
    cbn [history historyIndex]. split; [|reflexivity].
    set (pushed := slice0 _ _ ++ [shown]).
    destruct (Z.gtb_spec (len pushed) 50) as [Hgt|Hle].
    + rewrite WhiteboardFacts.last_tl by (unfold len in Hgt; lia).
      apply last_last.
    + apply last_last.
Qed.

End Gestures.

Section Relay.

Context {Surface : Type} (exec : Canvas.Call -> Surface -> Surface).

Variable toUpperCase : string -> string.

(** X16. A stroke reaches the room.  While an editor with a socket drags
    the pen or the eraser in a room, each mouse move emits one ['drawing']
    message carrying the room id in front of the segment; the server
    delivers that very payload to every other connection that the adapter
    holds in the group named by that room id, and to nobody else, and
    leaves the room registered under that id as it is but for its
    last-activity, which becomes the time of the message. *)
Theorem stroke_reaches_room :
  forall (p : Props) (pos : Z * Z) (ui : Pointer.State) (st : State Surface)
         (roomId : string) (now : Z) (sender : Server.SocketId)
         (server : Server.State),
    Pointer.isDrawing ui = true -> Pointer.freehand ui = true ->
    canEdit p = true -> socket p = true -> room p = Some roomId ->
    roomId <> ""%string ->
    let payload := JObj (("roomId"%string, JStr roomId) :: Pointer.segment pos ui) in
    let msgs := snd (Pointer.draw exec p pos ui st) in
    let res := EndToEnd.deliver toUpperCase now sender msgs server in
    msgs = [("drawing"%string, payload)] /\
    (forall e, In e (snd res) <->
               exists c rs, e = Server.Emit c (Server.drawing payload) /\
                            c <> sender /\
                            In (c, rs) (Server.sids server) /\ In roomId rs) /\
    (forall room, JsMap.get roomId (Server.rooms server) = Some room ->
                  JsMap.get roomId (Server.rooms (fst res))
                  = Some (Server.mkRoom (Server.room_id room) (Server.room_name room)
                            (Server.isPrivate room) (Server.createdAt room)
                            (Server.users room) (Server.canvasData room) (Some now))).
Proof.
  intros p pos ui st roomId now sender server Hd Hf He Hs Hr Hne payload msgs res.
  assert (Hmsgs : msgs = [("drawing"%string, payload)]).
  { subst msgs. unfold Pointer.draw. rewrite Hd, Hf, He. cbn [negb orb snd].
    unfold Pointer.emit_drawing. now rewrite Hs, Hr. }
  split; [exact Hmsgs|].
  subst res. rewrite Hmsgs. unfold EndToEnd.deliver. cbn [map fst snd Server.run Server.step].
  change (Server.on_message toUpperCase now sender "drawing" payload server)
    with (Server.on_drawing now sender payload server).
  unfold Server.on_drawing. subst payload. cbn [prop field String.eqb Ascii.eqb Bool.eqb].
  rewrite (ServerFacts.truthy_JStr roomId Hne).
  cbn [fst snd Server.to_value Server.rooms Server.with_rooms]. rewrite app_nil_r.
  split.
  - intros e. rewrite ServerFacts.in_emit_inv. split.
    + intros [c [H1 H2]]. apply ServerFacts.in_to in H2. destruct H2 as [H2 H3].
      apply ServerFacts.in_socketsIn in H3. destruct H3 as [rs [H3 H4]].
      exists c, rs. auto.
    + intros [c [rs [H1 [H2 [H3 H4]]]]]. exists c. split; [exact H1|].
      apply ServerFacts.in_to. split; [exact H2|].
      apply ServerFacts.in_socketsIn. eauto.
  - intros room Hroom. rewrite <- ServerFacts.touch_fields.
    now apply ServerFacts.update_value_same.
Qed.

End Relay.

Lemma viewer_is_read_only_witness :
  let viewer := mkProps true (Some "ABC123"%string) false in
  let ui := Pointer.mkState true "pen" "#000000" 2 16 (0, 0) in
  let st := EndToEnd.three_commits in
  canEdit viewer = false /\
  Pointer.startDrawing (fun _ s => S s) viewer (5, 5) ui st = (ui, st) /\
  Pointer.draw (fun _ s => S s) viewer (5, 5) ui st = (ui, st, []) /\
  Pointer.stopDrawing (fun _ s => S s) (fun t => t) viewer (5, 5) None ui st
  = (ui, st, []) /\
  undo EndToEnd.dataURL viewer st = (st, []) /\
  redo EndToEnd.dataURL viewer st = (st, []) /\
  clearCanvas 0%nat viewer st = (st, []) /\
  (forall (v : View nat) (p' : Props) (event : string) (payload : Json),
      on_event 0%nat (fun d => Pointer.render (fun _ s => S s) (Canvas.drawOnCanvas d))
        (fun _ s => s) v viewer event payload st
      = on_event 0%nat (fun d => Pointer.render (fun _ s => S s) (Canvas.drawOnCanvas d))
          (fun _ s => s) v p' event payload st).
Proof.
  split; [reflexivity|].
  apply (viewer_is_read_only (fun _ s => S s) (fun t => t) 0%nat (fun _ s => s)
           EndToEnd.dataURL (mkProps true (Some "ABC123"%string) false) (5, 5) None
           (Pointer.mkState true "pen" "#000000" 2 16 (0, 0))
           EndToEnd.three_commits eq_refl).
Defined.

Lemma peers_replay_the_same_calls_witness :
  let ui := Pointer.mkState true "pen" "#000000" 2 16 (0, 0) in
  let st := EndToEnd.three_commits in
  let peer := mounted 0%nat in
  let m := ("drawing"%string,
            JObj (("roomId"%string, JStr "ABC123") :: Pointer.segment (5, 5) ui)) in
  In m (snd (Pointer.draw (fun _ s => S s) EndToEnd.editor (5, 5) ui st)) /\
  exists calls,
    canvas (snd (fst (Pointer.draw (fun _ s => S s) EndToEnd.editor (5, 5) ui st)))
    = option_map (Pointer.render (fun _ s => S s) calls) (canvas st) /\
    Pointer.receive_drawing (fun _ s => S s) (snd m) peer
    = paint (Pointer.render (fun _ s => S s) calls) peer.
Proof.
  assert (H : In ("drawing"%string,
                  JObj (("roomId"%string, JStr "ABC123")
                        :: Pointer.segment (5, 5)
                             (Pointer.mkState true "pen" "#000000" 2 16 (0, 0))))
                (snd (Pointer.draw (fun _ s => S s) EndToEnd.editor (5, 5)
                        (Pointer.mkState true "pen" "#000000" 2 16 (0, 0))
                        EndToEnd.three_commits))).
  { left. reflexivity. }
  split; [exact H|].
  apply (proj1 (peers_replay_the_same_calls (fun _ s => S s) (fun t => t)
                  EndToEnd.editor (5, 5) None
                  (Pointer.mkState true "pen" "#000000" 2 16 (0, 0))
                  EndToEnd.three_commits (mounted 0%nat)) _ H).
Defined.

Lemma one_snapshot_per_gesture_witness :
  let ui := Pointer.mkState true "rectangle" "#ff0000" 2 16 (1, 1) in
  let st := EndToEnd.three_commits in
  let moved := snd (fst (Pointer.draw (fun _ s => S s) EndToEnd.editor (5, 5) ui st)) in
  let released := Pointer.stopDrawing (fun _ s => S s) (fun t => t)
                    EndToEnd.editor (5, 5) None ui st in
  history moved = history st /\ historyIndex moved = historyIndex st /\
  Pointer.isDrawing (fst (fst released)) = false /\
  exists shown,
    canvas (snd (fst released)) = Some shown /\
    last (history (snd (fst released))) 2%nat = shown /\
    historyIndex (snd (fst released)) = len (history (snd (fst released))) - 1.
Proof.
  apply (one_snapshot_per_gesture (fun _ s => S s) (fun t => t)
           EndToEnd.editor (5, 5) None
           (Pointer.mkState true "rectangle" "#ff0000" 2 16 (1, 1))
           EndToEnd.three_commits 2%nat eq_refl eq_refl eq_refl).
Defined.

Lemma stroke_reaches_room_witness :
  let ui := Pointer.mkState true "pen" "#000000" 2 16 (0, 0) in
  let payload := JObj (("roomId"%string, JStr "ABC123") :: Pointer.segment (5, 5) ui) in
  let msgs := snd (Pointer.draw (fun _ s => S s) EndToEnd.editor (5, 5) ui
                     EndToEnd.three_commits) in
  let res := EndToEnd.deliver upper 7 "A"%string msgs Server.session in
  msgs = [("drawing"%string, payload)] /\
  (forall e, In e (snd res) <->
             exists c rs, e = Server.Emit c (Server.drawing payload) /\
                          c <> "A"%string /\
                          In (c, rs) (Server.sids Server.session) /\
                          In "ABC123"%string rs) /\
  (forall room, JsMap.get "ABC123" (Server.rooms Server.session) = Some room ->
                JsMap.get "ABC123" (Server.rooms (fst res))
                = Some (Server.mkRoom (Server.room_id room) (Server.room_name room)
                          (Server.isPrivate room) (Server.createdAt room)
                          (Server.users room) (Server.canvasData room) (Some 7))).
Proof.
  apply (stroke_reaches_room (fun _ s => S s) upper EndToEnd.editor (5, 5)
           (Pointer.mkState true "pen" "#000000" 2 16 (0, 0))
           EndToEnd.three_commits "ABC123"%string 7 "A"%string Server.session
           eq_refl eq_refl eq_refl eq_refl eq_refl).
  discriminate.
Defined.

End PointerFacts.

(** ** Entering and leaving a room through [App.tsx] *)

Module AppFacts.

Section Rooms.

Variable toUpperCase : string -> string.

(** X17. Every member who joins through the client is recorded as
    "Anonymous".  [joinRoom] sends the user object under the key [user];
    the server reads [userName], finds none, and falls back to
    ['Anonymous'], whatever name, id or role the user object carries.  The
    join itself succeeds: the confirmation goes to the caller with the new
    record appended to the member list, and the room stores that list. *)
Theorem joined_through_app_is_anonymous :
  forall (now : Z) (s : Server.SocketId) (roomId : string) (userData : Json)
         (st : Server.State) (room : Server.RoomData),
    JsMap.get (toUpperCase roomId) (Server.rooms st) = Some room ->
    let res := EndToEnd.deliver toUpperCase now s
                 (App.joinRoom true roomId userData) st in
    let u := Server.mkUser s (JStr "Anonymous") now in
    In (Server.Emit s (Server.room_joined (toUpperCase roomId)
                         (Server.room_name room) (Server.users room ++ [u])))
       (snd res) /\
    option_map Server.users (JsMap.get (toUpperCase roomId) (Server.rooms (fst res)))
    = Some (Server.users room ++ [u]).
Proof.
  intros now s roomId userData st room Hroom res u. subst res.
  unfold EndToEnd.deliver, App.joinRoom. cbn [map fst snd Server.run Server.step].
  change (Server.on_message toUpperCase now s "join-room"
            (JObj [("roomId"%string, JStr roomId); ("user"%string, userData)]) st)
    with (Server.on_join_room toUpperCase now s
            (JObj [("roomId"%string, JStr roomId); ("user"%string, userData)]) st).
  rewrite (ServerFacts.join_known_room toUpperCase now s
             [("roomId"%string, JStr roomId); ("user"%string, userData)]
             roomId st room eq_refl eq_refl Hroom).
  cbn [fst snd Server.rooms Server.with_rooms field String.eqb Ascii.eqb Bool.eqb
       js_or truthy].
  split.
  - left. reflexivity.
  - now rewrite JsMapFacts.get_set_same.
Qed.

(** X18. Leaving a room in the client does not leave it on the server.
    [leaveRoom] emits ['leave-room'], for which the server has no
    listener: the server state is unchanged, so the connection stays in the
    room's broadcast group and in its member list, and a drawing event
    that another member sends to the room afterwards is still delivered to
    it. *)
Theorem leaving_keeps_membership :
  forall (now now' : Z) (s other : Server.SocketId) (r : string)
         (fields : list (string * Json)) (st : Server.State),
    Server.member s r st -> s <> other ->
    field "roomId" fields = JStr r -> r <> ""%string ->
    let res := EndToEnd.deliver toUpperCase now s (App.leaveRoom true (Some r)) st in
    res = (st, []) /\
    Server.member s r (fst res) /\
    In (Server.Emit s (Server.drawing (JObj fields)))
       (snd (Server.on_drawing now' other (JObj fields) (fst res))).
Proof.
  intros now now' s other r fields st Hm Hne Hr Hr0 res.
  assert (Hres : res = (st, [])) by reflexivity.
  rewrite Hres. cbn [fst]. split; [reflexivity|]. split; [exact Hm|].
  unfold Server.on_drawing. cbn [prop]. rewrite Hr, (ServerFacts.truthy_JStr r Hr0).
  cbn [snd Server.to_value]. apply ServerFacts.in_emit. split; [reflexivity|].
  apply ServerFacts.in_to. tauto.
Qed.

End Rooms.

Lemma joined_through_app_is_anonymous_witness :
  let room := Server.mkRoom "ABC123" (JStr "Room ABC123") (JBool false) 0
                [Server.mkUser "A"%string (JStr "alice") 2;
                 Server.mkUser "B"%string (JStr "bob") 4] JNull (Some 4) in
  let res := EndToEnd.deliver upper 9 "X"%string
               (App.joinRoom true "ABC123" (App.user "u-1" "Xena" "editor"))
               Server.session in
  let u := Server.mkUser "X"%string (JStr "Anonymous") 9 in
  JsMap.get (upper "ABC123") (Server.rooms Server.session) = Some room /\
  In (Server.Emit "X"%string (Server.room_joined (upper "ABC123")
                                (Server.room_name room) (Server.users room ++ [u])))
     (snd res) /\
  option_map Server.users (JsMap.get (upper "ABC123") (Server.rooms (fst res)))
  = Some (Server.users room ++ [u]).
Proof.
  split; [reflexivity|].
  apply (joined_through_app_is_anonymous upper 9 "X"%string "ABC123"%string
           (App.user "u-1" "Xena" "editor") Server.session
           (Server.mkRoom "ABC123" (JStr "Room ABC123") (JBool false) 0
              [Server.mkUser "A"%string (JStr "alice") 2;
               Server.mkUser "B"%string (JStr "bob") 4] JNull (Some 4))
           eq_refl).
Defined.

Lemma leaving_keeps_membership_witness :
  let res := EndToEnd.deliver upper 8 "B"%string (App.leaveRoom true (Some "ABC123"%string))
               Server.session in
  Server.member "B"%string "ABC123" Server.session /\
  res = (Server.session, []) /\
  Server.member "B"%string "ABC123" (fst res) /\
  In (Server.Emit "B"%string (Server.drawing (Server.stroke "ABC123")))
     (snd (Server.on_drawing 9 "A"%string (Server.stroke "ABC123") (fst res))).
Proof.
  assert (Hm : Server.member "B"%string "ABC123" Server.session).
  { unfold Server.member. vm_compute. auto. }
  split; [exact Hm|].
  apply (leaving_keeps_membership upper 8 9 "B"%string "A"%string "ABC123"%string
           [("roomId"%string, JStr "ABC123"); ("tool"%string, JStr "pen");
            ("x"%string, JNum 10); ("y"%string, JNum 20)]
           Server.session Hm).
  - discriminate.
  - reflexivity.
  - discriminate.
Defined.

End AppFacts.

(** ** The stored surface and the client *)

Module PersistenceFacts.

Import Server.

Section Runs.

Variable toUpperCase : string -> string.

Lemma stores_update_to (k : string) (state : Json) (v : Json)
  (f : RoomData -> RoomData) (m : JsMap.t RoomData) :
  (forall room, canvasData (f room) = state) ->
  stores k state m -> stores k state (update_value v f m).
Proof.
  intros Hf Hm. destruct v; simpl; auto.
  destruct (JsMap.get s m) as [room|] eqn:E; auto.
  intros room'. destruct (String.eqb_spec k s) as [->|Hne].
  - rewrite JsMapFacts.get_set_same. intros [= <-]. apply Hf.
  - rewrite JsMapFacts.get_set_other by exact Hne. apply Hm.
Qed.

Lemma nothing_stored_step (st : State) (i : Z * Input) :
  Relay.named "save-canvas-state" i = false ->
  Relay.nothing_stored (rooms st) ->
  Relay.nothing_stored (rooms (fst (step toUpperCase st i))).
Proof.
  destruct i as [now [s|s event data|s|body entropy|roomId due]];
    unfold Relay.named, step; cbn [fst snd]; intros Hn Hm k.
  - apply Hm.
  - unfold on_message.
    destruct (String.eqb event "join-room"); [apply ServerFacts.stores_join, Hm|].
    destruct (String.eqb event "drawing").
    { unfold on_drawing. destruct (prop data "roomId") as [r|]; [|apply Hm].
      destruct (truthy r); [|apply Hm].
      cbn [fst rooms with_rooms]. apply ServerFacts.stores_update_keep; [auto | apply Hm]. }
    destruct (String.eqb event "clear-canvas").
    { unfold on_clear_canvas. destruct (truthy (optprop data "roomId")); [|apply Hm].
      cbn [fst rooms with_rooms]. apply stores_update_to; [auto | apply Hm]. }
    destruct (String.eqb event "undo").
    { unfold on_signal. destruct (truthy (optprop data "roomId")); apply Hm. }
    destruct (String.eqb event "redo").
    { unfold on_signal. destruct (truthy (optprop data "roomId")); apply Hm. }
    rewrite Hn. apply Hm.
  - rewrite GatewayFacts.on_disconnect_rooms.
    apply ServerFacts.stores_leave_rooms, Hm.
  - unfold createRoom.
    destruct (prop body "roomName"); [|apply Hm].
    destruct (prop body "isPrivate"); [|apply Hm].
    cbn [fst rooms with_rooms]. intros room.
    destruct (String.eqb_spec k (allocate toUpperCase (rooms st) entropy)) as [->|Hne].
    + rewrite JsMapFacts.get_set_same. now intros [= <-].
    + rewrite JsMapFacts.get_set_other by exact Hne. apply Hm.
  - cbn [on_timeout fst rooms]. apply ServerFacts.stores_cleanup, Hm.
Qed.

Lemma no_replay_step (st : State) (i : Z * Input) (c : SocketId) (d : Json) :
  Relay.nothing_stored (rooms st) ->
  ~ In (Emit c (load_canvas d)) (snd (step toUpperCase st i)).
Proof.
  intros Hm.
  assert (Hemit : forall targets ev,
             ev <> load_canvas d -> ~ In (Emit c (load_canvas d)) (emit targets ev)).
  { intros targets ev Hev H. apply ServerFacts.in_emit in H. destruct H as [H _].
    congruence. }
  destruct i as [now [s|s event data|s|body entropy|roomId due]];
    unfold step; cbn [fst snd].
  - intros [].
  - unfold on_message.
    destruct (String.eqb event "join-room").
    { unfold on_join_room.
      destruct (prop data "roomId") as [[| | | |roomId|]|];
        try (intros [H|[]]; discriminate);
        destruct (prop data "userName") as [userName|];
        try (intros [H|[]]; discriminate).
      destruct (printable userName); [|intros [H|[]]; discriminate].
      destruct (JsMap.get (toUpperCase roomId) (rooms st)) as [room|] eqn:E;
        [|intros [H|[]]; discriminate].
      cbn [snd canvasData touch set_users]. rewrite (Hm _ _ E). cbn [truthy app].
      intros [H|H]; [discriminate|]. revert H. apply Hemit. discriminate. }
    destruct (String.eqb event "drawing").
    { unfold on_drawing. destruct (prop data "roomId") as [r|]; [|intros []].
      destruct (truthy r); cbn [snd]; apply Hemit; discriminate. }
    destruct (String.eqb event "clear-canvas").
    { unfold on_clear_canvas. destruct (truthy (optprop data "roomId")); cbn [snd];
        apply Hemit; discriminate. }
    destruct (String.eqb event "undo").
    { unfold on_signal. destruct (truthy (optprop data "roomId")); cbn [snd];
        apply Hemit; discriminate. }
    destruct (String.eqb event "redo").
    { unfold on_signal. destruct (truthy (optprop data "roomId")); cbn [snd];
        apply Hemit; discriminate. }
    destruct (String.eqb event "save-canvas-state"); [|intros []].
    unfold on_save_canvas_state.
    destruct (prop data "roomId"); [|intros []].
    destruct (prop data "canvasData"); intros [].
  - rewrite GatewayFacts.on_disconnect_out. intros H.
    apply GatewayFacts.out_leave_rooms in H.
    destruct H as [r [u [remaining [H _]]]]. discriminate.
  - unfold createRoom.
    destruct (prop body "roomName"); [|intros [H|[]]; discriminate].
    destruct (prop body "isPrivate"); [|intros [H|[]]; discriminate].
    cbn [snd]. destruct (printable _); intros [H|[]]; discriminate.
  - intros [].
Qed.

Lemma run_cons_out (st : State) (i : Z * Input) (trace : list (Z * Input)) :
  snd (run toUpperCase st (i :: trace))
  = snd (step toUpperCase st i)
    ++ snd (run toUpperCase (fst (step toUpperCase st i)) trace).
Proof.
  simpl. destruct (step toUpperCase st i) as [st1 out1]. simpl.
  now destruct (run toUpperCase st1 trace).
Qed.

Lemma nothing_stored_run (trace : list (Z * Input)) (st : State) :
  forallb (fun i => negb (Relay.named "save-canvas-state" i)) trace = true ->
  Relay.nothing_stored (rooms st) ->
  Relay.nothing_stored (rooms (fst (run toUpperCase st trace))) /\
  forall c d, ~ In (Emit c (load_canvas d)) (snd (run toUpperCase st trace)).
Proof.
  revert st. induction trace as [|i trace IH]; intros st Hq Hm.
  - split; [exact Hm | intros c d []].
  - simpl in Hq. apply andb_prop in Hq. destruct Hq as [Hi Hq].
    apply negb_true_iff in Hi.
    destruct (IH (fst (step toUpperCase st i)) Hq (nothing_stored_step st i Hi Hm))
      as [H1 H2].
    rewrite ServerFacts.run_cons, run_cons_out. split; [exact H1|].
    intros c d H. apply in_app_or in H. destruct H as [H|H].
    + revert H. now apply no_replay_step.
    + revert H. apply H2.
Qed.

End Runs.

Section Emitters.

Context {Surface : Type} (exec : Canvas.Call -> Surface -> Surface)
  (trim : string -> string) (blank : Surface) (toDataURL : Surface -> string).

(** The event names the client puts on the wire. *)
Lemma client_vocabulary (p : Whiteboard.Props) (pos : Z * Z)
  (answer : option string) (ui : Pointer.State) (st : Whiteboard.State Surface)
  (roomId : string) (userData : Json) (m : Whiteboard.Wire) :
  In m (snd (Pointer.draw exec p pos ui st)) \/
  In m (snd (Pointer.stopDrawing exec trim p pos answer ui st)) \/
  In m (snd (Whiteboard.undo toDataURL p st)) \/
  In m (snd (Whiteboard.redo toDataURL p st)) \/
  In m (snd (Whiteboard.clearCanvas blank p st)) \/
  In m (App.joinRoom (Whiteboard.socket p) roomId userData) \/
  In m (App.leaveRoom (Whiteboard.socket p) (Whiteboard.room p)) ->
  In (fst m) ["drawing"; "canvas-state"; "clear-canvas"; "join-room"; "leave-room"]%string.
Proof.
  assert (Hd : forall fields, In m (Pointer.emit_drawing p fields) ->
                              fst m = "drawing"%string).
  { intros fields H. apply PointerFacts.in_emit_drawing in H.
    destruct H as [r [_ ->]]. reflexivity. }
  assert (Hc : forall target, In m (snd (Whiteboard.move_to toDataURL p target st)) ->
                              fst m = "canvas-state"%string).
  { intros target. unfold Whiteboard.move_to.
    destruct (Whiteboard.canvas st); [|intros []].
    destruct (Whiteboard.at_index target (Whiteboard.history st)); [|intros []].
    unfold Whiteboard.emit_canvas_state. cbn [snd].
    destruct (Whiteboard.socket p); [|intros []].
    destruct (Whiteboard.room p); [|intros []]. now intros [<-|[]]. }
  intros [H|[H|[H|[H|[H|[H|H]]]]]].
  - left. revert H. unfold Pointer.draw.
    destruct (_ || _); [intros []|]. destruct (Pointer.freehand ui); [|intros []].
    cbn [snd]. intros H. symmetry. eapply Hd, H.
  - left. revert H. unfold Pointer.stopDrawing.
    destruct (_ || _); [intros []|]. cbn [snd]. unfold Pointer.finish.
    destruct (_ || _); [cbn [snd]; intros H; symmetry; eapply Hd, H|].
    destruct (String.eqb (Pointer.tool ui) "text"); [|intros []].
    destruct answer; [|intros []].
    destruct (_ && _); [cbn [snd]; intros H; symmetry; eapply Hd, H | intros []].
  - right. left. revert H. unfold Whiteboard.undo.
    destruct (_ && _); [|intros []]. intros H. symmetry. eapply Hc, H.
  - right. left. revert H. unfold Whiteboard.redo.
    destruct (_ && _); [|intros []]. intros H. symmetry. eapply Hc, H.
  - right. right. left. revert H.
    unfold Whiteboard.clearCanvas, Whiteboard.clearCanvas_in.
    destruct (_ && _); [intros []|].
    destruct (Whiteboard.canvas st); [|intros []]. cbn [snd].
    destruct (Whiteboard.socket p); [|intros []].
    destruct (Whiteboard.room p); [|intros []]. now intros [<-|[]].
  - right. right. right. left. revert H. unfold App.joinRoom.
    destruct (Whiteboard.socket p); [|intros []]. now intros [<-|[]].
  - right. right. right. right. left. revert H. unfold App.leaveRoom.
    destruct (Whiteboard.socket p); [|intros []].
    destruct (Whiteboard.room p); [|intros []]. now intros [<-|[]].
Qed.

End Emitters.

(** X19. Nothing is stored without a save, and this client never saves.
    In every run of the server from its initial state in which no message
    is named ['save-canvas-state'], every registered room has a [null]
    stored surface at the end and no load-canvas event is emitted to
    anybody, whatever else happens (joins, drawings, clears, creations,
    disconnects, timers).  And the messages that the client's emitters
    produce (mouse move and release, Undo, Redo, Clear, entering and
    leaving a room) are named ['drawing'], ['canvas-state'],
    ['clear-canvas'], ['join-room'] or ['leave-room'], never
    ['save-canvas-state']. *)
Theorem nothing_stored_without_save :
  forall (toUpperCase : string -> string),
    (forall trace : list (Z * Input),
        forallb (fun i => negb (Relay.named "save-canvas-state" i)) trace = true ->
        let res := run toUpperCase initial trace in
        (forall k room, JsMap.get k (rooms (fst res)) = Some room ->
                        canvasData room = JNull) /\
        (forall c d, ~ In (Emit c (load_canvas d)) (snd res))) /\
    (forall (Surface : Type) (exec : Canvas.Call -> Surface -> Surface)
            (trim : string -> string) (blank : Surface)
            (toDataURL : Surface -> string)
            (p : Whiteboard.Props) (pos : Z * Z) (answer : option string)
            (ui : Pointer.State) (st : Whiteboard.State Surface)
            (roomId : string) (userData : Json) (m : Whiteboard.Wire),
        In m (snd (Pointer.draw exec p pos ui st)) \/
        In m (snd (Pointer.stopDrawing exec trim p pos answer ui st)) \/
        In m (snd (Whiteboard.undo toDataURL p st)) \/
        In m (snd (Whiteboard.redo toDataURL p st)) \/
        In m (snd (Whiteboard.clearCanvas blank p st)) \/
        In m (App.joinRoom (Whiteboard.socket p) roomId userData) \/
        In m (App.leaveRoom (Whiteboard.socket p) (Whiteboard.room p)) ->
        fst m <> "save-canvas-state"%string).
Proof.
  intros toUpperCase. split.
  - intros trace Hq res.
    destruct (nothing_stored_run toUpperCase trace initial Hq) as [H1 H2].
    { intros k room. discriminate. }
    split; [|exact H2]. intros k room. apply H1.
  - intros Surface exec trim blank toDataURL p pos answer ui st roomId userData m H.
    pose proof (client_vocabulary exec trim blank toDataURL p pos answer ui st
                  roomId userData m H) as Hin.
    intros E. rewrite E in Hin. simpl in Hin. intuition discriminate.
Qed.

Lemma nothing_stored_without_save_witness :
  let res := run upper initial late_timer in
  let m := ("clear-canvas"%string, JStr "ABC123") in
  forallb (fun i => negb (Relay.named "save-canvas-state" i)) late_timer = true /\
  In m (snd (Whiteboard.clearCanvas 0%nat EndToEnd.editor EndToEnd.three_commits)) /\
  (forall k room, JsMap.get k (rooms (fst res)) = Some room ->
                  canvasData room = JNull) /\
  (forall c d, ~ In (Emit c (load_canvas d)) (snd res)) /\
  fst m <> "save-canvas-state"%string.
Proof.
  assert (Hm : In ("clear-canvas"%string, JStr "ABC123")
                 (snd (Whiteboard.clearCanvas 0%nat EndToEnd.editor
                         EndToEnd.three_commits))).
  { left. reflexivity. }
  split; [reflexivity|]. split; [exact Hm|].
  destruct (nothing_stored_without_save upper) as [Hrun Hclient].
  destruct (Hrun late_timer eq_refl) as [H1 H2].
  split; [exact H1|]. split; [exact H2|].
  apply (Hclient nat (fun _ s => S s) (fun t => t) 0%nat EndToEnd.dataURL
           EndToEnd.editor (0, 0) None
           (Pointer.mkState false "pen" "#000000" 2 16 (0, 0))
           EndToEnd.three_commits "ABC123"%string JNull
           ("clear-canvas"%string, JStr "ABC123")).
  right. right. right. right. left. exact Hm.
Defined.

End PersistenceFacts.
